(** * libbe: boot-environment creation, copy and destruction (be_create.c)

    A shallow embedding of [usr/src/lib/libbe/be_create.c] and the
    properties of its three public operations [be_init], [be_copy] and
    [be_destroy], of the hierarchy callbacks and of [be_get_snap].

    Conventions of the embedding.
    - A C string is the Rocq [string] of its characters before the
      terminating NUL; a [char *] that may be [NULL] is an [option string].
    - Return codes are [Z], as the C [int]s they are.
    - The ZFS name space reached through [g_zfs] is a finite map from
      dataset names to their attributes; libzfs itself is not part of
      be_create.c, so its calls are given the meaning libzfs documents for
      them (section "libzfs").
    - The nvlists handled here are allocated with [NV_UNIQUE_NAME] (or
      checked to be unique): an nvlist is a finite map from names to
      string values, and adding a pair replaces the pair of that name.
    - Buffers are [MAXPATHLEN] wide and libzfs refuses every name of
      [ZFS_MAXNAMELEN] characters or more, so no [snprintf] or [strlcpy]
      of this file truncates a name that libzfs accepts; truncation is
      not modelled.
    - A pointer into a string is read up to the terminator only: where
      the C code would read the bytes of a buffer that follow it, which
      nothing initialised, the embedding has no result. *)

From Stdlib Require Import ZArith Lia Ascii String.
From stdpp Require Import gmap strings list fin_maps.

Local Open Scope Z_scope.
Local Open Scope string_scope.

(** ** C string functions *)

Module Cstr.

(** [strrchr s c]: index of the last occurrence of [c] in [s]. *)
Fixpoint strrchr (s : string) (c : ascii) : option nat :=
  match s with
  | EmptyString => None
  | String a s' =>
      match strrchr s' c with
      | Some i => Some (S i)
      | None => if decide (a = c) then Some O else None
      end
  end.

(** [strncmp s1 s2 n]: difference of the first differing characters among
    the first [n]; the end of a string reads as NUL. *)
Fixpoint strncmp (s1 s2 : string) (n : nat) : Z :=
  match n with
  | O => 0
  | S n' =>
      match s1, s2 with
      | EmptyString, EmptyString => 0
      | EmptyString, String c2 _ => - Z.of_nat (nat_of_ascii c2)
      | String c1 _, EmptyString => Z.of_nat (nat_of_ascii c1)
      | String c1 r1, String c2 r2 =>
          if decide (c1 = c2) then strncmp r1 r2 n'
          else Z.of_nat (nat_of_ascii c1) - Z.of_nat (nat_of_ascii c2)
      end
  end.

Definition strcmp (s1 s2 : string) : Z :=
  strncmp s1 s2 (S (String.length s1 `max` String.length s2)).

(** [s + n] for a pointer [s] into a string and [n] no more than the
    length of [s]: the string from offset [n], which is empty when [n]
    is the length.  (Beyond the terminator C reads whatever the buffer
    holds; the callers below keep [n] in range.) *)
Fixpoint offset (s : string) (n : nat) : string :=
  match n, s with
  | O, _ => s
  | S n', String _ s' => offset s' n'
  | S _, EmptyString => EmptyString
  end.

(** The characters of [s] before offset [n]: what [s] reads as once
    [s[n]] is overwritten with NUL. *)
Fixpoint upto (s : string) (n : nat) : string :=
  match n, s with
  | S n', String a s' => String a (upto s' n')
  | _, _ => EmptyString
  end.

(** [c] occurs in [s]. *)
Fixpoint occurs (c : ascii) (s : string) : Prop :=
  match s with
  | EmptyString => False
  | String a s' => a = c \/ occurs c s'
  end.

End Cstr.

Import Cstr.

(** ** be_get_snap (lines 1682-1704)

    [origin] is modified in place and [*snap] is written only on
    success: the result is the return code, the contents of [origin]
    afterwards and the value written to [*snap], if any. *)

Definition be_get_snap (origin : string) : Z * string * option string :=
  match strrchr origin "@" with
  | Some cp =>
      match offset origin (S cp) with
      | String _ _ as cp1 => (0, upto origin cp, Some cp1)
      | EmptyString => (1, origin, None)
      end
  | None => (1, origin, None)
  end.

(** ** libzfs

    The part of libzfs and of <sys/fs/zfs.h> that be_create.c uses.  A
    handle ([zfs_handle_t *], [zpool_handle_t *]) is the name of the
    dataset or pool it was opened on. *)

Abbreviation nvlist := (gmap string string).

Definition ZFS_MAXNAMELEN : nat := 256.
Definition ZFS_MOUNTPOINT_LEGACY : string := "legacy".
Definition ZFS_MOUNTPOINT_NONE : string := "none".
Definition ZFS_PROP_MOUNTPOINT : string := "mountpoint".
Definition ZFS_PROP_CANMOUNT : string := "canmount".

(** [zprop_source_t] is a bit mask. *)
Definition ZPROP_SRC_LOCAL : Z := 8.
Definition ZPROP_SRC_INHERITED : Z := 16.

Inductive zfs_type_t := ZFS_TYPE_FILESYSTEM | ZFS_TYPE_SNAPSHOT.

Inductive zfs_error :=
  | EZFS_SUCCESS | EZFS_EXISTS | EZFS_NOENT | EZFS_BUSY | EZFS_NAMETOOLONG
  | EZFS_BADTYPE.

#[global] Instance zfs_error_eq_dec : EqDecision zfs_error.
Proof. solve_decision. Defined.

Record dataset := Dataset {
  ds_props : nvlist;             (* the properties set on the dataset itself *)
  ds_mountpoint : string * Z;    (* its mountpoint and the source of that
                                    value, as zfs_prop_get reports them *)
  ds_mounted : option string;    (* where it is mounted, if it is *)
  ds_origin : option string;     (* the snapshot it is a clone of *)
  ds_snaps : gset string;        (* the names of its snapshots *)
}.

(** The state behind [g_zfs]: pools in the order zpool_iter visits them,
    the file systems by name, and the error of the last failed call. *)
Record libzfs_handle := Libzfs {
  zpools : list string;
  zfs_ds : gmap string dataset;
  zfs_errno : zfs_error;
}.

(** The libzfs calls that change the name space, as be_create.c issues
    them. *)
Inductive zfs_call :=
  | Zfs_create (name : string) (props : nvlist)
  | Zfs_clone (snap target : string) (props : nvlist)
  | Zfs_snapshot (name : string) (recursive : bool)
  | Zfs_unmount (name : string)
  | Zfs_destroy (name : string)
  | Zfs_destroy_snaps (name snap : string)
  | Zfs_receive (target snap : string)
  | Zfs_prop_set (name prop val : string).

Module Zfs.

Definition set_ds (h : libzfs_handle) (m : gmap string dataset) : libzfs_handle :=
  Libzfs (zpools h) m (zfs_errno h).

Definition set_errno (h : libzfs_handle) (e : zfs_error) : libzfs_handle :=
  Libzfs (zpools h) (zfs_ds h) e.

(** The name of the parent of a dataset: what precedes its last '/'. *)
Definition parent (name : string) : option string :=
  match strrchr name "/" with
  | Some i => Some (upto name i)
  | None => None
  end.

(** The last component of a dataset name. *)
Definition last_component (name : string) : string :=
  match strrchr name "/" with
  | Some i => offset name (S i)
  | None => name
  end.

(** [ds@snap] splits at its '@'. *)
Definition snap_split (name : string) : option (string * string) :=
  match strrchr name "@" with
  | Some i => Some (upto name i, offset name (S i))
  | None => None
  end.

(** The child file systems of [name], in the order of iteration. *)
Definition children (m : gmap string dataset) (name : string) : list string :=
  filter (fun k => parent k = Some name) (map_to_list m).*1.

(** [k] is [root] or lies below it. *)
Definition in_subtree (root k : string) : bool :=
  bool_decide (k = root) || String.prefix (root +:+ "/") k.

Definition snapshot_exists (m : gmap string dataset) (name : string) : bool :=
  match snap_split name with
  | Some (ds, snap) =>
      match m !! ds with
      | Some d => bool_decide (snap ∈ ds_snaps d)
      | None => false
      end
  | None => false
  end.

(** The number of clones whose origin is the snapshot [snap]. *)
Definition numclones (m : gmap string dataset) (snap : string) : nat :=
  length (filter (fun kd => ds_origin kd.2 = Some snap) (map_to_list m)).

Definition too_long (name : string) : bool :=
  bool_decide (ZFS_MAXNAMELEN <= String.length name)%nat.

(** The mountpoint a new dataset reports: its own when the property list
    sets one, its parent's extended by its last component otherwise. *)
Definition new_mountpoint (pd : dataset) (name : string) (props : nvlist)
    : string * Z :=
  match props !! ZFS_PROP_MOUNTPOINT with
  | Some mp => (mp, ZPROP_SRC_LOCAL)
  | None =>
      let pmp := (ds_mountpoint pd).1 in
      if bool_decide (pmp = ZFS_MOUNTPOINT_LEGACY) || bool_decide (pmp = ZFS_MOUNTPOINT_NONE)
      then (pmp, ZPROP_SRC_INHERITED)
      else (pmp +:+ "/" +:+ last_component name, ZPROP_SRC_INHERITED)
  end.

Definition new_dataset (pd : dataset) (name : string) (props : nvlist)
    (origin : option string) : dataset :=
  Dataset props (new_mountpoint pd name props) None origin ∅.

(** Creation of [name], as a fresh file system or as a clone of [origin]:
    refused when the name is too long, taken, or has no parent. *)
Definition create (h : libzfs_handle) (name : string) (props : nvlist)
    (origin : option string) : Z * libzfs_handle :=
  if too_long name then (-1, set_errno h EZFS_NAMETOOLONG) else
  match zfs_ds h !! name with
  | Some _ => (-1, set_errno h EZFS_EXISTS)
  | None =>
      match parent name with
      | None => (-1, set_errno h EZFS_NOENT)
      | Some p =>
          match zfs_ds h !! p with
          | None => (-1, set_errno h EZFS_NOENT)
          | Some pd =>
              (0, set_ds h (<[name := new_dataset pd name props origin]> (zfs_ds h)))
          end
      end
  end.

End Zfs.

Definition zpool_open (h : libzfs_handle) (pool : string) : option string :=
  if bool_decide (pool ∈ zpools h) then Some pool else None.

Definition zfs_dataset_exists (h : libzfs_handle) (name : string) (t : zfs_type_t) : bool :=
  match t with
  | ZFS_TYPE_FILESYSTEM => bool_decide (is_Some (zfs_ds h !! name))
  | ZFS_TYPE_SNAPSHOT => Zfs.snapshot_exists (zfs_ds h) name
  end.

(** [zfs_open]: the handle, or [None] for [NULL]. *)
Definition zfs_open (h : libzfs_handle) (name : string) (t : zfs_type_t)
    : option string * libzfs_handle :=
  if zfs_dataset_exists h name t then (Some name, h)
  else (None, Zfs.set_errno h EZFS_NOENT).

Definition zfs_create (h : libzfs_handle) (name : string) (props : nvlist)
    : Z * libzfs_handle :=
  Zfs.create h name props None.

(** [zfs_clone zhp_ss target props], [zhp_ss] an open snapshot. *)
Definition zfs_clone (h : libzfs_handle) (zhp_ss target : string) (props : nvlist)
    : Z * libzfs_handle :=
  Zfs.create h target props (Some zhp_ss).

Definition add_snap (snap : string) (d : dataset) : dataset :=
  Dataset (ds_props d) (ds_mountpoint d) (ds_mounted d) (ds_origin d)
    ({[snap]} ∪ ds_snaps d).

Definition del_snap (snap : string) (d : dataset) : dataset :=
  Dataset (ds_props d) (ds_mountpoint d) (ds_mounted d) (ds_origin d)
    (ds_snaps d ∖ {[snap]}).

Definition set_mounted (mp : option string) (d : dataset) : dataset :=
  Dataset (ds_props d) (ds_mountpoint d) mp (ds_origin d) (ds_snaps d).

Definition set_prop (k v : string) (d : dataset) : dataset :=
  Dataset (<[k := v]> (ds_props d)) (ds_mountpoint d) (ds_mounted d)
    (ds_origin d) (ds_snaps d).

(** The datasets the snapshot [snap] of [root] covers: [root] alone, or
    with everything below it when taken or destroyed recursively. *)
Definition snap_covers (root : string) (recursive : bool) (k : string) : bool :=
  if recursive then Zfs.in_subtree root k else bool_decide (k = root).

Definition snap_targets (m : gmap string dataset) (root : string) (recursive : bool)
    : gmap string dataset :=
  filter (fun kd => snap_covers root recursive kd.1 = true) m.

(** [zfs_snapshot path recursive]: all or nothing. *)
Definition zfs_snapshot (h : libzfs_handle) (path : string) (recursive : bool)
    : Z * libzfs_handle :=
  match Zfs.snap_split path with
  | None => (-1, Zfs.set_errno h EZFS_BADTYPE)
  | Some (ds, snap) =>
      match zfs_ds h !! ds with
      | None => (-1, Zfs.set_errno h EZFS_NOENT)
      | Some _ =>
          let tg := snap_targets (zfs_ds h) ds recursive in
          if bool_decide (map_Forall (fun _ d => snap ∉ ds_snaps d) tg)
          then (0, Zfs.set_ds h ((add_snap snap <$> tg) ∪ zfs_ds h))
          else (-1, Zfs.set_errno h EZFS_EXISTS)
      end
  end.

(** [zfs_is_mounted zhp &mp]. *)
Definition zfs_is_mounted (h : libzfs_handle) (zhp : string) : option string :=
  match zfs_ds h !! zhp with
  | Some d => ds_mounted d
  | None => None
  end.

(** [zfs_prop_get zhp ZFS_PROP_MOUNTPOINT]: the value and its source. *)
Definition zfs_prop_get_mountpoint (h : libzfs_handle) (zhp : string)
    : option (string * Z) :=
  ds_mountpoint <$> zfs_ds h !! zhp.

(** [zfs_prop_get zhp ZFS_PROP_ORIGIN] fails on a dataset that is not a
    clone. *)
Definition zfs_prop_get_origin (h : libzfs_handle) (zhp : string) : option string :=
  zfs_ds h !! zhp ≫= ds_origin.

(** [zfs_prop_get zhp ZFS_PROP_NUMCLONES], [zhp] an open snapshot; the
    decimal text libzfs renders is read back by sscanf as the number. *)
Definition zfs_prop_get_numclones (h : libzfs_handle) (zhp : string) : option nat :=
  if Zfs.snapshot_exists (zfs_ds h) zhp then Some (Zfs.numclones (zfs_ds h) zhp)
  else None.

(** [zfs_unmount zhp NULL B_TRUE]: forced; nothing to do when not
    mounted. *)
Definition zfs_unmount (h : libzfs_handle) (zhp : string) : Z * libzfs_handle :=
  match zfs_ds h !! zhp with
  | Some d => (0, Zfs.set_ds h (<[zhp := set_mounted None d]> (zfs_ds h)))
  | None => (-1, Zfs.set_errno h EZFS_NOENT)
  end.

(** [zfs_destroy zhp]: refused while the file system has children or
    snapshots. *)
Definition zfs_destroy (h : libzfs_handle) (zhp : string) : Z * libzfs_handle :=
  match zfs_ds h !! zhp with
  | None => (-1, Zfs.set_errno h EZFS_NOENT)
  | Some d =>
      if bool_decide (Zfs.children (zfs_ds h) zhp = [] /\ ds_snaps d = ∅)
      then (0, Zfs.set_ds h (delete zhp (zfs_ds h)))
      else (-1, Zfs.set_errno h EZFS_EXISTS)
  end.

(** [zfs_destroy_snaps zhp snap]: destroys [snap] on [zhp] and on every
    file system below it; refused when there is none, or when one of
    them still has clones. *)
Definition zfs_destroy_snaps (h : libzfs_handle) (zhp snap : string)
    : Z * libzfs_handle :=
  let tg := filter (fun kd => snap ∈ ds_snaps kd.2) (snap_targets (zfs_ds h) zhp true) in
  if bool_decide (tg = ∅) then (-1, Zfs.set_errno h EZFS_NOENT)
  else if bool_decide (map_Forall (fun k _ => Zfs.numclones (zfs_ds h) (k +:+ "@" +:+ snap) = O) tg)
  then (0, Zfs.set_ds h ((del_snap snap <$> tg) ∪ zfs_ds h))
  else (-1, Zfs.set_errno h EZFS_EXISTS).

(** [zfs_prop_set zhp prop val]. *)
Definition zfs_prop_set (h : libzfs_handle) (zhp prop val : string) : Z * libzfs_handle :=
  match zfs_ds h !! zhp with
  | Some d => (0, Zfs.set_ds h (<[zhp := set_prop prop val d]> (zfs_ds h)))
  | None => (-1, Zfs.set_errno h EZFS_NOENT)
  end.

(** [zfs_send zhp snap] into a pipe and [zfs_receive target] from it with
    the force flag: the stream of [zhp@snap] overwrites [target], which
    then carries the snapshot.  The first component is the exit status
    of the sender, the second the result of the receive. *)
Definition zfs_send_receive (h : libzfs_handle) (zhp snap target : string)
    : Z * Z * libzfs_handle :=
  if Zfs.snapshot_exists (zfs_ds h) (zhp +:+ "@" +:+ snap) then
    match zfs_ds h !! target with
    | Some d => (0, 0, Zfs.set_ds h (<[target := add_snap snap d]> (zfs_ds h)))
    | None => (0, -1, Zfs.set_errno h EZFS_NOENT)
    end
  else (1, -1, Zfs.set_errno h EZFS_NOENT).

(** ** libnvpair, for a list of unique names

    A [NULL] list is refused with [EINVAL]; removing a name that is not
    there gives [ENOENT]. *)

Definition EINVAL : Z := 22.
Definition ENOENT : Z := 2.

Definition nvlist_add_string (nvl : option nvlist) (name val : string)
    : Z * option nvlist :=
  match nvl with
  | Some l => (0, Some (<[name := val]> l))
  | None => (EINVAL, None)
  end.

Definition nvlist_remove_all (nvl : option nvlist) (name : string)
    : Z * option nvlist :=
  match nvl with
  | Some l =>
      match l !! name with
      | Some _ => (0, Some (delete name l))
      | None => (ENOENT, Some l)
      end
  | None => (EINVAL, None)
  end.

(** The property list a libzfs call receives: none for [NULL]. *)
Definition nvl_props (nvl : option nvlist) : nvlist := default ∅ nvl.

(** ** The rest of libbe

    libbe_priv.h and the other files of libbe are not under src/: the
    constants and the helper functions be_create.c takes from them are
    the fields of [libbe]. *)

Record libbe := Libbe {
  BE_CONTAINER_DS_NAME : string;
  BE_AUTO_NAME_MAX_TRY : Z;
  BE_ERR_EXISTS : Z;
  BE_POLICY_PROPERTY : string;
  be_zfs_init : bool;
  be_valid_be_name : string -> bool;
  be_default_policy : string;
  (* the name the n-th call of be_auto_be_name returns for a BE *)
  be_auto_be_name : nat -> string -> option string;
  (* the snapshot name _be_create_snapshot picks for a BE *)
  be_auto_snap_name : string -> option string;
  be_update_vfstab : string -> string -> Z;
  be_append_grub : string -> string -> option string -> Z;
  be_remove_grub : string -> string -> Z;
}.

(** [be_transaction_data_t]; every member is a pointer, [NULL] at first. *)
Record be_transaction_data := Bt {
  obe_name : option string;
  obe_root_ds : option string;
  obe_zpool : option string;
  obe_snap_name : option string;
  nbe_name : option string;
  nbe_root_ds : option string;
  nbe_zpool : option string;
  nbe_desc : option string;
  nbe_zfs_props : option nvlist;
  policy : option string;
}.

Definition bt0 : be_transaction_data :=
  Bt None None None None None None None None None None.

(** The attributes of the caller's [be_attrs]; a lookup cannot meet a
    pair of the wrong type.  The flag of [BE_ATTR_ZFS_PROPERTIES] tells
    that the list has [NV_UNIQUE_NAME] or [NV_UNIQUE_NAME_TYPE]. *)
Record be_attrs := BeAttrs {
  BE_ATTR_ORIG_BE_NAME : option string;
  BE_ATTR_SNAP_NAME : option string;
  BE_ATTR_NEW_BE_NAME : option string;
  BE_ATTR_NEW_BE_POOL : option string;
  BE_ATTR_NEW_BE_DESC : option string;
  BE_ATTR_ZFS_PROPERTIES : option (bool * nvlist);
  BE_ATTR_POLICY : option string;
  BE_ATTR_FS_NUM : option nat;
  BE_ATTR_FS_NAMES : option (list string);
  BE_ATTR_SHARED_FS_NUM : option nat;
  BE_ATTR_SHARED_FS_NAMES : option (list string);
}.

(** ** State and control

    What a call of this file can see and change: its transaction data,
    the libzfs handle, and, for the record, the name-space calls it
    issued, the messages it printed, the pairs it added to the caller's
    [be_attrs] and how many auto names it asked for. *)

Record state := State {
  bt : be_transaction_data;
  g_zfs : libzfs_handle;
  zfs_calls : list zfs_call;
  be_errs : list string;
  be_attrs_added : list (string * string);
  be_auto_names : nat;
}.

Definition init_state (h : libzfs_handle) : state := State bt0 h [] [] [] O.

(** A statement either falls through with a value or leaves the function
    with a return code; [None] stands for a run that has no defined
    result: a [NULL] pointer read as a string, a string read past its
    terminator, or a hierarchy walk deeper than any dataset name
    allows. *)
Inductive flow (A : Type) :=
  | Next (a : A)
  | Return (rc : Z).
Arguments Next {A} a.
Arguments Return {A} rc.

Definition M (A : Type) : Type := state -> option (flow A * state).

Definition ret {A} (a : A) : M A := fun s => Some (Next a, s).

Definition bind {A B} (m : M A) (k : A -> M B) : M B :=
  fun s =>
    match m s with
    | Some (Next a, s') => k a s'
    | Some (Return rc, s') => Some (Return rc, s')
    | None => None
    end.

Notation "'do' x <- m ; k" := (bind m (fun x => k))
  (at level 10, x name, m at level 100, k at level 200).
Notation "'do' ' p <- m ; k" := (bind m (fun x => match x with p => k end))
  (at level 10, p pattern, m at level 100, k at level 200).
Notation "'run' m ; k" := (bind m (fun _ => k))
  (at level 10, m at level 100, k at level 200).

Definition leave {A} (rc : Z) : M A := fun s => Some (Return rc, s).

(** The body of a C function returning [int]. *)
Definition body (m : M Z) : state -> option (Z * state) :=
  fun s =>
    match m s with
    | Some (Next rc, s') | Some (Return rc, s') => Some (rc, s')
    | None => None
    end.

(** A call of such a function. *)
Definition call (f : state -> option (Z * state)) : M Z :=
  fun s =>
    match f s with
    | Some (rc, s') => Some (Next rc, s')
    | None => None
    end.

(** The updates of the state. *)
Definition with_bt (f : be_transaction_data -> be_transaction_data) (s : state) : state :=
  State (f (bt s)) (g_zfs s) (zfs_calls s) (be_errs s) (be_attrs_added s)
        (be_auto_names s).
Definition with_zfs (h : libzfs_handle) (s : state) : state :=
  State (bt s) h (zfs_calls s) (be_errs s) (be_attrs_added s) (be_auto_names s).
Definition with_call (c : zfs_call) (s : state) : state :=
  State (bt s) (g_zfs s) (zfs_calls s ++ [c]) (be_errs s) (be_attrs_added s)
        (be_auto_names s).
Definition with_err (msg : string) (s : state) : state :=
  State (bt s) (g_zfs s) (zfs_calls s) (be_errs s ++ [msg]) (be_attrs_added s)
        (be_auto_names s).
Definition with_attr (name val : string) (s : state) : state :=
  State (bt s) (g_zfs s) (zfs_calls s) (be_errs s)
        (be_attrs_added s ++ [(name, val)]) (be_auto_names s).
Definition with_auto_name (s : state) : state :=
  State (bt s) (g_zfs s) (zfs_calls s) (be_errs s) (be_attrs_added s)
        (S (be_auto_names s)).

Definition get_bt : M be_transaction_data := fun s => Some (Next (bt s), s).

Definition set_bt (f : be_transaction_data -> be_transaction_data) : M unit :=
  fun s => Some (Next tt, with_bt f s).

(** Reading the string behind a pointer. *)
Definition deref (p : option string) : M string :=
  fun s => match p with Some x => Some (Next x, s) | None => None end.

(** A statement C gives no meaning to: there is no result. *)
Definition undefined {A} : M A := fun _ => None.

Definition be_print_err (msg : string) : M unit :=
  fun s => Some (Next tt, with_err msg s).

Definition bail {A} (msg : string) : M A := run be_print_err msg; leave 1.

Definition when (b : bool) (m : M unit) : M unit := if b then m else ret tt.

(** A libzfs call that only reads. *)
Definition query {A} (f : libzfs_handle -> A) : M A :=
  fun s => Some (Next (f (g_zfs s)), s).

(** A libzfs call that may set the error of the handle. *)
Definition zfs {A} (f : libzfs_handle -> A * libzfs_handle) : M A :=
  fun s => Some (Next (f (g_zfs s)).1, with_zfs (f (g_zfs s)).2 s).

(** A libzfs call that changes the name space. *)
Definition zfs_do {A} (c : zfs_call) (f : libzfs_handle -> A * libzfs_handle) : M A :=
  fun s => Some (Next (f (g_zfs s)).1, with_zfs (f (g_zfs s)).2 (with_call c s)).

(** [nvlist_add_string(be_attrs, name, val)] on the caller's list. *)
Definition be_attrs_add (name val : string) : M Z :=
  fun s => Some (Next 0, with_attr name val s).

(** The setters of the transaction data. *)
Definition set_obe_name (v : option string) (b : be_transaction_data) :=
  Bt v (obe_root_ds b) (obe_zpool b) (obe_snap_name b) (nbe_name b)
     (nbe_root_ds b) (nbe_zpool b) (nbe_desc b) (nbe_zfs_props b) (policy b).
Definition set_obe_root_ds (v : option string) (b : be_transaction_data) :=
  Bt (obe_name b) v (obe_zpool b) (obe_snap_name b) (nbe_name b)
     (nbe_root_ds b) (nbe_zpool b) (nbe_desc b) (nbe_zfs_props b) (policy b).
Definition set_obe_zpool (v : option string) (b : be_transaction_data) :=
  Bt (obe_name b) (obe_root_ds b) v (obe_snap_name b) (nbe_name b)
     (nbe_root_ds b) (nbe_zpool b) (nbe_desc b) (nbe_zfs_props b) (policy b).
Definition set_obe_snap_name (v : option string) (b : be_transaction_data) :=
  Bt (obe_name b) (obe_root_ds b) (obe_zpool b) v (nbe_name b)
     (nbe_root_ds b) (nbe_zpool b) (nbe_desc b) (nbe_zfs_props b) (policy b).
Definition set_nbe_name (v : option string) (b : be_transaction_data) :=
  Bt (obe_name b) (obe_root_ds b) (obe_zpool b) (obe_snap_name b) v
     (nbe_root_ds b) (nbe_zpool b) (nbe_desc b) (nbe_zfs_props b) (policy b).
Definition set_nbe_root_ds (v : option string) (b : be_transaction_data) :=
  Bt (obe_name b) (obe_root_ds b) (obe_zpool b) (obe_snap_name b) (nbe_name b)
     v (nbe_zpool b) (nbe_desc b) (nbe_zfs_props b) (policy b).
Definition set_nbe_zpool (v : option string) (b : be_transaction_data) :=
  Bt (obe_name b) (obe_root_ds b) (obe_zpool b) (obe_snap_name b) (nbe_name b)
     (nbe_root_ds b) v (nbe_desc b) (nbe_zfs_props b) (policy b).
Definition set_nbe_desc (v : option string) (b : be_transaction_data) :=
  Bt (obe_name b) (obe_root_ds b) (obe_zpool b) (obe_snap_name b) (nbe_name b)
     (nbe_root_ds b) (nbe_zpool b) v (nbe_zfs_props b) (policy b).
Definition set_nbe_zfs_props (v : option nvlist) (b : be_transaction_data) :=
  Bt (obe_name b) (obe_root_ds b) (obe_zpool b) (obe_snap_name b) (nbe_name b)
     (nbe_root_ds b) (nbe_zpool b) (nbe_desc b) v (policy b).
Definition set_policy (v : option string) (b : be_transaction_data) :=
  Bt (obe_name b) (obe_root_ds b) (obe_zpool b) (obe_snap_name b) (nbe_name b)
     (nbe_root_ds b) (nbe_zpool b) (nbe_desc b) (nbe_zfs_props b) v.

(** [nvlist_add_string(bt->nbe_zfs_props, name, val)] and
    [nvlist_remove_all(bt->nbe_zfs_props, name)]. *)
Definition props_add_string (name val : string) : M Z :=
  do b <- get_bt;
  let '(rc, l) := nvlist_add_string (nbe_zfs_props b) name val in
  run set_bt (set_nbe_zfs_props l);
  ret rc.

Definition props_remove_all (name : string) : M Z :=
  do b <- get_bt;
  let '(rc, l) := nvlist_remove_all (nbe_zfs_props b) name in
  run set_bt (set_nbe_zfs_props l);
  ret rc.

(** Iteration with a callback stops at the first result that is not 0
    and returns it. *)
Fixpoint iter_until (cb : string -> state -> option (Z * state)) (l : list string)
    (s : state) : option (Z * state) :=
  match l with
  | [] => Some (0, s)
  | x :: l' =>
      match cb x s with
      | Some (rc, s') => if decide (rc = 0) then iter_until cb l' s' else Some (rc, s')
      | None => None
      end
  end.

Definition zfs_iter_filesystems (zhp : string)
    (cb : string -> state -> option (Z * state)) : state -> option (Z * state) :=
  fun s => iter_until cb (Zfs.children (zfs_ds (g_zfs s)) zhp) s.

Definition zpool_iter (cb : string -> state -> option (Z * state))
    : state -> option (Z * state) :=
  fun s => iter_until cb (zpools (g_zfs s)) s.

(** ** The functions of be_create.c *)

Section BeCreate.

Context (E : libbe).

(** Modelled from the spec: be_make_container_ds and be_make_root_ds
    (be_utils.c is not under src/): the BE container is the dataset
    <pool>/<container-name> and the root dataset of a BE is
    <pool>/<container>/<BE-name>. *)
Definition be_make_container_ds (zpool : string) : string :=
  zpool +:+ "/" +:+ BE_CONTAINER_DS_NAME E.

Definition be_make_root_ds (zpool be_name : string) : string :=
  be_make_container_ds zpool +:+ "/" +:+ be_name.

(** *** be_find_zpool_callback (lines 1075-1097) *)
Definition be_find_zpool_callback (zlp : string) : state -> option (Z * state) :=
  body (
    do b <- get_bt;
    let zpool := zlp in
    do name <- deref (obe_name b);
    let be_root_ds := be_make_root_ds zpool name in
    do ex <- query (fun h => zfs_dataset_exists h be_root_ds ZFS_TYPE_FILESYSTEM);
    if ex then
      run set_bt (set_obe_zpool (Some zpool));
      leave 1
    else leave 0).

(** *** be_exists_callback (lines 1112-1133) *)
Definition be_exists_callback (be_name : string) (zlp : string)
    : state -> option (Z * state) :=
  body (
    let zpool := zlp in
    let be_root_ds := be_make_root_ds zpool be_name in
    do ex <- query (fun h => zfs_dataset_exists h be_root_ds ZFS_TYPE_FILESYSTEM);
    if ex then leave 1 else leave 0).

(** *** be_zfs_find_current_be_callback (lines 1218-1245) *)
Definition be_zfs_find_current_be_callback (zhp : string) : state -> option (Z * state) :=
  body (
    do mp <- query (fun h => zfs_is_mounted h zhp);
    match mp with
    | Some mp =>
        if decide (strcmp mp "/" = 0) then
          run set_bt (set_obe_root_ds (Some zhp));
          run set_bt (set_obe_name (Some (Zfs.last_component zhp)));
          leave 1
        else leave 0
    | None => leave 0
    end).

(** *** be_zpool_find_current_be_callback (lines 1152-1199) *)
Definition be_zpool_find_current_be_callback (zlp : string) : state -> option (Z * state) :=
  body (
    let zpool := zlp in
    let be_container_ds := be_make_container_ds zpool in
    do ex <- query (fun h => zfs_dataset_exists h be_container_ds ZFS_TYPE_FILESYSTEM);
    if negb ex then leave 0 else
    do zhp <- zfs (fun h => zfs_open h be_container_ds ZFS_TYPE_FILESYSTEM);
    match zhp with
    | None =>
        run be_print_err "be_zpool_find_current_be_callback: failed to open BE container dataset (%s)";
        leave 0
    | Some zhp =>
        do r <- call (zfs_iter_filesystems zhp be_zfs_find_current_be_callback);
        if decide (r = 0) then leave 0 else
        run set_bt (set_obe_zpool (Some zpool));
        leave 1
    end).

(** *** be_clone_fs_callback (lines 1265-1412) *)
Fixpoint be_clone_fs_callback (depth : nat) (zhp : string) : state -> option (Z * state) :=
  match depth with
  | O => fun _ => None
  | S depth' =>
  body (
    do b <- get_bt;
    let zhp_name := zhp in
    (* dataset name relative to the root *)
    do obe_root <- deref (obe_root_ds b);
    do child_fs <-
      (if decide (0 <= strncmp zhp_name obe_root (String.length obe_root))
       then
         (* zhp_name + strlen(obe_root_ds) lies in the name or on its
            terminator; past it zhp_name[] is not initialised *)
         if decide (String.length obe_root <= String.length zhp_name)%nat
         then ret (offset zhp_name (String.length obe_root))
         else undefined
       else leave 1);
    (* the name of the clone file system *)
    do nbe_root <- deref (nbe_root_ds b);
    let clone_ds := nbe_root +:+ child_fs in
    (* the mountpoint of this dataset *)
    run (if decide (strcmp child_fs "" = 0) then
           let mountpoint := ZFS_MOUNTPOINT_LEGACY in
           do r <- props_add_string ZFS_PROP_MOUNTPOINT mountpoint;
           when (negb (bool_decide (r = 0)))
             (bail "be_clone_fs_callback: internal error: out of memory")
         else
           do mp <- query (fun h => zfs_prop_get_mountpoint h zhp);
           match mp with
           | None => bail "be_clone_fs_callback: failed to get mountpoint for (%s)"
           | Some (mountpoint, sourcetype) =>
               if decide (Z.land sourcetype ZPROP_SRC_LOCAL <> 0) then
                 do r <- props_add_string ZFS_PROP_MOUNTPOINT mountpoint;
                 when (negb (bool_decide (r = 0)))
                   (bail "be_clone_fs_callback: internal error: out of memory")
               else
                 do r <- props_remove_all ZFS_PROP_MOUNTPOINT;
                 when (negb (bool_decide (r = 0)) && negb (bool_decide (r = ENOENT)))
                   (bail "be_clone_fs_callback: failed to remove mountpoint from nvlist")
           end);
    (* the 'canmount' property *)
    do r <- props_add_string ZFS_PROP_CANMOUNT "noauto";
    run when (negb (bool_decide (r = 0)))
          (bail "be_clone_fs_callback: internal error: out of memory");
    (* the name of the snapshot to use, and a handle to it *)
    do snap_name <- deref (obe_snap_name b);
    let ss := zhp_name +:+ "@" +:+ snap_name in
    do zhp_ss <- zfs (fun h => zfs_open h ss ZFS_TYPE_SNAPSHOT);
    match zhp_ss with
    | None => bail "be_clone_fs_callback: failed to get handle to snapshot (%s): %s"
    | Some zhp_ss =>
        (* clone the dataset *)
        do b <- get_bt;
        let props := nvl_props (nbe_zfs_props b) in
        do r <- zfs_do (Zfs_clone zhp_ss clone_ds props)
                       (fun h => zfs_clone h zhp_ss clone_ds props);
        if decide (r <> 0) then
          run be_print_err "be_clone_fs_callback: failed to create clone dataset (%s): %s";
          do e <- query zfs_errno;
          if decide (e = EZFS_EXISTS) then leave (BE_ERR_EXISTS E) else leave 1
        else
          (* the children of zhp; the result of the iteration is dropped *)
          do _ <- call (zfs_iter_filesystems zhp (be_clone_fs_callback depth'));
          leave 0
    end)
  end.

(** *** be_send_fs_callback (lines 1428-1628)

    The child process that sends and the parent that receives are one
    step, [zfs_send_receive]; a failed receive is printed and nothing
    else, the exit status of the sender decides. *)
Fixpoint be_send_fs_callback (depth : nat) (zhp : string) : state -> option (Z * state) :=
  match depth with
  | O => fun _ => None
  | S depth' =>
  body (
    do b <- get_bt;
    let zhp_name := zhp in
    do obe_root <- deref (obe_root_ds b);
    do child_fs <-
      (if decide (0 <= strncmp zhp_name obe_root (String.length obe_root))
       then
         (* zhp_name + strlen(obe_root_ds) lies in the name or on its
            terminator; past it zhp_name[] is not initialised *)
         if decide (String.length obe_root <= String.length zhp_name)%nat
         then ret (offset zhp_name (String.length obe_root))
         else undefined
       else leave 1);
    do nbe_root <- deref (nbe_root_ds b);
    let clone_ds := nbe_root +:+ child_fs in
    run (if decide (strcmp child_fs "" = 0) then
           let mountpoint := ZFS_MOUNTPOINT_LEGACY in
           do r <- props_add_string ZFS_PROP_MOUNTPOINT mountpoint;
           when (negb (bool_decide (r = 0)))
             (bail "be_send_fs_callback: internal error: out of memory")
         else
           do mp <- query (fun h => zfs_prop_get_mountpoint h zhp);
           match mp with
           | None => bail "be_send_fs_callback: failed to get mountpoint for (%s)"
           | Some (mountpoint, sourcetype) =>
               if decide (Z.land sourcetype ZPROP_SRC_LOCAL <> 0) then
                 do r <- props_add_string ZFS_PROP_MOUNTPOINT mountpoint;
                 when (negb (bool_decide (r = 0)))
                   (bail "be_send_fs_callback: internal error: out of memory")
               else
                 do r <- props_remove_all ZFS_PROP_MOUNTPOINT;
                 when (negb (bool_decide (r = 0)) && negb (bool_decide (r = ENOENT)))
                   (bail "be_send_fs_callback: failed to remove mountpoint from nvlist")
           end);
    do r <- props_add_string ZFS_PROP_CANMOUNT "noauto";
    run when (negb (bool_decide (r = 0))) (leave 1);
    do snap_name <- deref (obe_snap_name b);
    let ss := zhp_name +:+ "@" +:+ snap_name in
    do zhp_ss <- zfs (fun h => zfs_open h ss ZFS_TYPE_SNAPSHOT);
    match zhp_ss with
    | None => bail "be_send_fs_callback: failed to get handle to snapshot (%s): %s"
    | Some zhp_ss =>
        (* create the new dataset *)
        do b <- get_bt;
        let props := nvl_props (nbe_zfs_props b) in
        do r <- zfs_do (Zfs_create clone_ds props)
                       (fun h => zfs_create h clone_ds props);
        if decide (r <> 0) then
          bail "be_send_fs_callback: failed to create new dataset '%s': %s"
        else
          (* send from the child, receive in the parent, wait *)
          do '(status, received) <-
            zfs_do (Zfs_receive clone_ds snap_name)
                   (fun h => zfs_send_receive h zhp snap_name clone_ds);
          run when (negb (bool_decide (received = 0)))
                (be_print_err "be_send_fs_callback: failed to recv dataset (%s)");
          if decide (status <> 0) then
            bail "be_send_fs_callback: failed to send dataset (%s)"
          else
            do r <- call (zfs_iter_filesystems zhp (be_send_fs_callback depth'));
            if decide (r <> 0) then leave 1 else leave 0
    end)
  end.

(** *** be_destroy_callback (lines 1643-1663) *)
Fixpoint be_destroy_callback (depth : nat) (zhp : string) : state -> option (Z * state) :=
  match depth with
  | O => fun _ => None
  | S depth' =>
  body (
    (* the children first *)
    do r <- call (zfs_iter_filesystems zhp (be_destroy_callback depth'));
    if decide (r <> 0) then leave 1 else
    (* unmount the dataset, then destroy it *)
    do r1 <- zfs_do (Zfs_unmount zhp) (fun h => zfs_unmount h zhp);
    do r2 <- (if decide (r1 <> 0) then ret r1
              else zfs_do (Zfs_destroy zhp) (fun h => zfs_destroy h zhp));
    if decide (r2 <> 0) then
      bail "be_destroy_callback: failed to destroy %s"
    else leave 0)
  end.

(** *** be_create_container_ds (lines 1719-1767): [B_TRUE] is [true]. *)
Definition be_create_container_ds (zpool : string) : M bool :=
  let be_container_ds := be_make_container_ds zpool in
  do ex <- query (fun h => zfs_dataset_exists h be_container_ds ZFS_TYPE_FILESYSTEM);
  if negb ex then
    let props : option nvlist := Some ∅ in
    let '(_, props) := nvlist_add_string props ZFS_PROP_MOUNTPOINT ZFS_MOUNTPOINT_LEGACY in
    let '(_, props) := nvlist_add_string props ZFS_PROP_CANMOUNT "off" in
    do r <- zfs_do (Zfs_create be_container_ds (nvl_props props))
                   (fun h => zfs_create h be_container_ds (nvl_props props));
    if decide (r <> 0) then
      run be_print_err "be_create_container_ds: failed to create container dataset (%s): %s";
      ret false
    else ret true
  else ret true.

(** The depth every hierarchy walk is started with: each level goes to a
    child, whose name is longer than its parent's, and no dataset name
    has [ZFS_MAXNAMELEN] characters. *)
Definition walk_depth : nat := ZFS_MAXNAMELEN.

(** *** be_init (lines 87-350) *)

(** The loop over the non-shared file systems (lines 263-297). *)
Fixpoint be_init_fs (nbe_root_ds : string) (fs_names : list string) : M unit :=
  match fs_names with
  | [] => ret tt
  | fs :: rest =>
      (* "/" is the root dataset, already created *)
      if decide (strcmp fs "/" = 0) then be_init_fs nbe_root_ds rest else
      do r <- props_add_string ZFS_PROP_MOUNTPOINT fs;
      if decide (r <> 0) then bail "be_init: internal error: out of memory" else
      let child_fs := nbe_root_ds +:+ fs in
      do b <- get_bt;
      let props := nvl_props (nbe_zfs_props b) in
      do r <- zfs_do (Zfs_create child_fs props) (fun h => zfs_create h child_fs props);
      if decide (r <> 0) then
        bail "be_init: failed to create BE's child dataset (%s): %s"
      else be_init_fs nbe_root_ds rest
  end.

(** The loop over the shared file systems (lines 309-338). *)
Fixpoint be_init_shared_fs (nbe_zpool : string) (props : option nvlist)
    (shared_fs_names : list string) : M unit :=
  match shared_fs_names with
  | [] => ret tt
  | fs :: rest =>
      let child_fs := nbe_zpool +:+ fs in
      let '(r, props) := nvlist_add_string props ZFS_PROP_MOUNTPOINT fs in
      if decide (r <> 0) then bail "be_init: internal error: out of memory" else
      (* create the file system if it does not already exist *)
      do ex <- query (fun h => zfs_dataset_exists h child_fs ZFS_TYPE_FILESYSTEM);
      if ex then be_init_shared_fs nbe_zpool props rest else
      do r <- zfs_do (Zfs_create child_fs (nvl_props props))
                     (fun h => zfs_create h child_fs (nvl_props props));
      if decide (r <> 0) then
        bail "be_init: failed to create BE's shared dataset (%s): %s"
      else be_init_shared_fs nbe_zpool props rest
  end.

Definition be_init (be_attrs : be_attrs) : state -> option (Z * state) :=
  body (
    (* be_transaction_data_t bt = { 0 } *)
    run set_bt (fun _ => bt0);
    if negb (be_zfs_init E) then leave 1 else
    (* new BE name *)
    match BE_ATTR_NEW_BE_NAME be_attrs with
    | None => bail "be_init: failed to lookup BE_ATTR_NEW_BE_NAME attribute"
    | Some name =>
    run set_bt (set_nbe_name (Some name));
    if negb (be_valid_be_name E name) then bail "be_init: invalid BE name %s" else
    (* zpool name *)
    match BE_ATTR_NEW_BE_POOL be_attrs with
    | None => bail "be_init: failed to lookup BE_ATTR_NEW_BE_POOL attribute"
    | Some zpool =>
    run set_bt (set_nbe_zpool (Some zpool));
    (* file system attributes: both pairs are looked up without
       NV_FLAG_NOENTOK *)
    match BE_ATTR_FS_NUM be_attrs, BE_ATTR_FS_NAMES be_attrs with
    | Some fs_num, Some fs_names =>
    if decide (length fs_names <> fs_num) then
      bail "be_init: size of FS_NAMES array does not match FS_NUM" else
    (* shared file system attributes, with NV_FLAG_NOENTOK *)
    let shared_fs_num := default O (BE_ATTR_SHARED_FS_NUM be_attrs) in
    let shared_fs_names := default [] (BE_ATTR_SHARED_FS_NAMES be_attrs) in
    if decide (length shared_fs_names <> shared_fs_num) then
      bail "be_init: size of SHARED_FS_NAMES array does not match SHARED_FS_NUM" else
    (* nbe_zpool exists *)
    do zlp <- query (fun h => zpool_open h zpool);
    match zlp with
    | None => bail "be_init: failed to find existing zpool (%s)"
    | Some _ =>
    (* the BE container dataset exists, or is created *)
    do ok <- be_create_container_ds zpool;
    if negb ok then leave 1 else
    (* nbe_name does not exist in some pool *)
    do zret <- call (zpool_iter (be_exists_callback name));
    if decide (0 < zret) then bail "be_init: BE (%s) already exists" else
    if decide (zret < 0) then bail "be_init: zpool_iter failed: %s" else
    let nbe_root_ds := be_make_root_ds zpool name in
    (* the property list of the new root dataset *)
    match BE_ATTR_ZFS_PROPERTIES be_attrs with
    | Some (false, _) => bail "be_init: ZFS property list not unique"
    | zfs_props =>
    run set_bt (set_nbe_zfs_props (Some (default ∅ (snd <$> zfs_props))));
    do r <- props_add_string ZFS_PROP_MOUNTPOINT ZFS_MOUNTPOINT_LEGACY;
    if decide (r <> 0) then bail "be_init: internal error out of memory" else
    do r <- props_add_string ZFS_PROP_CANMOUNT "noauto";
    if decide (r <> 0) then bail "be_init: internal error out of memory" else
    (* the root dataset of the new BE *)
    do b <- get_bt;
    let props := nvl_props (nbe_zfs_props b) in
    do r <- zfs_do (Zfs_create nbe_root_ds props) (fun h => zfs_create h nbe_root_ds props);
    if decide (r <> 0) then
      bail "be_init: failed to create BE root dataset (%s): %s" else
    (* the non-shared file systems *)
    run be_init_fs nbe_root_ds fs_names;
    (* the shared file systems *)
    run when (bool_decide (0 < shared_fs_num)%nat)
          (be_init_shared_fs zpool (Some ∅) shared_fs_names);
    leave 0
    end end
    | _, _ => bail "be_init: failed to lookup fs attributes"
    end end end).

(** *** be_destroy (lines 369-533) *)

(** Lines 462-520: what [ret] is at the label [done]. *)
Definition be_destroy_origin (name origin parent snap : string) : M Z :=
  (* the origin is deleted when its snapshot name is the name of the BE
     just deleted and it has no other dependents *)
  if decide (strcmp snap name <> 0) then ret 0 else
  do zhp <- zfs (fun h => zfs_open h origin ZFS_TYPE_SNAPSHOT);
  match zhp with
  | None =>
      run be_print_err "be_destroy: failed to open BE's origin (%s)";
      ret 1
  | Some zhp =>
  (* the number of clones of the origin *)
  do numclone <- query (fun h => zfs_prop_get_numclones h zhp);
  match numclone with
  | None =>
      run be_print_err "be_destroy: failed to get number of clones for %s";
      ret 1
  | Some numclone =>
  if decide (numclone <> O) then ret 0 else
  do zhp <- zfs (fun h => zfs_open h parent ZFS_TYPE_FILESYSTEM);
  match zhp with
  | None =>
      run be_print_err "be_destroy: failed to open BE's parent root dataset (%s)";
      ret 1
  | Some zhp =>
  do r <- zfs_do (Zfs_destroy_snaps zhp snap) (fun h => zfs_destroy_snaps h zhp snap);
  if decide (r <> 0) then
    run be_print_err "be_destroy: failed to destroy original snapshots used to create BE";
    ret 1
  else ret 0
  end end end.

Definition be_destroy (be_attrs : be_attrs) : state -> option (Z * state) :=
  body (
    (* be_transaction_data_t bt = { 0 } *)
    run set_bt (fun _ => bt0);
    if negb (be_zfs_init E) then leave 1 else
    (* name of the BE to delete *)
    match BE_ATTR_ORIG_BE_NAME be_attrs with
    | None => bail "be_destroy: failed to lookup BE_ATTR_ORIG_BE_NAME attribute"
    | Some name =>
    run set_bt (set_obe_name (Some name));
    if negb (be_valid_be_name E name) then bail "be_destroy: invalid BE name %s" else
    (* the zpool obe_name lives in *)
    do zret <- call (zpool_iter be_find_zpool_callback);
    if decide (zret = 0) then bail "be_destroy: failed to find zpool for BE (%s)" else
    if decide (zret < 0) then bail "be_destroy: zpool_iter failed: %s" else
    do b <- get_bt;
    do zpool <- deref (obe_zpool b);
    let obe_root_ds := be_make_root_ds zpool name in
    run set_bt (set_obe_root_ds (Some obe_root_ds));
    (* handle to the root dataset of the BE *)
    do zhp <- zfs (fun h => zfs_open h obe_root_ds ZFS_TYPE_FILESYSTEM);
    match zhp with
    | None => bail "be_destroy: failed to open BE root dataset (%s)"
    | Some zhp =>
    (* is the BE mounted *)
    do mp <- query (fun h => zfs_is_mounted h zhp);
    match mp with
    | Some _ => bail "be_destroy: %s is currently mounted at %s, cannot destroy"
    | None =>
    (* the origin of the root dataset, split into parent and snapshot *)
    do origin <- query (fun h => zfs_prop_get_origin h zhp);
    do has_origin <-
      match origin with
      | Some origin =>
          match be_get_snap origin with
          | (0, parent, Some snap) => ret (Some (origin, parent, snap))
          | _ => bail "be_destroy: failed to get snapshot name from origin"
          end
      | None => ret None
      end;
    (* destroy the root of the BE and its hierarchical children *)
    do r <- call (be_destroy_callback walk_depth zhp);
    if decide (r <> 0) then
      bail "be_destroy: failed to destroy BE root dataset (%s)" else
    do ret_ <-
      match has_origin with
      | Some (origin, parent, snap) => be_destroy_origin name origin parent snap
      | None => ret 0
      end;
    (* done: remove the entry of the BE from the GRUB menu *)
    if decide (be_remove_grub E name zpool <> 0) then
      bail "be_destroy: failed to remove BE %s from the GRUB menu"
    else leave ret_
    end end end).

(** *** be_copy (lines 568-1051), in the order of its statements *)

(** [be_auto_be_name(obe_name)]: the next name of the generator. *)
Definition auto_be_name (obe_name : string) : M (option string) :=
  fun s => Some (Next (be_auto_be_name E (be_auto_names s) obe_name), with_auto_name s).

(** The pool zpool_iter finds a BE in: the first one that has its root
    dataset. *)
Definition be_find_pool (h : libzfs_handle) (be_name : string) : option string :=
  find (fun p => zfs_dataset_exists h (be_make_root_ds p be_name) ZFS_TYPE_FILESYSTEM)
       (zpools h).

(** Modelled from the spec: _be_create_snapshot (be_snapshot.c is not
    under src/): for an auto-named destination, a freshly created
    auto-named recursive snapshot of the BE, taken across its whole
    hierarchy in one snapshot operation; its name is handed back. *)
Definition _be_create_snapshot (be_name : string) : M (Z * option string) :=
  do found <- query (fun h => be_find_pool h be_name);
  match found, be_auto_snap_name E be_name with
  | Some zpool, Some snap_name =>
      let ss := be_make_root_ds zpool be_name +:+ "@" +:+ snap_name in
      do r <- zfs_do (Zfs_snapshot ss true) (fun h => zfs_snapshot h ss true);
      if decide (r <> 0) then ret (1, None) else ret (0, Some snap_name)
  | _, _ => ret (1, None)
  end.

(** The retry loop (lines 879-917), entered with [i] and [n] more rounds
    before [i] reaches [BE_AUTO_NAME_MAX_TRY]; its value is [i] when the
    loop is left. *)
Fixpoint be_copy_retry (n : nat) (i : Z) (zhp obe_name nbe_zpool : string) : M Z :=
  match n with
  | O => ret i
  | S n' =>
      (* sleep 1 before retrying; a new auto BE name *)
      do name <- auto_be_name obe_name;
      run set_bt (set_nbe_name name);
      match name with
      | None => bail "be_copy: failed to generate auto BE name"
      | Some name =>
          (* the name of the root dataset of the new BE, again *)
          run set_bt (set_nbe_root_ds (Some (be_make_root_ds nbe_zpool name)));
          (* try to clone the BE again *)
          do zret <- call (be_clone_fs_callback walk_depth zhp);
          if decide (zret = 0) then ret i
          else if decide (zret <> BE_ERR_EXISTS E) then
            bail "be_copy: failed to clone new BE (%s) from orig BE (%s)"
          else be_copy_retry n' (i + 1) zhp obe_name nbe_zpool
      end
  end.

(** Lines 587-627: the original BE, the current one when none is named,
    and the pool it lives in. *)
Definition be_copy_source (be_attrs : be_attrs) : M unit :=
  run set_bt (set_obe_name (BE_ATTR_ORIG_BE_NAME be_attrs));
  run match BE_ATTR_ORIG_BE_NAME be_attrs with
      | None =>
          do zret <- call (zpool_iter be_zpool_find_current_be_callback);
          if decide (zret = 0) then bail "be_copy: failed to find current BE name"
          else if decide (zret < 0) then bail "be_copy: zpool_iter failed: %s"
          else ret tt
      | Some name =>
          if negb (be_valid_be_name E name) then bail "be_copy: invalid BE name %s"
          else ret tt
      end;
  (* the zpool obe_name lives in *)
  do zret <- call (zpool_iter be_find_zpool_callback);
  if decide (zret = 0) then bail "be_copy: failed to find zpool for BE (%s)" else
  if decide (zret < 0) then bail "be_copy: zpool_iter failed: %s" else
  ret tt.

(** Lines 629-709: the other attributes, and the property list of the
    new root dataset. *)
Definition be_copy_attrs (be_attrs : be_attrs) : M unit :=
  run set_bt (set_obe_snap_name (BE_ATTR_SNAP_NAME be_attrs));
  run set_bt (set_nbe_name (BE_ATTR_NEW_BE_NAME be_attrs));
  run set_bt (set_nbe_zpool (BE_ATTR_NEW_BE_POOL be_attrs));
  run set_bt (set_nbe_desc (BE_ATTR_NEW_BE_DESC be_attrs));
  run set_bt (set_policy (Some (default (be_default_policy E) (BE_ATTR_POLICY be_attrs))));
  match BE_ATTR_ZFS_PROPERTIES be_attrs with
  | Some (false, _) => bail "be_copy: ZFS property list not unique"
  | zfs_props => set_bt (set_nbe_zfs_props (Some (default ∅ (snd <$> zfs_props))))
  end.

(** Lines 711-769: a new BE name that is given is validated and must not
    exist; an auto named BE is in the pool of the original BE and is not
    based on an existing snapshot.  The value is [autoname]. *)
Definition be_copy_new_name : M bool :=
  do b <- get_bt;
  match nbe_name b with
  | Some name =>
      if negb (be_valid_be_name E name) then bail "be_copy: invalid BE name %s" else
      do zret <- call (zpool_iter (be_exists_callback name));
      if decide (0 < zret) then bail "be_copy: BE (%s) already exists" else
      if decide (zret < 0) then bail "be_copy: zpool_iter failed: %s" else
      ret false
  | None =>
      if bool_decide (nbe_zpool b <> None) then
        bail "be_copy: cannot specify pool name when creating an auto named BE" else
      if bool_decide (obe_snap_name b <> None) then
        bail "be_copy: cannot specify a snapshot name when creating an auto named BE" else
      do oname <- deref (obe_name b);
      do name <- auto_be_name oname;
      run set_bt (set_nbe_name name);
      match name with
      | None => bail "be_copy: failed to generate auto BE name"
      | Some _ => ret true
      end
  end.

(** Lines 771-786: the pool of the new BE, by default that of the
    original BE, and the root dataset names of both. *)
Definition be_copy_roots : M unit :=
  do b <- get_bt;
  run when (bool_decide (nbe_zpool b = None)) (set_bt (set_nbe_zpool (obe_zpool b)));
  do b <- get_bt;
  do ozpool <- deref (obe_zpool b);
  do oname <- deref (obe_name b);
  do nzpool <- deref (nbe_zpool b);
  do name <- deref (nbe_name b);
  run set_bt (set_obe_root_ds (Some (be_make_root_ds ozpool oname)));
  set_bt (set_nbe_root_ds (Some (be_make_root_ds nzpool name))).

(** Lines 788-849: the snapshot to create from: given and existing, or
    auto named, or named after the new BE. *)
Definition be_copy_snapshot (autoname : bool) : M unit :=
  do b <- get_bt;
  do oroot_ds <- deref (obe_root_ds b);
  match obe_snap_name b with
  | Some snap =>
      let ss := oroot_ds +:+ "@" +:+ snap in
      do ex <- query (fun h => zfs_dataset_exists h ss ZFS_TYPE_SNAPSHOT);
      if negb ex then bail "be_copy: snapshot does not exist (%s): %s" else ret tt
  | None =>
      if autoname then
        do oname <- deref (obe_name b);
        do '(r, snap) <- _be_create_snapshot oname;
        if decide (r <> 0) then
          bail "be_copy: failed to create auto named snapshot" else
        run set_bt (set_obe_snap_name snap);
        do snap <- deref snap;
        do r <- be_attrs_add "BE_ATTR_SNAP_NAME" snap;
        if decide (r <> 0) then
          bail "be_copy: failed to add snap name to be_attrs" else ret tt
      else
        run set_bt (set_obe_snap_name (nbe_name b));
        do name <- deref (nbe_name b);
        let ss := oroot_ds +:+ "@" +:+ name in
        (* a recursive snapshot of the original BE *)
        do r <- zfs_do (Zfs_snapshot ss true) (fun h => zfs_snapshot h ss true);
        if decide (r <> 0) then
          bail "be_copy: failed to snapshot BE (%s): %s" else ret tt
  end.

(** Lines 851-982: the clone walk when both BEs are in one pool, with
    its retries for an auto named BE; the send walk otherwise. *)
Definition be_copy_replicate (autoname : bool) : M unit :=
  do b <- get_bt;
  do ozpool <- deref (obe_zpool b);
  do nzpool <- deref (nbe_zpool b);
  do oname <- deref (obe_name b);
  do oroot_ds <- deref (obe_root_ds b);
  if decide (strcmp ozpool nzpool = 0) then
    (* clone *)
    do zhp <- zfs (fun h => zfs_open h oroot_ds ZFS_TYPE_FILESYSTEM);
    match zhp with
    | None => bail "be_copy: failed to open BE root dataset (%s)"
    | Some zhp =>
        do zret <- call (be_clone_fs_callback walk_depth zhp);
        if decide (zret <> 0) then
          if negb autoname || negb (bool_decide (zret = BE_ERR_EXISTS E)) then
            bail "be_copy: failed to clone new BE (%s) from orig BE (%s)"
          else
            do i <- be_copy_retry (Z.to_nat (BE_AUTO_NAME_MAX_TRY E - 1)) 1
                      zhp oname nzpool;
            (* the maximum number of tries is exhausted *)
            if decide (i = BE_AUTO_NAME_MAX_TRY E) then
              run be_print_err "be_copy: failed to create unique auto BE name";
              run set_bt (set_nbe_name None);
              leave 1
            else ret tt
        else ret tt
    end
  else
    (* copy, by zfs_send and zfs_receive: the BE container dataset of
       nbe_zpool exists, or is created *)
    do ok <- be_create_container_ds nzpool;
    if negb ok then leave 1 else
    do zhp <- zfs (fun h => zfs_open h oroot_ds ZFS_TYPE_FILESYSTEM);
    match zhp with
    | None => bail "be_copy: failed to open BE root dataset (%s)"
    | Some zhp =>
        do zret <- call (be_send_fs_callback walk_depth zhp);
        if decide (zret <> 0) then
          bail "be_copy: failed to send BE (%s) to pool (%s)"
        else ret tt
    end.

(** Lines 984-1042: the vfstab of the new BE and its GRUB entry; an auto
    named BE gets its policy, and its name goes back to the caller. *)
Definition be_copy_finish (autoname : bool) : M Z :=
  do b <- get_bt;
  do name <- deref (nbe_name b);
  do nroot_ds <- deref (nbe_root_ds b);
  do nzpool <- deref (nbe_zpool b);
  if decide (be_update_vfstab E name nroot_ds <> 0) then
    bail "be_copy: failed to update new BE's vfstab (%s)" else
  if decide (be_append_grub E name nzpool (nbe_desc b) <> 0) then
    bail "be_copy: failed to add BE (%s) to GRUB menu" else
  if autoname then
    do zhp <- zfs (fun h => zfs_open h nroot_ds ZFS_TYPE_FILESYSTEM);
    match zhp with
    | None => bail "be_copy: failed to open BE root dataset (%s)"
    | Some zhp =>
        do pol <- deref (policy b);
        do r <- zfs_do (Zfs_prop_set zhp (BE_POLICY_PROPERTY E) pol)
                       (fun h => zfs_prop_set h zhp (BE_POLICY_PROPERTY E) pol);
        if decide (r <> 0) then bail "be_copy: failed to set BE policy for %s" else
        do r <- be_attrs_add "BE_ATTR_NEW_BE_NAME" name;
        run when (negb (bool_decide (r = 0)))
              (be_print_err "be_copy: failed to add snap name to be_attrs");
        ret 0
    end
  else ret 0.

Definition be_copy (be_attrs : be_attrs) : state -> option (Z * state) :=
  body (
    (* be_transaction_data_t bt = { 0 } *)
    run set_bt (fun _ => bt0);
    if negb (be_zfs_init E) then leave 1 else
    run be_copy_source be_attrs;
    run be_copy_attrs be_attrs;
    do autoname <- be_copy_new_name;
    run be_copy_roots;
    run be_copy_snapshot autoname;
    run be_copy_replicate autoname;
    be_copy_finish autoname).

End BeCreate.
(** ** Facts on the string functions *)

Section CstrFacts.

Lemma offset_app (s t : string) : offset (s +:+ t) (String.length s) = t.
Proof. induction s as [|a s IH]; simpl; [by destruct t | apply IH]. Qed.

Lemma upto_app (s t : string) : upto (s +:+ t) (String.length s) = s.
Proof. induction s as [|a s IH]; simpl; [by destruct t | by rewrite IH]. Qed.

Lemma upto_offset (s : string) (n : nat) : upto s n +:+ offset s n = s.
Proof.
  revert n. induction s as [|a s IH]; intros [|n]; try done.
  change (String a (upto s n +:+ offset s n) = String a s). by rewrite IH.
Qed.

Lemma strrchr_None (s : string) (c : ascii) :
  strrchr s c = None <-> ~ occurs c s.
Proof.
  induction s as [|a s IH]; simpl; [tauto|].
  destruct (strrchr s c) eqn:E.
  - split; [done | intros H].
    assert (@None nat = Some n) as [=]. { symmetry. apply IH. tauto. }
  - case_decide; split; try done; intros; tauto.
Qed.

Lemma strrchr_Some (s : string) (c : ascii) (i : nat) :
  strrchr s c = Some i ->
  s = upto s i +:+ String c (offset s (S i)) /\ ~ occurs c (offset s (S i)).
Proof.
  revert i. induction s as [|a s IH]; intros i; simpl; [done|].
  destruct (strrchr s c) eqn:E.
  - intros [= <-]. destruct (IH _ eq_refl) as [H1 H2].
    split; [|done].
    change (String a s = String a (upto s n +:+ String c (offset s (S n)))).
    by rewrite <- H1.
  - case_decide; [|done]. intros [= <-]. subst a.
    apply strrchr_None in E. by destruct s.
Qed.

Lemma strrchr_app (s t : string) (c : ascii) :
  ~ occurs c t -> strrchr (s +:+ String c t) c = Some (String.length s).
Proof.
  intros Ht. induction s as [|a s IH]; simpl.
  - apply strrchr_None in Ht. rewrite Ht. by case_decide.
  - by rewrite IH.
Qed.

Lemma offset_app_S (s t : string) (c : ascii) :
  offset (s +:+ String c t) (S (String.length s)) = t.
Proof. induction s as [|a s IH]; simpl; [by destruct t | apply IH]. Qed.

Lemma upto_app_S (s t : string) (c : ascii) :
  upto (s +:+ String c t) (String.length s) = s.
Proof. apply upto_app. Qed.

Lemma occurs_app (c : ascii) (s t : string) :
  occurs c (s +:+ t) <-> occurs c s \/ occurs c t.
Proof. induction s as [|a s IH]; simpl; [tauto | rewrite IH; tauto]. Qed.

End CstrFacts.

(** ** be_get_snap *)

Section GetSnap.

Lemma be_get_snap_split (ds sn : string) :
  sn <> "" -> ~ occurs "@" sn ->
  be_get_snap (ds +:+ String "@" sn) = (0, ds, Some sn).
Proof.
  intros Hne Hat. unfold be_get_snap.
  rewrite strrchr_app by done. rewrite offset_app_S, upto_app_S.
  by destruct sn.
Qed.

Lemma be_get_snap_no_at (origin : string) :
  ~ occurs "@" origin -> be_get_snap origin = (1, origin, None).
Proof. intros H. apply strrchr_None in H. unfold be_get_snap. by rewrite H. Qed.

Lemma be_get_snap_trailing (ds : string) :
  be_get_snap (ds +:+ "@") = (1, ds +:+ "@", None).
Proof.
  unfold be_get_snap. rewrite strrchr_app by (simpl; tauto).
  by rewrite offset_app_S.
Qed.

Lemma be_get_snap_cases (origin : string) :
  (exists ds sn, origin = ds +:+ String "@" sn /\ sn <> "" /\ ~ occurs "@" sn
                 /\ be_get_snap origin = (0, ds, Some sn))
  \/ ((~ occurs "@" origin \/ exists ds, origin = ds +:+ "@")
      /\ be_get_snap origin = (1, origin, None)).
Proof.
  unfold be_get_snap. destruct (strrchr origin "@") as [cp|] eqn:E.
  - destruct (strrchr_Some _ _ _ E) as [Heq Hno].
    destruct (offset origin (S cp)) as [|a sn] eqn:Eo.
    + right. split; [|done]. right. by exists (upto origin cp).
    + left. exists (upto origin cp), (String a sn). by rewrite <- Heq.
  - right. split; [|done]. left. by apply strrchr_None.
Qed.

(** C10. be_get_snap returns 0 exactly when its input has an '@' whose
    last occurrence is followed by at least one character; it then cuts
    the input at that '@' into the dataset before it and the non-empty
    snapshot name after it.  For an input without '@', or ending in '@',
    it returns 1, leaves the input as it is and does not set the
    snapshot pointer. *)
Theorem be_get_snap_last_at (origin : string) :
  ((be_get_snap origin).1.1 = 0 <->
     exists ds sn, origin = ds +:+ String "@" sn /\ sn <> "" /\ ~ occurs "@" sn)
  /\ (forall ds sn, origin = ds +:+ String "@" sn -> sn <> "" -> ~ occurs "@" sn ->
        be_get_snap origin = (0, ds, Some sn))
  /\ ((~ occurs "@" origin \/ exists ds, origin = ds +:+ "@") ->
        be_get_snap origin = (1, origin, None))
  /\ ((be_get_snap origin).1.1 <> 0 -> be_get_snap origin = (1, origin, None)).
Proof.
  assert (Hsplit : forall ds sn, origin = ds +:+ String "@" sn -> sn <> "" ->
            ~ occurs "@" sn -> be_get_snap origin = (0, ds, Some sn)).
  { intros ds sn -> Hne Hat. by apply be_get_snap_split. }
  split; [|split; [done|split]].
  - split.
    + intros H0.
      destruct (be_get_snap_cases origin) as [(ds & sn & Heq & Hne & Hat & _)|[_ Hr]].
      * by exists ds, sn.
      * by rewrite Hr in H0.
    + intros (ds & sn & Heq & Hne & Hat). by rewrite (Hsplit ds sn).
  - intros [Hno|[ds ->]].
    + by apply be_get_snap_no_at.
    + apply be_get_snap_trailing.
  - intros Hrc.
    destruct (be_get_snap_cases origin) as [(ds & sn & _ & _ & _ & Hr)|[_ Hr]]; [|done].
    by rewrite Hr in Hrc.
Qed.

Example be_get_snap_origin :
  be_get_snap "rpool/ROOT/be0@be1" = (0, "rpool/ROOT/be0", Some "be1").
Proof. reflexivity. Qed.

Example be_get_snap_trailing_at :
  be_get_snap "rpool/ROOT/be0@" = (1, "rpool/ROOT/be0@", None).
Proof. reflexivity. Qed.

Example be_get_snap_two_ats :
  be_get_snap "a@b@c" = (0, "a@b", Some "c").
Proof. reflexivity. Qed.

End GetSnap.

(** ** Running the statements of a function

    [mstep] runs the statements whose outcome is known and stops at the
    first libzfs or libbe call that is not. *)

Section StateFacts.

Context (f : be_transaction_data -> be_transaction_data) (h : libzfs_handle)
  (c : zfs_call) (msg name val : string) (s : state).

Lemma g_zfs_with_bt : g_zfs (with_bt f s) = g_zfs s. Proof. done. Qed.
Lemma g_zfs_with_zfs : g_zfs (with_zfs h s) = h. Proof. done. Qed.
Lemma g_zfs_with_call : g_zfs (with_call c s) = g_zfs s. Proof. done. Qed.
Lemma g_zfs_with_err : g_zfs (with_err msg s) = g_zfs s. Proof. done. Qed.
Lemma g_zfs_with_attr : g_zfs (with_attr name val s) = g_zfs s. Proof. done. Qed.
Lemma g_zfs_with_auto_name : g_zfs (with_auto_name s) = g_zfs s. Proof. done. Qed.
Lemma bt_with_bt : bt (with_bt f s) = f (bt s). Proof. done. Qed.
Lemma bt_with_zfs : bt (with_zfs h s) = bt s. Proof. done. Qed.
Lemma bt_with_call : bt (with_call c s) = bt s. Proof. done. Qed.
Lemma bt_with_err : bt (with_err msg s) = bt s. Proof. done. Qed.
Lemma bt_with_attr : bt (with_attr name val s) = bt s. Proof. done. Qed.
Lemma bt_with_auto_name : bt (with_auto_name s) = bt s. Proof. done. Qed.
Lemma zfs_calls_with_bt : zfs_calls (with_bt f s) = zfs_calls s. Proof. done. Qed.
Lemma zfs_calls_with_zfs : zfs_calls (with_zfs h s) = zfs_calls s. Proof. done. Qed.
Lemma zfs_calls_with_call : zfs_calls (with_call c s) = (zfs_calls s ++ [c])%list.
Proof. done. Qed.
Lemma zfs_calls_with_err : zfs_calls (with_err msg s) = zfs_calls s. Proof. done. Qed.
Lemma zfs_calls_with_attr : zfs_calls (with_attr name val s) = zfs_calls s. Proof. done. Qed.
Lemma zfs_calls_with_auto_name : zfs_calls (with_auto_name s) = zfs_calls s. Proof. done. Qed.

End StateFacts.

Lemma nvl_props_Some (l : nvlist) : nvl_props (Some l) = l.
Proof. done. Qed.

Create Rewrite HintDb be_state.

#[global] Hint Rewrite g_zfs_with_bt g_zfs_with_zfs g_zfs_with_call g_zfs_with_err
  g_zfs_with_attr g_zfs_with_auto_name bt_with_bt bt_with_zfs bt_with_call
  bt_with_err bt_with_attr bt_with_auto_name zfs_calls_with_bt zfs_calls_with_zfs
  zfs_calls_with_call zfs_calls_with_err zfs_calls_with_attr
  zfs_calls_with_auto_name nvl_props_Some : be_state.

Ltac mred :=
  cbv beta iota zeta delta
      [bind body call ret leave bail when get_bt set_bt deref undefined be_print_err
       query zfs zfs_do be_attrs_add props_add_string props_remove_all];
  cbn [nvlist_add_string nvlist_remove_all negb andb orb fst snd
       obe_name obe_root_ds obe_zpool obe_snap_name nbe_name nbe_root_ds
       nbe_zpool nbe_desc nbe_zfs_props policy
       set_obe_name set_obe_root_ds set_obe_zpool set_obe_snap_name
       set_nbe_name set_nbe_root_ds set_nbe_zpool set_nbe_desc
       set_nbe_zfs_props set_policy
       BE_ATTR_ORIG_BE_NAME BE_ATTR_SNAP_NAME BE_ATTR_NEW_BE_NAME
       BE_ATTR_NEW_BE_POOL BE_ATTR_NEW_BE_DESC BE_ATTR_ZFS_PROPERTIES
       BE_ATTR_POLICY BE_ATTR_FS_NUM BE_ATTR_FS_NAMES BE_ATTR_SHARED_FS_NUM
       BE_ATTR_SHARED_FS_NAMES];
  try autorewrite with be_state.

Ltac decided := first [ done | lia | by intros ? ].

Ltac mstep :=
  repeat first
    [ progress mred
    | rewrite decide_True by decided
    | rewrite decide_False by decided
    | rewrite bool_decide_eq_true_2 by decided
    | rewrite bool_decide_eq_false_2 by decided ].

(** ** The pool of a BE *)

Section Locator.

Context (E : libbe).

Lemma iter_find_zpool (s : state) (name : string) (l : list string) :
  obe_name (bt s) = Some name ->
  iter_until (be_find_zpool_callback E) l s =
  Some (match find (fun p => zfs_dataset_exists (g_zfs s) (be_make_root_ds E p name)
                                ZFS_TYPE_FILESYSTEM) l with
        | Some p => (1, with_bt (set_obe_zpool (Some p)) s)
        | None => (0, s)
        end).
Proof.
  intros Hn. induction l as [|p l IH]; [done|].
  cbn [iter_until find].
  unfold be_find_zpool_callback at 1, body, bind, get_bt, deref, query, set_bt, leave.
  rewrite Hn.
  destruct (zfs_dataset_exists (g_zfs s) (be_make_root_ds E p name) ZFS_TYPE_FILESYSTEM);
    [done|].
  by rewrite decide_True.
Qed.

Lemma zpool_iter_find_zpool (s : state) (name : string) :
  obe_name (bt s) = Some name ->
  zpool_iter (be_find_zpool_callback E) s =
  Some (match be_find_pool E (g_zfs s) name with
        | Some p => (1, with_bt (set_obe_zpool (Some p)) s)
        | None => (0, s)
        end).
Proof. intros Hn. by apply iter_find_zpool. Qed.

Lemma be_find_pool_exists (h : libzfs_handle) (name p : string) :
  be_find_pool E h name = Some p ->
  is_Some (zfs_ds h !! be_make_root_ds E p name).
Proof.
  unfold be_find_pool. intros H. apply find_some in H as [_ H].
  unfold zfs_dataset_exists in H. by apply bool_decide_eq_true in H.
Qed.

Lemma zfs_open_exists (h : libzfs_handle) (name : string) :
  is_Some (zfs_ds h !! name) ->
  zfs_open h name ZFS_TYPE_FILESYSTEM = (Some name, h).
Proof.
  intros H. unfold zfs_open, zfs_dataset_exists. by rewrite bool_decide_eq_true_2.
Qed.

End Locator.

(** ** be_destroy *)

Section Destroy.

Context (E : libbe).

(** C5. Destroying a BE whose root dataset is mounted fails, and nothing
    is changed: the libzfs state is what it was and no call that
    unmounts or destroys a dataset or a snapshot is issued. *)
Theorem be_destroy_mounted (be_attrs : be_attrs) (s : state) (name p mp : string) :
  BE_ATTR_ORIG_BE_NAME be_attrs = Some name ->
  be_find_pool E (g_zfs s) name = Some p ->
  zfs_is_mounted (g_zfs s) (be_make_root_ds E p name) = Some mp ->
  exists s', be_destroy E be_attrs s = Some (1, s')
             /\ g_zfs s' = g_zfs s /\ zfs_calls s' = zfs_calls s.
Proof.
  intros Hname Hpool Hmnt.
  unfold be_destroy. mstep.
  destruct (be_zfs_init E); mstep; [|by eexists].
  rewrite Hname. mstep.
  destruct (be_valid_be_name E name); mstep; [|by eexists].
  rewrite (zpool_iter_find_zpool E _ name) by done.
  mstep. rewrite Hpool. mstep.
  rewrite zfs_open_exists by by eapply be_find_pool_exists.
  mstep. rewrite Hmnt. mstep. by eexists.
Qed.

End Destroy.

(** ** be_copy: what precedes the replication *)

(** What the searches of be_copy leave untouched. *)
Definition same_zfs (s s' : state) : Prop :=
  g_zfs s' = g_zfs s /\ zfs_calls s' = zfs_calls s.

Ltac same_zfs_done :=
  unfold same_zfs in *; autorewrite with be_state; try tauto;
  repeat match goal with H : _ /\ _ |- _ => destruct H end;
  split; congruence.

Section CopyPrelude.

Context (E : libbe).

(** Iteration with a callback that always returns and keeps [I]. *)
Lemma iter_until_total (I : state -> Prop) (Q : state -> Prop)
    (cb : string -> state -> option (Z * state)) (l : list string) (s : state) :
  I s ->
  (forall x s, I s -> exists rc s', cb x s = Some (rc, s') /\ I s' /\ (rc <> 0 -> Q s')) ->
  exists rc s', iter_until cb l s = Some (rc, s') /\ I s' /\ (rc <> 0 -> Q s').
Proof.
  intros Hs Hcb. revert s Hs. induction l as [|x l IH]; intros s Hs.
  - exists 0, s. by repeat split.
  - cbn [iter_until]. destruct (Hcb x s Hs) as (rc & s' & -> & Hs' & HQ).
    destruct (decide (rc = 0)) as [->|Hrc]; [by apply IH|].
    by exists rc, s'.
Qed.

Lemma be_zfs_find_current_be_runs (s0 : state) (zhp : string) (s : state) :
  same_zfs s0 s ->
  exists rc s', be_zfs_find_current_be_callback zhp s = Some (rc, s')
    /\ same_zfs s0 s' /\ (rc <> 0 -> is_Some (obe_name (bt s'))).
Proof.
  intros Hs. unfold be_zfs_find_current_be_callback. mstep.
  destruct (zfs_is_mounted (g_zfs s) zhp) as [mp|]; mstep.
  - destruct (decide (strcmp mp "/" = 0)); mstep; eexists _, _;
      (split; [done|]); (split; [same_zfs_done|]); try done.
  - eexists _, _; (split; [done|]); by split.
Qed.

Lemma be_zpool_find_current_be_runs (s0 : state) (zlp : string) (s : state) :
  same_zfs s0 s ->
  exists rc s', be_zpool_find_current_be_callback E zlp s = Some (rc, s')
    /\ same_zfs s0 s' /\ (rc <> 0 -> is_Some (obe_name (bt s'))).
Proof.
  intros Hs. unfold be_zpool_find_current_be_callback. mstep.
  destruct (zfs_dataset_exists (g_zfs s) (be_make_container_ds E zlp) ZFS_TYPE_FILESYSTEM)
    eqn:Hex; mstep; [|by eexists _, _].
  unfold zfs_open. rewrite Hex. mstep.
  unfold zfs_iter_filesystems.
  destruct (iter_until_total (same_zfs s0) (fun s => is_Some (obe_name (bt s)))
              be_zfs_find_current_be_callback
              (Zfs.children (zfs_ds (g_zfs s)) (be_make_container_ds E zlp))
              (with_zfs (g_zfs s) s))
    as (rc & s' & Hit & Hs' & Hn).
  { same_zfs_done. }
  { intros. by apply be_zfs_find_current_be_runs. }
  autorewrite with be_state in Hit |- *. rewrite Hit.
  destruct (decide (rc = 0)); mstep; eexists _, _; (split; [done|]).
  - by split.
  - split; [same_zfs_done | intros _; by apply Hn].
Qed.

Lemma zpool_iter_find_current (s : state) :
  exists rc s', zpool_iter (be_zpool_find_current_be_callback E) s = Some (rc, s')
    /\ same_zfs s s' /\ (rc <> 0 -> is_Some (obe_name (bt s'))).
Proof.
  apply (iter_until_total (same_zfs s) (fun s => is_Some (obe_name (bt s)))); [done|].
  intros. by apply be_zpool_find_current_be_runs.
Qed.

End CopyPrelude.

(** ** be_copy: from its attributes to the replication *)

Section CopyFlow.

Context (E : libbe).

(** The search for the original BE and its pool always returns, changes
    nothing in libzfs, and on success has the name of the BE and the
    first pool that holds its root dataset. *)
Lemma be_copy_source_runs (be_attrs : be_attrs) (s : state) :
  exists r s1, be_copy_source E be_attrs s = Some (r, s1)
    /\ same_zfs s s1
    /\ (forall rc, r = Return rc -> rc = 1)
    /\ (r = Next tt ->
        exists oname p, obe_name (bt s1) = Some oname
          /\ obe_zpool (bt s1) = Some p
          /\ be_find_pool E (g_zfs s) oname = Some p).
Proof.
  unfold be_copy_source. mstep.
  destruct (BE_ATTR_ORIG_BE_NAME be_attrs) as [name|] eqn:Horig; mstep.
  - destruct (be_valid_be_name E name); mstep;
      [|eexists _, _; split; [done|]; split; [same_zfs_done|]; split; [by intros ? [= <-] | done]].
    rewrite (zpool_iter_find_zpool E _ name) by done. autorewrite with be_state.
    destruct (be_find_pool E (g_zfs s) name) as [p|] eqn:Hp; mstep;
      eexists _, _; (split; [done|]); (split; [same_zfs_done|]); (split; [by intros ? [= <-]|]);
      [|done].
    intros _. by exists name, p.
  - destruct (zpool_iter_find_current E (with_bt (set_obe_name None) s))
      as (rc & s1 & Hit & Hs1 & Hn).
    rewrite Hit. mstep.
    destruct (decide (rc = 0)) as [->|Hrc]; mstep;
      [eexists _, _; split; [done|]; split; [same_zfs_done|]; split; [by intros ? [= <-] | done]|].
    destruct (decide (rc < 0)); mstep;
      [eexists _, _; split; [done|]; split; [same_zfs_done|]; split; [by intros ? [= <-] | done]|].
    destruct (Hn Hrc) as [name Hname].
    rewrite (zpool_iter_find_zpool E _ name) by done.
    assert (Hz : g_zfs s1 = g_zfs s) by (destruct Hs1 as [Hz _]; by rewrite Hz).
    rewrite Hz.
    destruct (be_find_pool E (g_zfs s) name) as [p|] eqn:Hp; mstep;
      eexists _, _; (split; [done|]); (split; [same_zfs_done|]); (split; [by intros ? [= <-]|]);
      [|done].
    intros _. by exists name, p.
Qed.

(** C9. A copy that gives no new BE name but names a destination pool or
    a snapshot fails before anything is created: be_copy returns 1, the
    libzfs state is what it was, and no snapshot, dataset or clone call
    is issued.  So an auto named BE is only made in the pool of the
    original BE and from a snapshot taken for it. *)
Theorem be_copy_auto_name_restricted (be_attrs : be_attrs) (s : state) :
  BE_ATTR_NEW_BE_NAME be_attrs = None ->
  BE_ATTR_NEW_BE_POOL be_attrs <> None \/ BE_ATTR_SNAP_NAME be_attrs <> None ->
  exists s', be_copy E be_attrs s = Some (1, s')
             /\ g_zfs s' = g_zfs s /\ zfs_calls s' = zfs_calls s.
Proof.
  intros Hnew Hgiven.
  assert (Hb : bool_decide (BE_ATTR_NEW_BE_POOL be_attrs <> None)
               || bool_decide (BE_ATTR_SNAP_NAME be_attrs <> None) = true).
  { destruct Hgiven; [rewrite bool_decide_eq_true_2 by done|
                      rewrite (bool_decide_eq_true_2 (BE_ATTR_SNAP_NAME _ <> _)) by done];
      by rewrite ?orb_true_r. }
  unfold be_copy. mstep.
  destruct (be_zfs_init E); mstep; [|by eexists].
  destruct (be_copy_source_runs be_attrs (with_bt (fun _ => bt0) s))
    as (r & s1 & Hsrc & Hs1 & Hret & _).
  rewrite Hsrc. destruct r as [[]|rc]; mstep.
  2: { rewrite (Hret rc eq_refl). eexists. split; [done|]. same_zfs_done. }
  unfold be_copy_attrs. mstep.
  destruct (BE_ATTR_ZFS_PROPERTIES be_attrs) as [[[] l]|]; mstep;
    try (eexists; split; [done|same_zfs_done]);
    unfold be_copy_new_name; mstep; rewrite Hnew; mstep;
    destruct (bool_decide (BE_ATTR_NEW_BE_POOL be_attrs <> None)); mstep;
    try (eexists; split; [done|same_zfs_done]); cbn [orb] in Hb; rewrite Hb; mstep;
    eexists; (split; [done|same_zfs_done]).
Qed.

End CopyFlow.

(** ** be_init *)

Section Init.

Context (E : libbe).

(** Creation only adds: the pools stay, and so does every dataset. *)
Definition grows (h h' : libzfs_handle) : Prop :=
  zpools h' = zpools h
  /\ forall k d, zfs_ds h !! k = Some d -> zfs_ds h' !! k = Some d.

Lemma grows_refl (h : libzfs_handle) : grows h h.
Proof. by split. Qed.

Lemma grows_trans (h1 h2 h3 : libzfs_handle) : grows h1 h2 -> grows h2 h3 -> grows h1 h3.
Proof. intros [? H1] [? H2]. split; [congruence | auto]. Qed.

Lemma create_cases (h : libzfs_handle) (name : string) (props : nvlist)
    (origin : option string) :
  (exists pd e, Zfs.parent name = Some e /\ zfs_ds h !! e = Some pd
      /\ zfs_ds h !! name = None /\ Zfs.too_long name = false
      /\ Zfs.create h name props origin =
           (0, Zfs.set_ds h (<[name := Zfs.new_dataset pd name props origin]> (zfs_ds h))))
  \/ (exists e, Zfs.create h name props origin = (-1, Zfs.set_errno h e)).
Proof.
  unfold Zfs.create. destruct (Zfs.too_long name); [right; by eexists|].
  destruct (zfs_ds h !! name) eqn:Hn; [right; by eexists|].
  destruct (Zfs.parent name) as [e|] eqn:Hp; [|right; by eexists].
  destruct (zfs_ds h !! e) as [pd|] eqn:He; [|right; by eexists].
  left. by exists pd, e.
Qed.

Lemma create_grows (h : libzfs_handle) (name : string) (props : nvlist)
    (origin : option string) :
  grows h (Zfs.create h name props origin).2.
Proof.
  destruct (create_cases h name props origin)
    as [(pd & e & _ & _ & Hn & _ & ->)|[e ->]]; [|by split].
  split; [done|]. intros k d Hk. cbn. rewrite lookup_insert_ne; [done|congruence].
Qed.

Lemma create_ok (h : libzfs_handle) (name : string) (props : nvlist)
    (origin : option string) :
  (Zfs.create h name props origin).1 = 0 ->
  zfs_ds h !! name = None
  /\ exists pd, zfs_ds (Zfs.create h name props origin).2 !! name
                = Some (Zfs.new_dataset pd name props origin).
Proof.
  destruct (create_cases h name props origin)
    as [(pd & e & _ & _ & Hn & _ & ->)|[e ->]]; [|done].
  intros _. split; [done|]. exists pd. cbn. by rewrite lookup_insert_eq.
Qed.

Lemma iter_exists (name : string) (l : list string) (s : state) :
  iter_until (be_exists_callback E name) l s =
  Some ((if existsb (fun p => zfs_dataset_exists (g_zfs s) (be_make_root_ds E p name)
                                ZFS_TYPE_FILESYSTEM) l then 1 else 0), s).
Proof.
  induction l as [|p l IH]; [done|].
  cbn [iter_until existsb]. unfold be_exists_callback at 1. mstep.
  destruct (zfs_dataset_exists (g_zfs s) (be_make_root_ds E p name) ZFS_TYPE_FILESYSTEM);
    mstep; [done|]. by rewrite IH.
Qed.

Lemma zpool_iter_exists (name : string) (s : state) :
  zpool_iter (be_exists_callback E name) s =
  Some ((if existsb (fun p => zfs_dataset_exists (g_zfs s) (be_make_root_ds E p name)
                                ZFS_TYPE_FILESYSTEM) (zpools (g_zfs s)) then 1 else 0), s).
Proof. apply iter_exists. Qed.

Lemma zfs_create_grows (s : state) (name : string) (props : nvlist) :
  grows (g_zfs s) (zfs_create (g_zfs s) name props).2.
Proof. apply create_grows. Qed.

Lemma be_init_fs_grows (root : string) (names : list string) (s : state)
    (r : flow unit) (s' : state) :
  be_init_fs root names s = Some (r, s') -> grows (g_zfs s) (g_zfs s').
Proof.
  revert s. induction names as [|fs names IH]; intros s; cbn [be_init_fs].
  - intros [= _ <-]. apply grows_refl.
  - destruct (decide (strcmp fs "/" = 0)); [apply IH|]. mstep.
    destruct (nbe_zfs_props (bt s)) as [l|]; mstep.
    + case_decide.
      * mstep. intros [= _ <-]. autorewrite with be_state. apply zfs_create_grows.
      * intros Hrun. apply IH in Hrun. autorewrite with be_state in Hrun.
        eapply grows_trans; [apply zfs_create_grows | done].
    + unfold EINVAL. mstep. intros [= _ <-]. apply grows_refl.
Qed.

Definition shared_props (props : option nvlist) : Prop :=
  props = Some ∅ \/ exists v, props = Some {[ZFS_PROP_MOUNTPOINT := v]}.

Lemma shared_props_add (props : option nvlist) (fs : string) :
  shared_props props ->
  nvlist_add_string props ZFS_PROP_MOUNTPOINT fs = (0, Some {[ZFS_PROP_MOUNTPOINT := fs]}).
Proof.
  intros [->|[v ->]]; unfold nvlist_add_string; [by rewrite insert_empty|].
  by rewrite insert_singleton_eq.
Qed.

Lemma be_init_shared_fs_spec (zpool : string) (names : list string) (props : option nvlist)
    (s : state) (r : flow unit) (s' : state) :
  shared_props props ->
  be_init_shared_fs zpool props names s = Some (r, s') ->
  grows (g_zfs s) (g_zfs s')
  /\ (exists cs, zfs_calls s' = (zfs_calls s ++ cs)%list
        /\ Forall (fun c => exists fs, fs ∈ names
                     /\ c = Zfs_create (zpool +:+ fs) {[ZFS_PROP_MOUNTPOINT := fs]}
                     /\ zfs_ds (g_zfs s) !! (zpool +:+ fs) = None) cs)
  /\ (r = Next tt ->
        forall fs, fs ∈ names -> is_Some (zfs_ds (g_zfs s') !! (zpool +:+ fs))).
Proof.
  revert props s. induction names as [|fs names IH]; intros props s Hp; cbn [be_init_shared_fs].
  - intros [= <- <-]. split; [apply grows_refl|]. split.
    + exists []. by rewrite app_nil_r.
    + intros _ fs Hfs. by apply elem_of_nil in Hfs.
  - rewrite shared_props_add by done. mstep.
    assert (Hp' : shared_props (Some {[ZFS_PROP_MOUNTPOINT := fs]})) by (right; by eexists).
    destruct (zfs_dataset_exists (g_zfs s) (zpool +:+ fs) ZFS_TYPE_FILESYSTEM) eqn:Hex.
    + intros H. destruct (IH _ _ Hp' H) as (Hg & (cs & Hcs & Hall) & Hfin).
      split; [done|]. split.
      * exists cs. split; [done|]. eapply Forall_impl; [done|].
        intros c (fs' & ? & ? & ?). exists fs'. split; [by right | done].
      * intros Hr fs' [->|Hin]%elem_of_cons; [|by apply Hfin].
        apply bool_decide_eq_true in Hex as [d Hd]. destruct Hg as [_ Hg].
        exists d. by apply Hg.
    + apply bool_decide_eq_false in Hex. apply eq_None_not_Some in Hex.
      destruct (decide ((zfs_create (g_zfs s) (zpool +:+ fs) {[ZFS_PROP_MOUNTPOINT := fs]}).1 <> 0))
        as [Hrc|Hrc]; mstep.
      * intros [= <- <-]. autorewrite with be_state. split; [apply zfs_create_grows|].
        split; [|done]. eexists. split; [done|]. constructor; [|done].
        exists fs. split; [by left | done].
      * intros H. destruct (IH _ _ Hp' H) as (Hg & (cs & Hcs & Hall) & Hfin).
        autorewrite with be_state in Hg, Hcs, Hall.
        assert (Hg1 := zfs_create_grows s (zpool +:+ fs) {[ZFS_PROP_MOUNTPOINT := fs]}).
        split; [by eapply grows_trans|]. split.
        -- exists (Zfs_create (zpool +:+ fs) {[ZFS_PROP_MOUNTPOINT := fs]} :: cs).
           split; [by rewrite Hcs, <- app_assoc|].
           constructor; [exists fs; split; [by left | done]|].
           eapply Forall_impl; [done|].
           intros c (fs' & ? & ? & Hnone). exists fs'. split; [by right|]. split; [done|].
           destruct (zfs_ds (g_zfs s) !! (zpool +:+ fs')) as [d|] eqn:Hd; [|done].
           destruct Hg1 as [_ Hg1]. apply Hg1 in Hd. congruence.
        -- intros Hr fs' [->|Hin]%elem_of_cons; [|by apply Hfin].
           assert (Hz : (zfs_create (g_zfs s) (zpool +:+ fs) {[ZFS_PROP_MOUNTPOINT := fs]}).1 = 0) by lia.
           apply create_ok in Hz as [_ [pd Hz]]. destruct Hg as [_ Hg].
           eexists. by apply Hg.
Qed.

Lemma be_init_shared_fs_leaves (zpool : string) (names : list string)
    (props : option nvlist) (s : state) (rc : Z) (s' : state) :
  be_init_shared_fs zpool props names s = Some (Return rc, s') -> rc = 1.
Proof.
  revert props s. induction names as [|fs names IH]; intros props s; cbn [be_init_shared_fs].
  - done.
  - destruct (nvlist_add_string props ZFS_PROP_MOUNTPOINT fs) as [r props'].
    case_decide; mstep; [by intros [= <- _]|].
    destruct (zfs_dataset_exists (g_zfs s) (zpool +:+ fs) ZFS_TYPE_FILESYSTEM); [apply IH|].
    case_decide; mstep; [by intros [= <- _] | apply IH].
Qed.

Lemma be_create_container_ds_runs (zpool : string) (s : state) :
  exists ok s', be_create_container_ds E zpool s = Some (Next ok, s')
    /\ grows (g_zfs s) (g_zfs s')
    /\ (ok = true -> is_Some (zfs_ds (g_zfs s') !! be_make_container_ds E zpool))
    /\ zfs_calls s' =
         (zfs_calls s ++
          if zfs_dataset_exists (g_zfs s) (be_make_container_ds E zpool) ZFS_TYPE_FILESYSTEM
          then []
          else [Zfs_create (be_make_container_ds E zpool)
                  (<[ZFS_PROP_CANMOUNT := "off"]>
                     (<[ZFS_PROP_MOUNTPOINT := ZFS_MOUNTPOINT_LEGACY]> ∅))])%list.
Proof.
  unfold be_create_container_ds. mstep.
  destruct (zfs_dataset_exists (g_zfs s) (be_make_container_ds E zpool) ZFS_TYPE_FILESYSTEM)
    eqn:Hex; mstep.
  - exists true, s. split; [done|]. split; [apply grows_refl|].
    split; [intros _; by apply bool_decide_eq_true in Hex | by rewrite app_nil_r].
  - case_decide; mstep; eexists _, _; (split; [done|]); autorewrite with be_state;
      (split; [apply zfs_create_grows|]); (split; [|done]); [done|].
    intros _. assert (Hz : (zfs_create (g_zfs s) (be_make_container_ds E zpool)
      (<[ZFS_PROP_CANMOUNT := "off"]> (<[ZFS_PROP_MOUNTPOINT := ZFS_MOUNTPOINT_LEGACY]> ∅))).1 = 0) by lia.
    apply create_ok in Hz as [_ [pd Hz]]. by eexists.
Qed.

Lemma be_create_container_ds_created (zpool : string) (s s' : state) :
  be_create_container_ds E zpool s = Some (Next true, s') ->
  exists d, zfs_ds (g_zfs s') !! be_make_container_ds E zpool = Some d
    /\ (zfs_ds (g_zfs s) !! be_make_container_ds E zpool = None ->
        ds_props d = <[ZFS_PROP_CANMOUNT := "off"]>
                       (<[ZFS_PROP_MOUNTPOINT := ZFS_MOUNTPOINT_LEGACY]> ∅)
        /\ ds_mountpoint d = (ZFS_MOUNTPOINT_LEGACY, ZPROP_SRC_LOCAL)).
Proof.
  unfold be_create_container_ds. mstep.
  destruct (zfs_dataset_exists (g_zfs s) (be_make_container_ds E zpool) ZFS_TYPE_FILESYSTEM)
    eqn:Hex; mstep.
  - intros [= <-]. apply bool_decide_eq_true in Hex as [d Hd]. exists d.
    split; [done|]. by rewrite Hd.
  - case_decide as Hrc; mstep; [done|]. intros [= <-]. autorewrite with be_state.
    apply create_ok in Hrc as [_ [pd Hd]]. eexists. split; [exact Hd|]. by intros _.
Qed.

Lemma be_create_container_ds_exists (zpool : string) (s : state) :
  is_Some (zfs_ds (g_zfs s) !! be_make_container_ds E zpool) ->
  be_create_container_ds E zpool s = Some (Next true, s).
Proof.
  intros H. unfold be_create_container_ds. mstep.
  unfold zfs_dataset_exists. by rewrite bool_decide_eq_true_2.
Qed.

Lemma be_init_success (be_attrs : be_attrs) (s s1 : state) :
  be_init E be_attrs s = Some (0, s1) ->
  be_zfs_init E = true
  /\ exists name zpool fs_names,
       BE_ATTR_NEW_BE_NAME be_attrs = Some name
       /\ be_valid_be_name E name = true
       /\ BE_ATTR_NEW_BE_POOL be_attrs = Some zpool
       /\ BE_ATTR_FS_NUM be_attrs = Some (length fs_names)
       /\ BE_ATTR_FS_NAMES be_attrs = Some fs_names
       /\ length (default [] (BE_ATTR_SHARED_FS_NAMES be_attrs))
            = default O (BE_ATTR_SHARED_FS_NUM be_attrs)
       /\ zpool ∈ zpools (g_zfs s)
       /\ grows (g_zfs s) (g_zfs s1)
       /\ is_Some (zfs_ds (g_zfs s1) !! be_make_container_ds E zpool)
       /\ is_Some (zfs_ds (g_zfs s1) !! be_make_root_ds E zpool name).
Proof.
  unfold be_init. mstep.
  destruct (be_zfs_init E); mstep; [|done].
  destruct (BE_ATTR_NEW_BE_NAME be_attrs) as [name|]; mstep; [|done].
  destruct (be_valid_be_name E name) eqn:Hvalid; mstep; [|done].
  destruct (BE_ATTR_NEW_BE_POOL be_attrs) as [zpool|]; mstep; [|done].
  destruct (BE_ATTR_FS_NUM be_attrs) as [fs_num|]; mstep; [|done].
  destruct (BE_ATTR_FS_NAMES be_attrs) as [fs_names|]; mstep; [|done].
  case_decide as Hlen; mstep; [done|].
  case_decide as Hslen; mstep; [done|].
  unfold zpool_open.
  destruct (bool_decide (zpool ∈ zpools (g_zfs s))) eqn:Hpool; mstep; [|done].
  apply bool_decide_eq_true in Hpool.
  match goal with |- context [be_create_container_ds E zpool ?st] =>
    destruct (be_create_container_ds_runs zpool st) as (ok & sc & Hrun & Hgc & Hcont & _);
    rewrite Hrun end.
  autorewrite with be_state in Hgc.
  destruct ok; mstep; [|done]. specialize (Hcont eq_refl).
  rewrite zpool_iter_exists.
  destruct (existsb _ _); mstep; [done|].
  assert (Htail : forall l0 : nvlist,
    match
      (if decide ((zfs_create (g_zfs sc) (be_make_root_ds E zpool name)
            (<[ZFS_PROP_CANMOUNT:="noauto"]> (<[ZFS_PROP_MOUNTPOINT:=ZFS_MOUNTPOINT_LEGACY]> l0))).1 ≠ 0)
       then fun s0 => Some (Return 1, with_err "be_init: failed to create BE root dataset (%s): %s" s0)
       else fun s0 =>
         match be_init_fs (be_make_root_ds E zpool name) fs_names s0 with
         | Some (Next _, s') =>
             match
               (if bool_decide (0 < default 0 (BE_ATTR_SHARED_FS_NUM be_attrs))%nat
                then be_init_shared_fs zpool (Some ∅) (default [] (BE_ATTR_SHARED_FS_NAMES be_attrs))
                else fun s2 => Some (Next (), s2)) s'
             with
             | Some (Next _, s'0) => Some (Return 0, s'0)
             | Some (Return rc, s'0) => Some (Return rc, s'0)
             | None => None
             end
         | Some (Return rc, s') => Some (Return rc, s')
         | None => None
         end)
        (with_zfs
           (zfs_create (g_zfs sc) (be_make_root_ds E zpool name)
              (<[ZFS_PROP_CANMOUNT:="noauto"]> (<[ZFS_PROP_MOUNTPOINT:=ZFS_MOUNTPOINT_LEGACY]> l0))).2
           (with_call
              (Zfs_create (be_make_root_ds E zpool name)
                 (<[ZFS_PROP_CANMOUNT:="noauto"]> (<[ZFS_PROP_MOUNTPOINT:=ZFS_MOUNTPOINT_LEGACY]> l0)))
              (with_bt
                 (set_nbe_zfs_props
                    (Some (<[ZFS_PROP_CANMOUNT:="noauto"]> (<[ZFS_PROP_MOUNTPOINT:=ZFS_MOUNTPOINT_LEGACY]> l0))))
                 (with_bt
                    (set_nbe_zfs_props (Some (<[ZFS_PROP_MOUNTPOINT:=ZFS_MOUNTPOINT_LEGACY]> l0)))
                    (with_bt (set_nbe_zfs_props (Some l0)) sc)))))
    with
    | Some (Next rc, s') | Some (Return rc, s') => Some (rc, s')
    | None => None
    end = Some (0, s1) ->
    grows (g_zfs sc) (g_zfs s1)
    /\ is_Some (zfs_ds (g_zfs s1) !! be_make_root_ds E zpool name)).
  { intros l0. case_decide as Hrc; mstep; [done|].
    assert (Hz : (zfs_create (g_zfs sc) (be_make_root_ds E zpool name)
       (<[ZFS_PROP_CANMOUNT:="noauto"]> (<[ZFS_PROP_MOUNTPOINT:=ZFS_MOUNTPOINT_LEGACY]> l0))).1 = 0) by lia.
    apply create_ok in Hz as [_ [pd Hz]].
    assert (Hg1 := zfs_create_grows sc (be_make_root_ds E zpool name)
       (<[ZFS_PROP_CANMOUNT:="noauto"]> (<[ZFS_PROP_MOUNTPOINT:=ZFS_MOUNTPOINT_LEGACY]> l0))).
    match goal with |- context [be_init_fs ?r ?n ?st] =>
      destruct (be_init_fs r n st) as [[[[]|rc] sf]|] eqn:Hfs end; [| |done].
    2: { intros [= -> <-]. apply be_init_fs_grows in Hfs. autorewrite with be_state in Hfs.
         assert (Hg2 := grows_trans _ _ _ Hg1 Hfs). split; [done|].
         destruct Hfs as [_ Hfs]. eexists. by apply Hfs. }
    apply be_init_fs_grows in Hfs. autorewrite with be_state in Hfs.
    assert (Hg2 := grows_trans _ _ _ Hg1 Hfs).
    assert (Hroot : is_Some (zfs_ds (g_zfs sf) !! be_make_root_ds E zpool name)).
    { destruct Hfs as [_ Hfs]. eexists. by apply Hfs. }
    destruct (bool_decide (0 < default 0 (BE_ATTR_SHARED_FS_NUM be_attrs))%nat).
    - destruct (be_init_shared_fs _ _ _ sf) as [[[[]|rc] sh]|] eqn:Hsh; [| |done].
      + intros [= <-]. apply be_init_shared_fs_spec in Hsh as [Hsh _]; [|by left].
        split; [by eapply grows_trans|].
        destruct Hroot as [d Hd]. destruct Hsh as [_ Hsh]. eexists. by apply Hsh.
      + intros [= -> <-]. apply be_init_shared_fs_spec in Hsh as [Hsh _]; [|by left].
        split; [by eapply grows_trans|].
        destruct Hroot as [d Hd]. destruct Hsh as [_ Hsh]. eexists. by apply Hsh.
    - by intros [= <-]. }
  intros Hrun1.
  assert (grows (g_zfs sc) (g_zfs s1)
          /\ is_Some (zfs_ds (g_zfs s1) !! be_make_root_ds E zpool name)) as [Hg Hroot].
  { destruct (BE_ATTR_ZFS_PROPERTIES be_attrs) as [[[] l]|]; mstep; [|done|].
    - cbn [default fmap option_fmap option_map snd] in Hrun1. by apply (Htail l).
    - cbn [default fmap option_fmap option_map snd] in Hrun1. by apply (Htail ∅). }
  split; [done|]. exists name, zpool, fs_names.
  subst fs_num. repeat split; try done.
  - by destruct Hgc, Hg; congruence.
  - intros k d Hk. destruct Hgc as [_ Hgc], Hg as [_ Hg]. auto.
  - destruct Hcont as [d Hd]. destruct Hg as [_ Hg]. eexists. by apply Hg.
Qed.

(** C7. A second be_init with the same attributes, after a first one
    that succeeded, fails at the check that the BE does not exist yet:
    it returns 1 with the message that the BE already exists, and the
    libzfs state, with the hierarchy the first call created, is
    unchanged: no libzfs call that changes the name space is issued. *)
Theorem be_init_twice (be_attrs : be_attrs) (s s1 : state) :
  be_init E be_attrs s = Some (0, s1) ->
  exists s2, be_init E be_attrs s1 = Some (1, s2)
    /\ g_zfs s2 = g_zfs s1
    /\ zfs_calls s2 = zfs_calls s1
    /\ be_errs s2 = (be_errs s1 ++ ["be_init: BE (%s) already exists"])%list.
Proof.
  intros H1.
  destruct (be_init_success _ _ _ H1)
    as (Hinit & name & zpool & fs_names & Hname & Hvalid & Hzpool & Hnum & Hnames
        & Hshared & Hpool & [Hpools _] & Hcont & Hroot).
  unfold be_init. mstep. rewrite Hinit, Hname. mstep. rewrite Hvalid, Hzpool. mstep.
  rewrite Hnum, Hnames, Hshared. mstep.
  unfold zpool_open. rewrite Hpools. rewrite bool_decide_eq_true_2 by done. mstep.
  rewrite be_create_container_ds_exists by done. mstep.
  rewrite zpool_iter_exists. autorewrite with be_state.
  assert (Hex : existsb (fun p => zfs_dataset_exists (g_zfs s1) (be_make_root_ds E p name)
                                    ZFS_TYPE_FILESYSTEM) (zpools (g_zfs s1)) = true).
  { apply existsb_exists. exists zpool. split.
    - rewrite Hpools. by apply list_elem_of_In.
    - by apply bool_decide_eq_true_2. }
  rewrite Hex. mstep. by eexists.
Qed.

(** The attributes of init(new_BE_name="be1", new_BE_pool="rpool",
    fs_list=["/","/var"]) with a list of shared file systems. *)
Definition init_be1 (shared : list string) : be_attrs :=
  BeAttrs None None (Some "be1") (Some "rpool") None None None
    (Some 2%nat) (Some ["/"; "/var"]) (Some (length shared)) (Some shared).

Definition container_props : nvlist :=
  <[ZFS_PROP_CANMOUNT := "off"]> (<[ZFS_PROP_MOUNTPOINT := ZFS_MOUNTPOINT_LEGACY]> ∅).
Definition be_root_props : nvlist :=
  <[ZFS_PROP_CANMOUNT := "noauto"]> (<[ZFS_PROP_MOUNTPOINT := ZFS_MOUNTPOINT_LEGACY]> ∅).
Definition be_var_props : nvlist :=
  <[ZFS_PROP_MOUNTPOINT := "/var"]> be_root_props.

(** C8. A successful init of "be1" in "rpool" with the file systems "/"
    and "/var" issues these creations, in this order: the container
    rpool/<container> if it is absent, the root dataset
    rpool/<container>/be1 with mountpoint legacy and canmount noauto,
    nothing for "/", and rpool/<container>/be1/var with mountpoint /var
    and canmount noauto; then, for shared file systems, only datasets
    rpool<path> directly under the pool that did not exist, each with
    its path as mountpoint.  Afterwards the container exists, created
    by this call with mountpoint legacy and canmount off when it was
    absent; the root dataset and var exist with these properties; every
    shared path exists; and every dataset that existed before is as it
    was. *)
Theorem be_init_be1_scenario (shared : list string) (s s' : state) :
  be_init E (init_be1 shared) s = Some (0, s') ->
  let cont := be_make_container_ds E "rpool" in
  let root := be_make_root_ds E "rpool" "be1" in
  (exists cs,
     zfs_calls s' =
       (zfs_calls s
        ++ (if zfs_dataset_exists (g_zfs s) cont ZFS_TYPE_FILESYSTEM then []
            else [Zfs_create cont container_props])
        ++ [Zfs_create root be_root_props; Zfs_create (root +:+ "/var") be_var_props]
        ++ cs)%list
     /\ Forall (fun c => exists fs, fs ∈ shared
                   /\ c = Zfs_create ("rpool" +:+ fs) {[ZFS_PROP_MOUNTPOINT := fs]}
                   /\ zfs_ds (g_zfs s) !! ("rpool" +:+ fs) = None) cs)
  /\ (zfs_ds (g_zfs s) !! cont = None ->
      exists d, zfs_ds (g_zfs s') !! cont = Some d /\ ds_props d = container_props
                /\ ds_mountpoint d = (ZFS_MOUNTPOINT_LEGACY, ZPROP_SRC_LOCAL))
  /\ (exists d, zfs_ds (g_zfs s') !! root = Some d /\ ds_props d = be_root_props
                /\ ds_mountpoint d = (ZFS_MOUNTPOINT_LEGACY, ZPROP_SRC_LOCAL))
  /\ (exists d, zfs_ds (g_zfs s') !! (root +:+ "/var") = Some d
                /\ ds_props d = be_var_props
                /\ ds_mountpoint d = ("/var", ZPROP_SRC_LOCAL))
  /\ (forall fs, fs ∈ shared -> is_Some (zfs_ds (g_zfs s') !! ("rpool" +:+ fs)))
  /\ grows (g_zfs s) (g_zfs s').
Proof.
  unfold be_init, init_be1. mstep.
  destruct (be_zfs_init E); mstep; [|done].
  destruct (be_valid_be_name E "be1"); mstep; [|done].
  unfold zpool_open.
  destruct (bool_decide ("rpool" ∈ zpools (g_zfs s))); mstep; [|done].
  match goal with |- context [be_create_container_ds E "rpool" ?st] =>
    destruct (be_create_container_ds_runs "rpool" st) as (ok & sc & Hrun & Hgc & _ & Hcc);
    rewrite Hrun end.
  autorewrite with be_state in Hgc, Hcc.
  destruct ok; mstep; [|done].
  apply be_create_container_ds_created in Hrun as (dc & Hdc & Hnew).
  autorewrite with be_state in Hnew.
  rewrite zpool_iter_exists.
  destruct (existsb _ _); mstep; [done|].
  cbn [default fmap option_fmap option_map].
  case_decide as Hrc; mstep; [done|].
  cbn [be_init_fs]. rewrite decide_True by by vm_compute.
  rewrite (decide_False (P := strcmp "/var" "/" = 0)) by by vm_compute. mstep.
  case_decide as Hrc2; mstep; [done|].
  fold be_root_props in *. fold be_var_props in *. fold container_props in *.
  set (root := be_make_root_ds E "rpool" "be1") in *.
  set (h1 := (zfs_create (g_zfs sc) root be_root_props).2) in *.
  set (h2 := (zfs_create h1 (root +:+ "/var") be_var_props).2) in *.
  assert (Hz1 : (zfs_create (g_zfs sc) root be_root_props).1 = 0) by lia.
  assert (Hz2 : (zfs_create h1 (root +:+ "/var") be_var_props).1 = 0) by lia.
  assert (Hg1 : grows (g_zfs sc) h1) by apply create_grows.
  assert (Hg2 : grows h1 h2) by apply create_grows.
  apply create_ok in Hz1 as [_ [pd1 Hd1]]. apply create_ok in Hz2 as [_ [pd2 Hd2]].
  fold h1 in Hd1. fold h2 in Hd2.
  assert (Hd1' : zfs_ds h2 !! root = Some (Zfs.new_dataset pd1 root be_root_props None)).
  { destruct Hg2 as [_ Hg2]. by apply Hg2. }
  assert (Hdc' : zfs_ds h2 !! be_make_container_ds E "rpool" = Some dc).
  { destruct Hg1 as [_ Hg1], Hg2 as [_ Hg2]. by apply Hg2, Hg1. }
  assert (Hfin : forall sf cs,
    grows h2 (g_zfs sf) ->
    zfs_calls sf = (((zfs_calls sc ++ [Zfs_create root be_root_props])
                     ++ [Zfs_create (root +:+ "/var") be_var_props]) ++ cs)%list ->
    Forall (fun c => exists fs, fs ∈ shared
                   /\ c = Zfs_create ("rpool" +:+ fs) {[ZFS_PROP_MOUNTPOINT := fs]}
                   /\ zfs_ds h2 !! ("rpool" +:+ fs) = None) cs ->
    (forall fs, fs ∈ shared -> is_Some (zfs_ds (g_zfs sf) !! ("rpool" +:+ fs))) ->
    (exists cs,
     zfs_calls sf =
       (zfs_calls s
        ++ (if zfs_dataset_exists (g_zfs s) (be_make_container_ds E "rpool") ZFS_TYPE_FILESYSTEM
            then [] else [Zfs_create (be_make_container_ds E "rpool") container_props])
        ++ [Zfs_create root be_root_props; Zfs_create (root +:+ "/var") be_var_props]
        ++ cs)%list
     /\ Forall (fun c => exists fs, fs ∈ shared
                   /\ c = Zfs_create ("rpool" +:+ fs) {[ZFS_PROP_MOUNTPOINT := fs]}
                   /\ zfs_ds (g_zfs s) !! ("rpool" +:+ fs) = None) cs)
    /\ (zfs_ds (g_zfs s) !! be_make_container_ds E "rpool" = None ->
        exists d, zfs_ds (g_zfs sf) !! be_make_container_ds E "rpool" = Some d
                  /\ ds_props d = container_props
                  /\ ds_mountpoint d = (ZFS_MOUNTPOINT_LEGACY, ZPROP_SRC_LOCAL))
    /\ (exists d, zfs_ds (g_zfs sf) !! root = Some d /\ ds_props d = be_root_props
                /\ ds_mountpoint d = (ZFS_MOUNTPOINT_LEGACY, ZPROP_SRC_LOCAL))
    /\ (exists d, zfs_ds (g_zfs sf) !! (root +:+ "/var") = Some d
                /\ ds_props d = be_var_props
                /\ ds_mountpoint d = ("/var", ZPROP_SRC_LOCAL))
    /\ (forall fs, fs ∈ shared -> is_Some (zfs_ds (g_zfs sf) !! ("rpool" +:+ fs)))
    /\ grows (g_zfs s) (g_zfs sf)).
  { intros sf cs Hgf Hcalls Hcs Hall.
    assert (Hg02 : grows (g_zfs s) h2) by (eapply grows_trans; [|done]; by eapply grows_trans).
    split; [|split; [|split; [|split; [|split]]]].
    - exists cs. split.
      + rewrite Hcalls, Hcc. by rewrite <- !app_assoc.
      + eapply Forall_impl; [done|]. intros c (fs & ? & ? & Hnone).
        exists fs. split; [done|]. split; [done|].
        destruct (zfs_ds (g_zfs s) !! ("rpool" +:+ fs)) as [d|] eqn:Hd; [|done].
        destruct Hg02 as [_ Hg02]. apply Hg02 in Hd. congruence.
    - intros Habsent. exists dc. split; [destruct Hgf as [_ Hgf]; by apply Hgf|].
      by apply Hnew.
    - eexists. split; [destruct Hgf as [_ Hgf]; by apply Hgf|]. by split.
    - eexists. split; [destruct Hgf as [_ Hgf]; by apply Hgf|]. by split.
    - done.
    - by eapply grows_trans. }
  cbn [id].
  destruct (bool_decide (0 < length shared)%nat) eqn:Hsh; mstep.
  - match goal with |- context [be_init_shared_fs "rpool" (Some ∅) shared ?st] =>
      destruct (be_init_shared_fs "rpool" (Some ∅) shared st) as [[[[]|rc] sf]|] eqn:Hrunsh
    end; [| |done].
    + intros [= <-].
      apply be_init_shared_fs_spec in Hrunsh as (Hgs & (cs & Hcs & Hall) & Hex); [|by left].
      autorewrite with be_state in Hgs, Hcs, Hall. by eapply Hfin; eauto.
    + intros [= -> <-]. by apply be_init_shared_fs_leaves in Hrunsh.
  - intros [= <-]. apply bool_decide_eq_false in Hsh.
    assert (shared = []) as -> by (destruct shared; [done | cbn in Hsh; lia]).
    eapply (Hfin _ []); autorewrite with be_state.
    + apply grows_refl.
    + by rewrite app_nil_r.
    + done.
    + intros fs Hfs. by apply elem_of_nil in Hfs.
Qed.

End Init.

(** ** The hierarchy replicators *)

Section WalkFacts.

(** The property policy of a replicated node [node] of the BE rooted at
    [oroot]: canmount is noauto; for the root of the BE (its name
    relative to [oroot] compares equal to the empty string) mountpoint
    is legacy; for another node, mountpoint is the node's own value when
    the source of that value has the local bit, and is absent when it
    has not. *)
Definition node_props_ok (h : libzfs_handle) (oroot node : string) (props : nvlist)
    : Prop :=
  props !! ZFS_PROP_CANMOUNT = Some "noauto"
  /\ (strcmp (offset node (String.length oroot)) "" = 0 ->
        props !! ZFS_PROP_MOUNTPOINT = Some ZFS_MOUNTPOINT_LEGACY)
  /\ (strcmp (offset node (String.length oroot)) "" <> 0 ->
        forall mp src, zfs_prop_get_mountpoint h node = Some (mp, src) ->
          (Z.land src ZPROP_SRC_LOCAL <> 0 -> props !! ZFS_PROP_MOUNTPOINT = Some mp)
          /\ (Z.land src ZPROP_SRC_LOCAL = 0 -> props !! ZFS_PROP_MOUNTPOINT = None)).

(** A call of the clone walk: for a source node [oroot ++ rel], the
    clone of its snapshot at [nroot ++ rel], with properties that follow
    the policy for that node. *)
Definition cloned_ok (s0 : state) (c : zfs_call) : Prop :=
  exists oroot nroot snap rel props,
    obe_root_ds (bt s0) = Some oroot /\ nbe_root_ds (bt s0) = Some nroot
    /\ obe_snap_name (bt s0) = Some snap
    /\ c = Zfs_clone ((oroot +:+ rel) +:+ "@" +:+ snap) (nroot +:+ rel) props
    /\ node_props_ok (g_zfs s0) oroot (oroot +:+ rel) props.

(** A call of the send walk: for a source node [oroot ++ rel], the
    creation of [nroot ++ rel] with properties that follow the policy
    for that node, or the receive into a dataset so created. *)
Definition sent_ok (s0 : state) (c : zfs_call) : Prop :=
  exists oroot nroot snap rel,
    obe_root_ds (bt s0) = Some oroot /\ nbe_root_ds (bt s0) = Some nroot
    /\ obe_snap_name (bt s0) = Some snap
    /\ ((exists props,
           c = Zfs_create (nroot +:+ rel) props
           /\ node_props_ok (g_zfs s0) oroot (oroot +:+ rel) props)
        \/ c = Zfs_receive (nroot +:+ rel) snap).

Definition keeps_mountpoints (m m' : gmap string dataset) : Prop :=
  forall k d, m !! k = Some d ->
    exists d', m' !! k = Some d' /\ ds_mountpoint d' = ds_mountpoint d.

(** What a walk keeps of the state [s0] it started in. *)
Definition walk_frame (s0 s : state) : Prop :=
  obe_root_ds (bt s) = obe_root_ds (bt s0)
  /\ nbe_root_ds (bt s) = nbe_root_ds (bt s0)
  /\ obe_snap_name (bt s) = obe_snap_name (bt s0)
  /\ keeps_mountpoints (zfs_ds (g_zfs s0)) (zfs_ds (g_zfs s)).

Definition walk_calls (P : zfs_call -> Prop) (s s' : state) : Prop :=
  exists cs, zfs_calls s' = (zfs_calls s ++ cs)%list /\ Forall P cs.

Lemma length_append (s t : string) :
  String.length (s +:+ t) = (String.length s + String.length t)%nat.
Proof. induction s as [|a s IH]; [done|]. cbn. by rewrite <- IH. Qed.

Lemma append_assoc (a b c : string) : (a +:+ b) +:+ c = a +:+ (b +:+ c).
Proof.
  induction a as [|x a IH]; [done|].
  change (String x ((a +:+ b) +:+ c) = String x (a +:+ (b +:+ c))). by rewrite IH.
Qed.

Lemma prefix_app (a b : string) :
  String.prefix a b = true <-> exists t, b = a +:+ t.
Proof.
  revert b. induction a as [|x a IH]; intros b.
  - split; [intros _; exists b; reflexivity | by destruct b].
  - destruct b as [|y b]; cbn [String.prefix]; [split; [done | by intros [t Ht]]|].
    destruct (ascii_dec x y) as [->|Hne].
    + rewrite IH. split; intros [t Ht]; exists t.
      * change (String y b = String y (a +:+ t)). by rewrite Ht.
      * change (String y b = String y (a +:+ t)) in Ht. by injection Ht.
    + split; [done|]. intros [t Ht].
      change (String y b = String x (a +:+ t)) in Ht. congruence.
Qed.

Lemma parent_shorter (k p : string) :
  Zfs.parent k = Some p -> (String.length p < String.length k)%nat.
Proof.
  unfold Zfs.parent. destruct (strrchr k "/") as [i|] eqn:Hi; [|done].
  intros [= <-]. apply strrchr_Some in Hi as [Hk _].
  rewrite Hk at 2. rewrite length_append. cbn. lia.
Qed.

(** A dataset name extends the name of its parent. *)
Lemma parent_prefix (k p : string) : Zfs.parent k = Some p -> String.prefix p k = true.
Proof.
  unfold Zfs.parent. destruct (strrchr k "/") as [i|] eqn:Hi; [|done].
  intros [= <-]. apply strrchr_Some in Hi as [Hk _].
  apply prefix_app. by exists (String "/" (offset k (S i))).
Qed.

Lemma prefix_trans (a b c : string) :
  String.prefix a b = true -> String.prefix b c = true -> String.prefix a c = true.
Proof.
  intros [t ->]%prefix_app [u ->]%prefix_app. apply prefix_app.
  exists (t +:+ u). apply append_assoc.
Qed.

Lemma prefix_length (a b : string) :
  String.prefix a b = true -> (String.length a <= String.length b)%nat.
Proof. intros [t ->]%prefix_app. rewrite length_append. lia. Qed.

Lemma children_spec (m : gmap string dataset) (name k : string) :
  k ∈ Zfs.children m name <-> is_Some (m !! k) /\ Zfs.parent k = Some name.
Proof.
  unfold Zfs.children. rewrite list_elem_of_filter, list_elem_of_fmap. split.
  - intros [Hp ([k' d] & -> & Hin)]. apply elem_of_map_to_list in Hin. by split; [exists d|].
  - intros [[d Hd] Hp]. split; [done|]. exists (k, d). split; [done|].
    by apply elem_of_map_to_list.
Qed.

Lemma keeps_mountpoints_refl (m : gmap string dataset) : keeps_mountpoints m m.
Proof. intros k d H. by exists d. Qed.

Lemma keeps_mountpoints_trans (m1 m2 m3 : gmap string dataset) :
  keeps_mountpoints m1 m2 -> keeps_mountpoints m2 m3 -> keeps_mountpoints m1 m3.
Proof.
  intros H1 H2 k d Hk. destruct (H1 _ _ Hk) as (d' & Hk' & <-). by apply H2.
Qed.

Lemma walk_frame_refl (s : state) : walk_frame s s.
Proof. repeat split. apply keeps_mountpoints_refl. Qed.

Lemma walk_calls_refl (P : zfs_call -> Prop) (s s' : state) :
  zfs_calls s' = zfs_calls s -> walk_calls P s s'.
Proof. intros H. exists []. by rewrite app_nil_r. Qed.

Lemma walk_calls_trans (P : zfs_call -> Prop) (s1 s2 s3 : state) :
  walk_calls P s1 s2 -> walk_calls P s2 s3 -> walk_calls P s1 s3.
Proof.
  intros (cs1 & H1 & HP1) (cs2 & H2 & HP2). exists (cs1 ++ cs2)%list.
  split; [by rewrite H2, H1, app_assoc | by apply Forall_app].
Qed.

Lemma grows_keeps_mountpoints (h h' : libzfs_handle) :
  grows h h' -> keeps_mountpoints (zfs_ds h) (zfs_ds h').
Proof. intros [_ H] k d Hk. exists d. split; [by apply H | done]. Qed.

(** Iteration with a callback that keeps the frame and issues only calls
    that satisfy [P]. *)
Lemma iter_until_walk (P : zfs_call -> Prop) (s0 : state)
    (cb : string -> state -> option (Z * state)) (l : list string) :
  (forall x s rc s', x ∈ l -> walk_frame s0 s -> cb x s = Some (rc, s') ->
     walk_frame s0 s' /\ walk_calls P s s') ->
  forall s rc s', walk_frame s0 s -> iter_until cb l s = Some (rc, s') ->
    walk_frame s0 s' /\ walk_calls P s s'.
Proof.
  induction l as [|x l IH]; intros Hcb s rc s' Hs; cbn [iter_until].
  - intros [= <- <-]. split; [done | by apply walk_calls_refl].
  - destruct (cb x s) as [[rc1 s1]|] eqn:Hx; [|done].
    destruct (Hcb _ _ _ _ (list_elem_of_here _ _) Hs Hx) as [Hf1 Hc1].
    case_decide.
    + intros Hit.
      destruct (IH (fun y sy rcy sy' Hy => Hcb y sy rcy sy' (list_elem_of_further _ _ _ Hy))
                   _ _ _ Hf1 Hit) as [Hf2 Hc2].
      split; [done | by eapply walk_calls_trans].
    + by intros [= <- <-].
Qed.

Lemma walk_frame_mountpoint (s0 s : state) (node mp : string) (src : Z) :
  walk_frame s0 s ->
  zfs_prop_get_mountpoint (g_zfs s0) node = Some (mp, src) ->
  zfs_prop_get_mountpoint (g_zfs s) node = Some (mp, src).
Proof.
  intros (_ & _ & _ & Hk). unfold zfs_prop_get_mountpoint.
  destruct (zfs_ds (g_zfs s0) !! node) as [d|] eqn:Hd; [|done].
  destruct (Hk _ _ Hd) as (d' & -> & Hmp). cbn. intros [= <-]. by rewrite Hmp.
Qed.

Lemma walk_frame_step (s0 s st : state) :
  walk_frame s0 s ->
  obe_root_ds (bt st) = obe_root_ds (bt s) ->
  nbe_root_ds (bt st) = nbe_root_ds (bt s) ->
  obe_snap_name (bt st) = obe_snap_name (bt s) ->
  keeps_mountpoints (zfs_ds (g_zfs s)) (zfs_ds (g_zfs st)) ->
  walk_frame s0 st.
Proof.
  intros (? & ? & ? & Hk) ? ? ? Hk'. repeat split; try congruence.
  by eapply keeps_mountpoints_trans.
Qed.

Lemma zfs_open_keeps (h : libzfs_handle) (name : string) (t : zfs_type_t) :
  keeps_mountpoints (zfs_ds h) (zfs_ds (zfs_open h name t).2).
Proof. unfold zfs_open. destruct (zfs_dataset_exists h name t); apply keeps_mountpoints_refl. Qed.

Lemma zfs_open_ds (h : libzfs_handle) (name : string) (t : zfs_type_t) :
  zfs_ds (zfs_open h name t).2 = zfs_ds h.
Proof. unfold zfs_open. by destruct (zfs_dataset_exists h name t). Qed.

Lemma zfs_clone_keeps (h : libzfs_handle) (snap target : string) (props : nvlist) :
  keeps_mountpoints (zfs_ds h) (zfs_ds (zfs_clone h snap target props).2).
Proof. apply grows_keeps_mountpoints, create_grows. Qed.

Lemma zfs_create_keeps (h : libzfs_handle) (target : string) (props : nvlist) :
  keeps_mountpoints (zfs_ds h) (zfs_ds (zfs_create h target props).2).
Proof. apply grows_keeps_mountpoints, create_grows. Qed.

Lemma node_props_root (h : libzfs_handle) (oroot node : string) (l : nvlist) :
  strcmp (offset node (String.length oroot)) "" = 0 ->
  node_props_ok h oroot node
    (<[ZFS_PROP_CANMOUNT:="noauto"]> (<[ZFS_PROP_MOUNTPOINT:=ZFS_MOUNTPOINT_LEGACY]> l)).
Proof.
  intros Hroot. split; [by rewrite lookup_insert_eq|]. split; [|done].
  intros _. rewrite lookup_insert_ne by done. by rewrite lookup_insert_eq.
Qed.

Lemma node_props_local (h : libzfs_handle) (oroot node mp : string) (src : Z) (l : nvlist) :
  strcmp (offset node (String.length oroot)) "" <> 0 ->
  zfs_prop_get_mountpoint h node = Some (mp, src) ->
  Z.land src ZPROP_SRC_LOCAL <> 0 ->
  node_props_ok h oroot node
    (<[ZFS_PROP_CANMOUNT:="noauto"]> (<[ZFS_PROP_MOUNTPOINT:=mp]> l)).
Proof.
  intros Hroot Hmp Hsrc. split; [by rewrite lookup_insert_eq|]. split; [done|].
  intros _ mp' src' Hmp'. rewrite Hmp in Hmp'. injection Hmp' as <- <-.
  split; [|done]. intros _. rewrite lookup_insert_ne by done. by rewrite lookup_insert_eq.
Qed.

Lemma node_props_inherited (h : libzfs_handle) (oroot node mp : string) (src : Z)
    (l : nvlist) :
  strcmp (offset node (String.length oroot)) "" <> 0 ->
  zfs_prop_get_mountpoint h node = Some (mp, src) ->
  Z.land src ZPROP_SRC_LOCAL = 0 ->
  l !! ZFS_PROP_MOUNTPOINT = None ->
  node_props_ok h oroot node (<[ZFS_PROP_CANMOUNT:="noauto"]> l).
Proof.
  intros Hroot Hmp Hsrc Hl. split; [by rewrite lookup_insert_eq|]. split; [done|].
  intros _ mp' src' Hmp'. rewrite Hmp in Hmp'. injection Hmp' as <- <-.
  split; [done|]. intros _. by rewrite lookup_insert_ne.
Qed.

Lemma node_props_frame (s0 s : state) (oroot node : string) (props : nvlist) :
  walk_frame s0 s ->
  node_props_ok (g_zfs s) oroot node props ->
  node_props_ok (g_zfs s0) oroot node props.
Proof.
  intros Hf (Hc & Hr & Hn). split; [done|]. split; [done|].
  intros Hnr mp src Hmp. apply (Hn Hnr). by eapply walk_frame_mountpoint.
Qed.

End WalkFacts.

(** The frame after statements that set the property list, open a
    snapshot and clone or create. *)
Ltac keeps_tac :=
  first
    [ apply keeps_mountpoints_refl
    | apply zfs_open_keeps
    | apply zfs_clone_keeps
    | apply zfs_create_keeps
    | (eapply keeps_mountpoints_trans;
       [apply zfs_open_keeps | first [apply zfs_clone_keeps | apply zfs_create_keeps]]) ].

Ltac walk_frame_tac :=
  eapply walk_frame_step;
  [ eassumption
  | autorewrite with be_state; done ..
  | autorewrite with be_state; keeps_tac ].

Section CloneWalk.

Context (E : libbe).

Lemma be_clone_fs_callback_walk (depth : nat) (s0 : state) (zhp : string)
    (s : state) (rc : Z) (s' : state) :
  walk_frame s0 s ->
  (forall oroot, obe_root_ds (bt s0) = Some oroot -> String.prefix oroot zhp = true) ->
  be_clone_fs_callback E depth zhp s = Some (rc, s') ->
  walk_frame s0 s' /\ walk_calls (cloned_ok s0) s s'.
Proof.
  revert zhp s rc s'. induction depth as [|depth IH]; intros zhp s rc s' Hs Hpre; [done|].
  cbn [be_clone_fs_callback]. mstep.
  pose proof Hs as (Hor & Hnr & Hsn & Hkeep).
  destruct (obe_root_ds (bt s)) as [oroot|] eqn:Horoot; mstep; [|done].
  assert (Hpz : String.prefix oroot zhp = true) by (apply Hpre; congruence).
  assert (Hlen := prefix_length _ _ Hpz).
  destruct (proj1 (prefix_app _ _) Hpz) as [rel Hrel].
  assert (Hoff : offset zhp (String.length oroot) = rel) by (rewrite Hrel; apply offset_app).
  assert (Hchild : forall x m, x ∈ Zfs.children m zhp ->
            forall o, obe_root_ds (bt s0) = Some o -> String.prefix o x = true).
  { intros x m [_ Hx]%children_spec o Ho. apply parent_prefix in Hx.
    eapply prefix_trans; [|exact Hx]. by apply Hpre. }
  case_decide as Hcmp; mstep;
    [|intros [= <- <-]; split; [done | by apply walk_calls_refl]].
  destruct (nbe_root_ds (bt s)) as [nroot|] eqn:Hnroot; mstep; [|done].
  (* from the snapshot on, with the property list [p] of the node *)
  assert (Htail : forall (p : nvlist) (st : state),
    node_props_ok (g_zfs s) oroot zhp p ->
    nbe_zfs_props (bt st) = Some p ->
    obe_root_ds (bt st) = obe_root_ds (bt s) ->
    nbe_root_ds (bt st) = nbe_root_ds (bt s) ->
    obe_snap_name (bt st) = obe_snap_name (bt s) ->
    g_zfs st = g_zfs s -> zfs_calls st = zfs_calls s ->
    body (
      do snap_name <- deref (obe_snap_name (bt s));
      let ss := zhp +:+ "@" +:+ snap_name in
      do zhp_ss <- zfs (fun h => zfs_open h ss ZFS_TYPE_SNAPSHOT);
      match zhp_ss with
      | None => bail "be_clone_fs_callback: failed to get handle to snapshot (%s): %s"
      | Some zhp_ss =>
          do b <- get_bt;
          let props := nvl_props (nbe_zfs_props b) in
          do r <- zfs_do (Zfs_clone zhp_ss (nroot +:+ offset zhp (String.length oroot)) props)
                         (fun h => zfs_clone h zhp_ss (nroot +:+ offset zhp (String.length oroot)) props);
          if decide (r <> 0) then
            run be_print_err "be_clone_fs_callback: failed to create clone dataset (%s): %s";
            do e <- query zfs_errno;
            if decide (e = EZFS_EXISTS) then leave (BE_ERR_EXISTS E) else leave 1
          else
            do _ <- call (zfs_iter_filesystems zhp (be_clone_fs_callback E depth));
            leave 0
      end) st = Some (rc, s') ->
    walk_frame s0 s' /\ walk_calls (cloned_ok s0) s s').
  { intros p st Hok Hp Hb1 Hb2 Hb3 Hz Hc. mstep.
    destruct (obe_snap_name (bt s)) as [snap|] eqn:Hsnap; mstep; [|done].
    assert (Hev : cloned_ok s0 (Zfs_clone (zhp +:+ "@" +:+ snap)
                                  (nroot +:+ offset zhp (String.length oroot)) p)).
    { exists oroot, nroot, snap, rel, p.
      split; [congruence|]. split; [congruence|]. split; [congruence|].
      rewrite Hoff, <- Hrel. split; [done | by eapply node_props_frame]. }
    assert (Hst : walk_frame s0 st).
    { eapply walk_frame_step; [exact Hs|congruence..|]. rewrite Hz. apply keeps_mountpoints_refl. }
    unfold zfs_open at 1.
    destruct (zfs_dataset_exists (g_zfs st) (zhp +:+ "@" +:+ snap) ZFS_TYPE_SNAPSHOT) eqn:Hex;
      mstep.
    2: { intros [= <- <-]. split; [walk_frame_tac|].
         apply walk_calls_refl. by autorewrite with be_state. }
    unfold zfs_open. rewrite Hex. mstep. rewrite Hp. mstep.
    case_decide as Hrc; mstep.
    - case_decide; intros [= <- <-]; (split; [walk_frame_tac|]);
        (exists [Zfs_clone (zhp +:+ "@" +:+ snap)
                  (nroot +:+ offset zhp (String.length oroot)) p]);
        autorewrite with be_state; rewrite Hc; by split; [|constructor].
    - match goal with |- context [zfs_iter_filesystems zhp _ ?st1] =>
        destruct (zfs_iter_filesystems zhp (be_clone_fs_callback E depth) st1)
          as [[rc1 s1]|] eqn:Hit; [|done];
        assert (Hst1 : walk_frame s0 st1) by walk_frame_tac;
        assert (Hc1 : walk_calls (cloned_ok s0) s st1)
      end.
      { exists [Zfs_clone (zhp +:+ "@" +:+ snap)
                  (nroot +:+ offset zhp (String.length oroot)) p].
        autorewrite with be_state. rewrite Hc. by split; [|constructor]. }
      intros [= <- <-].
      unfold zfs_iter_filesystems in Hit.
      eapply iter_until_walk in Hit as [Hf Hcs]; [| |exact Hst1].
      + split; [done | by eapply walk_calls_trans].
      + intros x sx rcx sx' Hin Hfx Hx. eapply IH; [exact Hfx | by eapply Hchild | exact Hx]. }
  destruct (nbe_zfs_props (bt s)) as [l|] eqn:Hprops.
  2: { (* no property list: every addition to it is refused *)
    destruct (decide (strcmp (offset zhp (String.length oroot)) "" = 0)); mstep;
      rewrite ?Hprops; unfold EINVAL; mstep.
    - intros [= <- <-]. split; [walk_frame_tac | by apply walk_calls_refl].
    - destruct (zfs_prop_get_mountpoint (g_zfs s) zhp) as [[mp src]|]; mstep.
      + case_decide; mstep; rewrite ?Hprops; unfold EINVAL, ENOENT; mstep;
          intros [= <- <-]; (split; [walk_frame_tac | by apply walk_calls_refl]).
      + intros [= <- <-]. split; [walk_frame_tac | by apply walk_calls_refl]. }
  destruct (decide (strcmp (offset zhp (String.length oroot)) "" = 0)) as [Hroot|Hroot]; mstep.
  - rewrite Hprops. mstep. intros Hrun.
    apply (Htail (<[ZFS_PROP_CANMOUNT:="noauto"]> (<[ZFS_PROP_MOUNTPOINT:=ZFS_MOUNTPOINT_LEGACY]> l))
             (with_bt (set_nbe_zfs_props (Some (<[ZFS_PROP_CANMOUNT:="noauto"]>
                         (<[ZFS_PROP_MOUNTPOINT:=ZFS_MOUNTPOINT_LEGACY]> l))))
                (with_bt (set_nbe_zfs_props (Some (<[ZFS_PROP_MOUNTPOINT:=ZFS_MOUNTPOINT_LEGACY]> l))) s)));
      try done. by apply node_props_root.
  - destruct (zfs_prop_get_mountpoint (g_zfs s) zhp) as [[mp src]|] eqn:Hmp; mstep.
    2: { intros [= <- <-]. split; [walk_frame_tac | by apply walk_calls_refl]. }
    case_decide as Hsrc; mstep; rewrite Hprops; mstep.
    + intros Hrun.
      apply (Htail (<[ZFS_PROP_CANMOUNT:="noauto"]> (<[ZFS_PROP_MOUNTPOINT:=mp]> l))
               (with_bt (set_nbe_zfs_props (Some (<[ZFS_PROP_CANMOUNT:="noauto"]>
                           (<[ZFS_PROP_MOUNTPOINT:=mp]> l))))
                  (with_bt (set_nbe_zfs_props (Some (<[ZFS_PROP_MOUNTPOINT:=mp]> l))) s)));
        try done. by eapply node_props_local.
    + destruct (l !! ZFS_PROP_MOUNTPOINT) eqn:Hl; unfold ENOENT; mstep; intros Hrun.
      * apply (Htail (<[ZFS_PROP_CANMOUNT:="noauto"]> (delete ZFS_PROP_MOUNTPOINT l))
                 (with_bt (set_nbe_zfs_props (Some (<[ZFS_PROP_CANMOUNT:="noauto"]>
                             (delete ZFS_PROP_MOUNTPOINT l))))
                    (with_bt (set_nbe_zfs_props (Some (delete ZFS_PROP_MOUNTPOINT l))) s)));
          try done. eapply node_props_inherited; [done | exact Hmp | done |].
        apply lookup_delete_eq.
      * apply (Htail (<[ZFS_PROP_CANMOUNT:="noauto"]> l)
                 (with_bt (set_nbe_zfs_props (Some (<[ZFS_PROP_CANMOUNT:="noauto"]> l)))
                    (with_bt (set_nbe_zfs_props (Some l)) s)));
          try done. by eapply node_props_inherited.
Qed.

End CloneWalk.

Section SendWalk.

Context (E : libbe).

Lemma zfs_send_receive_keeps (h : libzfs_handle) (zhp snap target : string) :
  keeps_mountpoints (zfs_ds h) (zfs_ds (zfs_send_receive h zhp snap target).2).
Proof.
  unfold zfs_send_receive.
  destruct (Zfs.snapshot_exists (zfs_ds h) (zhp +:+ "@" +:+ snap));
    [|apply keeps_mountpoints_refl].
  destruct (zfs_ds h !! target) as [d|] eqn:Hd; [|apply keeps_mountpoints_refl].
  intros k d' Hk. cbn. destruct (decide (k = target)) as [->|Hne].
  - rewrite lookup_insert_eq. eexists. split; [done|]. rewrite Hd in Hk. by injection Hk as <-.
  - rewrite lookup_insert_ne by done. by exists d'.
Qed.

Lemma be_send_fs_callback_walk (depth : nat) (s0 : state) (zhp : string)
    (s : state) (rc : Z) (s' : state) :
  walk_frame s0 s ->
  (forall oroot, obe_root_ds (bt s0) = Some oroot -> String.prefix oroot zhp = true) ->
  be_send_fs_callback depth zhp s = Some (rc, s') ->
  walk_frame s0 s' /\ walk_calls (sent_ok s0) s s'.
Proof.
  revert zhp s rc s'. induction depth as [|depth IH]; intros zhp s rc s' Hs Hpre; [done|].
  cbn [be_send_fs_callback]. mstep.
  pose proof Hs as (Hor & Hnr & Hsn & Hkeep).
  destruct (obe_root_ds (bt s)) as [oroot|] eqn:Horoot; mstep; [|done].
  assert (Hpz : String.prefix oroot zhp = true) by (apply Hpre; congruence).
  assert (Hlen := prefix_length _ _ Hpz).
  destruct (proj1 (prefix_app _ _) Hpz) as [rel Hrel].
  assert (Hoff : offset zhp (String.length oroot) = rel) by (rewrite Hrel; apply offset_app).
  assert (Hchild : forall x m, x ∈ Zfs.children m zhp ->
            forall o, obe_root_ds (bt s0) = Some o -> String.prefix o x = true).
  { intros x m [_ Hx]%children_spec o Ho. apply parent_prefix in Hx.
    eapply prefix_trans; [|exact Hx]. by apply Hpre. }
  case_decide as Hcmp; mstep;
    [|intros [= <- <-]; split; [done | by apply walk_calls_refl]].
  destruct (nbe_root_ds (bt s)) as [nroot|] eqn:Hnroot; mstep; [|done].
  assert (Htail : forall (p : nvlist) (st : state),
    node_props_ok (g_zfs s) oroot zhp p ->
    nbe_zfs_props (bt st) = Some p ->
    obe_root_ds (bt st) = obe_root_ds (bt s) ->
    nbe_root_ds (bt st) = nbe_root_ds (bt s) ->
    obe_snap_name (bt st) = obe_snap_name (bt s) ->
    g_zfs st = g_zfs s -> zfs_calls st = zfs_calls s ->
    body (
      do snap_name <- deref (obe_snap_name (bt s));
      let ss := zhp +:+ "@" +:+ snap_name in
      do zhp_ss <- zfs (fun h => zfs_open h ss ZFS_TYPE_SNAPSHOT);
      match zhp_ss with
      | None => bail "be_send_fs_callback: failed to get handle to snapshot (%s): %s"
      | Some zhp_ss =>
          do b <- get_bt;
          let props := nvl_props (nbe_zfs_props b) in
          do r <- zfs_do (Zfs_create (nroot +:+ offset zhp (String.length oroot)) props)
                         (fun h => zfs_create h (nroot +:+ offset zhp (String.length oroot)) props);
          if decide (r <> 0) then
            bail "be_send_fs_callback: failed to create new dataset '%s': %s"
          else
            do '(status, received) <-
              zfs_do (Zfs_receive (nroot +:+ offset zhp (String.length oroot)) snap_name)
                     (fun h => zfs_send_receive h zhp snap_name
                                 (nroot +:+ offset zhp (String.length oroot)));
            run when (negb (bool_decide (received = 0)))
                  (be_print_err "be_send_fs_callback: failed to recv dataset (%s)");
            if decide (status <> 0) then
              bail "be_send_fs_callback: failed to send dataset (%s)"
            else
              do r <- call (zfs_iter_filesystems zhp (be_send_fs_callback depth));
              if decide (r <> 0) then leave 1 else leave 0
      end) st = Some (rc, s') ->
    walk_frame s0 s' /\ walk_calls (sent_ok s0) s s').
  { intros p st Hok Hp Hb1 Hb2 Hb3 Hz Hc. mstep.
    destruct (obe_snap_name (bt s)) as [snap|] eqn:Hsnap; mstep; [|done].
    set (target := nroot +:+ offset zhp (String.length oroot)) in *.
    assert (Hev1 : sent_ok s0 (Zfs_create target p)).
    { exists oroot, nroot, snap, rel.
      split; [congruence|]. split; [congruence|]. split; [congruence|].
      left. exists p. unfold target. rewrite Hoff, <- Hrel.
      split; [done | by eapply node_props_frame]. }
    assert (Hev2 : sent_ok s0 (Zfs_receive target snap)).
    { exists oroot, nroot, snap, rel.
      split; [congruence|]. split; [congruence|]. split; [congruence|].
      right. unfold target. by rewrite Hoff. }
    assert (Hst : walk_frame s0 st).
    { eapply walk_frame_step; [exact Hs|congruence..|]. rewrite Hz. apply keeps_mountpoints_refl. }
    unfold zfs_open at 1.
    destruct (zfs_dataset_exists (g_zfs st) (zhp +:+ "@" +:+ snap) ZFS_TYPE_SNAPSHOT) eqn:Hex;
      mstep.
    2: { intros [= <- <-]. split; [walk_frame_tac|].
         apply walk_calls_refl. by autorewrite with be_state. }
    unfold zfs_open. rewrite Hex. mstep. rewrite Hp. mstep.
    case_decide as Hrc; mstep.
    - intros [= <- <-]. split; [walk_frame_tac|].
      exists [Zfs_create target p]. autorewrite with be_state. rewrite Hc.
      by split; [|constructor].
    - destruct (zfs_send_receive (zfs_create (g_zfs st) target p).2 zhp snap target)
        as [[status received] h2] eqn:Hsr. mstep.
      assert (Hk2 : keeps_mountpoints (zfs_ds (g_zfs st)) (zfs_ds h2)).
      { eapply keeps_mountpoints_trans; [apply zfs_create_keeps|].
        replace h2 with (zfs_send_receive (zfs_create (g_zfs st) target p).2 zhp snap target).2
          by by rewrite Hsr.
        apply zfs_send_receive_keeps. }
      assert (Hcalls : forall sx, zfs_calls sx =
                 ((zfs_calls st ++ [Zfs_create target p]) ++ [Zfs_receive target snap])%list ->
               walk_calls (sent_ok s0) s sx).
      { intros sx Hsx. exists [Zfs_create target p; Zfs_receive target snap].
        rewrite Hsx, Hc, <- app_assoc. split; [done|]. by repeat constructor. }
      assert (Hframe : forall sx, obe_root_ds (bt sx) = obe_root_ds (bt st) ->
                 nbe_root_ds (bt sx) = nbe_root_ds (bt st) ->
                 obe_snap_name (bt sx) = obe_snap_name (bt st) ->
                 g_zfs sx = h2 -> walk_frame s0 sx).
      { intros sx ? ? ? Hg. eapply walk_frame_step; [exact Hst|done..|]. by rewrite Hg. }
      destruct (bool_decide (received = 0)); mstep.
      + case_decide as Hstatus; mstep.
        * intros [= <- <-]. split; [by apply Hframe | by apply Hcalls].
        * match goal with |- context [zfs_iter_filesystems zhp _ ?st1] =>
            destruct (zfs_iter_filesystems zhp (be_send_fs_callback depth) st1)
              as [[rc1 s1]|] eqn:Hit; [|done];
            assert (Hst1 : walk_frame s0 st1) by (by apply Hframe);
            assert (Hc1 : walk_calls (sent_ok s0) s st1) by (by apply Hcalls)
          end.
          unfold zfs_iter_filesystems in Hit.
          eapply iter_until_walk in Hit as [Hf Hcs]; [| |exact Hst1].
          2: { intros x sx rcx sx' Hin Hfx Hx.
               eapply IH; [exact Hfx | by eapply Hchild | exact Hx]. }
          case_decide; mstep; intros [= <- <-]; (split; [done | by eapply walk_calls_trans]).
      + case_decide as Hstatus; mstep.
        * intros [= <- <-]. split; [by apply Hframe | by apply Hcalls].
        * match goal with |- context [zfs_iter_filesystems zhp _ ?st1] =>
            destruct (zfs_iter_filesystems zhp (be_send_fs_callback depth) st1)
              as [[rc1 s1]|] eqn:Hit; [|done];
            assert (Hst1 : walk_frame s0 st1) by (by apply Hframe);
            assert (Hc1 : walk_calls (sent_ok s0) s st1) by (by apply Hcalls)
          end.
          unfold zfs_iter_filesystems in Hit.
          eapply iter_until_walk in Hit as [Hf Hcs]; [| |exact Hst1].
          2: { intros x sx rcx sx' Hin Hfx Hx.
               eapply IH; [exact Hfx | by eapply Hchild | exact Hx]. }
          case_decide; mstep; intros [= <- <-]; (split; [done | by eapply walk_calls_trans]). }
  destruct (nbe_zfs_props (bt s)) as [l|] eqn:Hprops.
  2: { destruct (decide (strcmp (offset zhp (String.length oroot)) "" = 0)); mstep;
      rewrite ?Hprops; unfold EINVAL; mstep.
    - intros [= <- <-]. split; [walk_frame_tac | by apply walk_calls_refl].
    - destruct (zfs_prop_get_mountpoint (g_zfs s) zhp) as [[mp src]|]; mstep.
      + case_decide; mstep; rewrite ?Hprops; unfold EINVAL, ENOENT; mstep;
          intros [= <- <-]; (split; [walk_frame_tac | by apply walk_calls_refl]).
      + intros [= <- <-]. split; [walk_frame_tac | by apply walk_calls_refl]. }
  destruct (decide (strcmp (offset zhp (String.length oroot)) "" = 0)) as [Hroot|Hroot]; mstep.
  - rewrite Hprops. mstep. intros Hrun.
    apply (Htail (<[ZFS_PROP_CANMOUNT:="noauto"]> (<[ZFS_PROP_MOUNTPOINT:=ZFS_MOUNTPOINT_LEGACY]> l))
             (with_bt (set_nbe_zfs_props (Some (<[ZFS_PROP_CANMOUNT:="noauto"]>
                         (<[ZFS_PROP_MOUNTPOINT:=ZFS_MOUNTPOINT_LEGACY]> l))))
                (with_bt (set_nbe_zfs_props (Some (<[ZFS_PROP_MOUNTPOINT:=ZFS_MOUNTPOINT_LEGACY]> l))) s)));
      try done. by apply node_props_root.
  - destruct (zfs_prop_get_mountpoint (g_zfs s) zhp) as [[mp src]|] eqn:Hmp; mstep.
    2: { intros [= <- <-]. split; [walk_frame_tac | by apply walk_calls_refl]. }
    case_decide as Hsrc; mstep; rewrite Hprops; mstep.
    + intros Hrun.
      apply (Htail (<[ZFS_PROP_CANMOUNT:="noauto"]> (<[ZFS_PROP_MOUNTPOINT:=mp]> l))
               (with_bt (set_nbe_zfs_props (Some (<[ZFS_PROP_CANMOUNT:="noauto"]>
                           (<[ZFS_PROP_MOUNTPOINT:=mp]> l))))
                  (with_bt (set_nbe_zfs_props (Some (<[ZFS_PROP_MOUNTPOINT:=mp]> l))) s)));
        try done. by eapply node_props_local.
    + destruct (l !! ZFS_PROP_MOUNTPOINT) eqn:Hl; unfold ENOENT; mstep; intros Hrun.
      * apply (Htail (<[ZFS_PROP_CANMOUNT:="noauto"]> (delete ZFS_PROP_MOUNTPOINT l))
                 (with_bt (set_nbe_zfs_props (Some (<[ZFS_PROP_CANMOUNT:="noauto"]>
                             (delete ZFS_PROP_MOUNTPOINT l))))
                    (with_bt (set_nbe_zfs_props (Some (delete ZFS_PROP_MOUNTPOINT l))) s)));
          try done. eapply node_props_inherited; [done | exact Hmp | done |].
        apply lookup_delete_eq.
      * apply (Htail (<[ZFS_PROP_CANMOUNT:="noauto"]> l)
                 (with_bt (set_nbe_zfs_props (Some (<[ZFS_PROP_CANMOUNT:="noauto"]> l)))
                    (with_bt (set_nbe_zfs_props (Some l)) s)));
          try done. by eapply node_props_inherited.
Qed.

End SendWalk.

(** ** be_destroy: the teardown and the origin snapshot *)

Section Teardown.

(** Iteration with a callback whose runs are related by a preorder. *)
Lemma iter_until_rel (R : state -> state -> Prop)
    (cb : string -> state -> option (Z * state)) (l : list string) :
  (forall s, R s s) ->
  (forall s1 s2 s3, R s1 s2 -> R s2 s3 -> R s1 s3) ->
  (forall x s rc s', cb x s = Some (rc, s') -> R s s') ->
  forall s rc s', iter_until cb l s = Some (rc, s') -> R s s'.
Proof.
  intros Hrefl Htrans Hcb. induction l as [|x l IH]; intros s rc s'; cbn [iter_until].
  - by intros [= _ <-].
  - destruct (cb x s) as [[rc1 s1]|] eqn:Hx; [|done].
    apply Hcb in Hx. case_decide.
    + intros Hit. apply IH in Hit. by eapply Htrans.
    + by intros [= _ <-].
Qed.

(** The callback of be_destroy does not look at the transaction data. *)
Definition lift_bt (f : be_transaction_data -> be_transaction_data)
    (r : option (Z * state)) : option (Z * state) :=
  match r with
  | Some (rc, s') => Some (rc, with_bt f s')
  | None => None
  end.

Lemma iter_until_bt (f : be_transaction_data -> be_transaction_data)
    (cb : string -> state -> option (Z * state)) (l : list string) :
  (forall x s, cb x (with_bt f s) = lift_bt f (cb x s)) ->
  forall s, iter_until cb l (with_bt f s) = lift_bt f (iter_until cb l s).
Proof.
  intros Hcb. induction l as [|x l IH]; intros s; cbn [iter_until]; [done|].
  rewrite Hcb. destruct (cb x s) as [[rc1 s1]|]; cbn [lift_bt]; [|done].
  case_decide; [apply IH | done].
Qed.

Lemma be_destroy_callback_bt (f : be_transaction_data -> be_transaction_data)
    (depth : nat) (zhp : string) (s : state) :
  be_destroy_callback depth zhp (with_bt f s) = lift_bt f (be_destroy_callback depth zhp s).
Proof.
  revert zhp s. induction depth as [|depth IH]; intros zhp s; [done|].
  cbn [be_destroy_callback]. mstep. unfold zfs_iter_filesystems.
  autorewrite with be_state. rewrite iter_until_bt by done.
  destruct (iter_until (be_destroy_callback depth) _ s) as [[rc1 s1]|]; cbn [lift_bt]; [|done].
  destruct (decide (rc1 <> 0)); mstep; [done|].
  destruct (decide ((zfs_unmount (g_zfs s1) zhp).1 <> 0)); mstep; [done|].
  by destruct (decide ((zfs_destroy (zfs_unmount (g_zfs s1) zhp).2 zhp).1 <> 0)); mstep.
Qed.

(** The teardown keeps every dataset that has snapshots, with them. *)
Definition snaps_kept (s s' : state) : Prop :=
  forall k d, zfs_ds (g_zfs s) !! k = Some d -> ds_snaps d <> ∅ ->
    exists d', zfs_ds (g_zfs s') !! k = Some d' /\ ds_snaps d' = ds_snaps d.

Lemma snaps_kept_refl (s : state) : snaps_kept s s.
Proof. intros k d Hk _. by exists d. Qed.

Lemma snaps_kept_trans (s1 s2 s3 : state) :
  snaps_kept s1 s2 -> snaps_kept s2 s3 -> snaps_kept s1 s3.
Proof.
  intros H1 H2 k d Hk Hne. destruct (H1 _ _ Hk Hne) as (d' & Hk' & Hs).
  destruct (H2 k d' Hk') as (d'' & Hk'' & Hs'); [by rewrite Hs|].
  exists d''. split; [done | congruence].
Qed.

Lemma zfs_unmount_snaps (h : libzfs_handle) (zhp : string) (k : string) (d : dataset) :
  zfs_ds h !! k = Some d ->
  exists d', zfs_ds (zfs_unmount h zhp).2 !! k = Some d' /\ ds_snaps d' = ds_snaps d.
Proof.
  intros Hk. unfold zfs_unmount. destruct (zfs_ds h !! zhp) as [dz|] eqn:Hz; cbn;
    [|by exists d].
  destruct (decide (k = zhp)) as [->|Hne].
  - rewrite lookup_insert_eq. eexists. split; [done|]. rewrite Hz in Hk. by injection Hk as <-.
  - rewrite lookup_insert_ne by done. by exists d.
Qed.

Lemma zfs_destroy_snaps_kept (h : libzfs_handle) (zhp : string) (k : string) (d : dataset) :
  zfs_ds h !! k = Some d -> ds_snaps d <> ∅ ->
  zfs_ds (zfs_destroy h zhp).2 !! k = Some d.
Proof.
  intros Hk Hne. unfold zfs_destroy. destruct (zfs_ds h !! zhp) as [dz|] eqn:Hz; [|done].
  case_bool_decide as Hc; [|done]. cbn. destruct Hc as [_ Hc].
  rewrite lookup_delete_ne; [done|]. intros ->. congruence.
Qed.

Lemma be_destroy_callback_snaps (depth : nat) (zhp : string) (s : state) (rc : Z)
    (s' : state) :
  be_destroy_callback depth zhp s = Some (rc, s') -> snaps_kept s s'.
Proof.
  revert zhp s rc s'. induction depth as [|depth IH]; intros zhp s rc s'; [done|].
  cbn [be_destroy_callback]. mstep.
  destruct (zfs_iter_filesystems zhp (be_destroy_callback depth) s) as [[rc1 s1]|] eqn:Hit;
    [|done].
  assert (H1 : snaps_kept s s1).
  { unfold zfs_iter_filesystems in Hit. revert Hit.
    apply (iter_until_rel snaps_kept); [apply snaps_kept_refl | apply snaps_kept_trans|].
    intros x sx rcx sx'. apply IH. }
  destruct (decide (rc1 <> 0)); mstep; [by intros [= _ <-]|].
  assert (H2 : forall sx, zfs_ds (g_zfs sx) = zfs_ds (zfs_unmount (g_zfs s1) zhp).2 ->
                          snaps_kept s sx).
  { intros sx Hsx k d Hk Hne. destruct (H1 _ _ Hk Hne) as (d1 & Hk1 & Hs1).
    destruct (zfs_unmount_snaps (g_zfs s1) zhp k d1 Hk1) as (d2 & Hk2 & Hs2).
    exists d2. rewrite Hsx. split; [done | congruence]. }
  assert (H3 : forall sx, zfs_ds (g_zfs sx) =
                            zfs_ds (zfs_destroy (zfs_unmount (g_zfs s1) zhp).2 zhp).2 ->
                          snaps_kept s sx).
  { intros sx Hsx k d Hk Hne. destruct (H1 _ _ Hk Hne) as (d1 & Hk1 & Hs1).
    destruct (zfs_unmount_snaps (g_zfs s1) zhp k d1 Hk1) as (d2 & Hk2 & Hs2).
    exists d2. rewrite Hsx. split; [|congruence].
    apply zfs_destroy_snaps_kept; [done | congruence]. }
  destruct (decide ((zfs_unmount (g_zfs s1) zhp).1 <> 0)); mstep;
    [intros [= _ <-]; by apply H2|].
  destruct (decide ((zfs_destroy (zfs_unmount (g_zfs s1) zhp).2 zhp).1 <> 0)); mstep;
    intros [= _ <-]; by apply H3.
Qed.

Lemma snapshot_exists_kept (s s' : state) (snap : string) :
  snaps_kept s s' ->
  Zfs.snapshot_exists (zfs_ds (g_zfs s)) snap = true ->
  Zfs.snapshot_exists (zfs_ds (g_zfs s')) snap = true.
Proof.
  intros Hk. unfold Zfs.snapshot_exists.
  destruct (Zfs.snap_split snap) as [[ds sn]|]; [|done].
  destruct (zfs_ds (g_zfs s) !! ds) as [d|] eqn:Hd; [|done].
  intros Hin%bool_decide_eq_true.
  destruct (Hk _ _ Hd) as (d' & -> & Hs); [set_solver|].
  apply bool_decide_eq_true. by rewrite Hs.
Qed.

End Teardown.

Section DestroyOrigin.

Context (E : libbe).

Lemma be_get_snap_split_zfs (origin parent snap : string) :
  be_get_snap origin = (0, parent, Some snap) ->
  Zfs.snap_split origin = Some (parent, snap).
Proof.
  unfold be_get_snap, Zfs.snap_split.
  destruct (strrchr origin "@") as [cp|]; [|done].
  destruct (offset origin (S cp)); [done|]. by intros [= <- <-].
Qed.

Lemma snap_targets_root (m : gmap string dataset) (parent : string) (d : dataset) :
  m !! parent = Some d -> snap_targets m parent true !! parent = Some d.
Proof.
  intros Hp. apply map_lookup_filter_Some. split; [done|]. cbn. unfold Zfs.in_subtree.
  by rewrite (bool_decide_eq_true_2 (parent = parent)).
Qed.

Lemma zfs_destroy_snaps_gone (h : libzfs_handle) (origin parent snap : string) :
  Zfs.snap_split origin = Some (parent, snap) ->
  (zfs_destroy_snaps h parent snap).1 = 0 ->
  Zfs.snapshot_exists (zfs_ds (zfs_destroy_snaps h parent snap).2) origin = false.
Proof.
  intros Hsplit. unfold zfs_destroy_snaps.
  case_bool_decide as Hempty; [done|]. case_bool_decide as Hclones; [|done].
  intros _. cbn. unfold Zfs.snapshot_exists. rewrite Hsplit.
  rewrite lookup_union, lookup_fmap.
  destruct (filter _ (snap_targets (zfs_ds h) parent true) !! parent) as [d|] eqn:Hd; cbn.
  - destruct (zfs_ds h !! parent); cbn; apply bool_decide_eq_false_2; set_solver.
  - destruct (zfs_ds h !! parent) as [d|] eqn:Hp; cbn; [|done].
    apply bool_decide_eq_false_2. intros Hin.
    apply map_lookup_filter_None in Hd as [Hd|Hd].
    + by rewrite (snap_targets_root _ _ d) in Hd.
    + apply (Hd d); [by apply snap_targets_root | done].
Qed.

Lemma zfs_destroy_snaps_refused (h : libzfs_handle) (parent snap : string) :
  (zfs_destroy_snaps h parent snap).1 <> 0 ->
  zfs_ds (zfs_destroy_snaps h parent snap).2 = zfs_ds h.
Proof.
  unfold zfs_destroy_snaps. case_bool_decide; [done|]. by case_bool_decide.
Qed.

(** C3, as the code has it.  A destroy whose teardown of the hierarchy
    succeeds, for a BE whose root dataset had an origin snapshot
    [parent@snap], asks libzfs to destroy that snapshot (zfs_destroy_snaps
    on [parent], which takes the snapshots of that name below it with
    it) exactly when [snap] compares equal to the name of the BE and the
    origin has no clones left.
    - In every other case nothing is asked of libzfs: the name space
      stays as the teardown left it, the origin snapshot with it.
    - When the request is made and libzfs carries it out, the origin
      snapshot is gone.
    - When the request is made and libzfs refuses it, the name space
      stays as the teardown left it, the origin snapshot with it, and
      be_destroy returns 1.
    In the first two cases be_destroy returns 0 when the entry of the BE
    is removed from the GRUB menu and 1 when it is not. *)
Theorem be_destroy_origin_snapshot (be_attrs : be_attrs) (s s2 : state)
    (name p origin parent snap : string) :
  be_zfs_init E = true ->
  BE_ATTR_ORIG_BE_NAME be_attrs = Some name ->
  be_valid_be_name E name = true ->
  be_find_pool E (g_zfs s) name = Some p ->
  zfs_is_mounted (g_zfs s) (be_make_root_ds E p name) = None ->
  zfs_prop_get_origin (g_zfs s) (be_make_root_ds E p name) = Some origin ->
  be_get_snap origin = (0, parent, Some snap) ->
  Zfs.snapshot_exists (zfs_ds (g_zfs s)) origin = true ->
  be_destroy_callback walk_depth (be_make_root_ds E p name) s = Some (0, s2) ->
  let private :=
    strcmp snap name = 0 /\ Zfs.numclones (zfs_ds (g_zfs s2)) origin = O in
  let carried_out := (zfs_destroy_snaps (g_zfs s2) parent snap).1 = 0 in
  let grub_ok := be_remove_grub E name p = 0 in
  exists rc s',
    be_destroy E be_attrs s = Some (rc, s')
    /\ (private <-> zfs_calls s' = (zfs_calls s2 ++ [Zfs_destroy_snaps parent snap])%list)
    /\ (~ private ->
          zfs_ds (g_zfs s') = zfs_ds (g_zfs s2) /\ zfs_calls s' = zfs_calls s2
          /\ Zfs.snapshot_exists (zfs_ds (g_zfs s')) origin = true
          /\ (grub_ok -> rc = 0) /\ (~ grub_ok -> rc = 1))
    /\ (private -> carried_out ->
          Zfs.snapshot_exists (zfs_ds (g_zfs s')) origin = false
          /\ (grub_ok -> rc = 0) /\ (~ grub_ok -> rc = 1))
    /\ (private -> ~ carried_out ->
          zfs_ds (g_zfs s') = zfs_ds (g_zfs s2)
          /\ Zfs.snapshot_exists (zfs_ds (g_zfs s')) origin = true
          /\ rc = 1)
    /\ (Zfs.snapshot_exists (zfs_ds (g_zfs s')) origin = false <-> private /\ carried_out).
Proof.
  intros Hinit Hname Hvalid Hpool Hmnt Horigin Hget Hex Hdown private carried_out grub_ok.
  assert (Hex2 : Zfs.snapshot_exists (zfs_ds (g_zfs s2)) origin = true).
  { eapply snapshot_exists_kept; [|done]. by eapply be_destroy_callback_snaps. }
  assert (Hsplit := be_get_snap_split_zfs _ _ _ Hget).
  pose (Concl := fun (rc : Z) (s' : state) =>
    (private <-> zfs_calls s' = (zfs_calls s2 ++ [Zfs_destroy_snaps parent snap])%list)
    /\ (~ private ->
          zfs_ds (g_zfs s') = zfs_ds (g_zfs s2) /\ zfs_calls s' = zfs_calls s2
          /\ Zfs.snapshot_exists (zfs_ds (g_zfs s')) origin = true
          /\ (grub_ok -> rc = 0) /\ (~ grub_ok -> rc = 1))
    /\ (private -> carried_out ->
          Zfs.snapshot_exists (zfs_ds (g_zfs s')) origin = false
          /\ (grub_ok -> rc = 0) /\ (~ grub_ok -> rc = 1))
    /\ (private -> ~ carried_out ->
          zfs_ds (g_zfs s') = zfs_ds (g_zfs s2)
          /\ Zfs.snapshot_exists (zfs_ds (g_zfs s')) origin = true
          /\ rc = 1)
    /\ (Zfs.snapshot_exists (zfs_ds (g_zfs s')) origin = false <-> private /\ carried_out)).
  change (exists rc s', be_destroy E be_attrs s = Some (rc, s') /\ Concl rc s').
  assert (Hkeep : forall rc s', ~ private ->
    zfs_ds (g_zfs s') = zfs_ds (g_zfs s2) -> zfs_calls s' = zfs_calls s2 ->
    (grub_ok -> rc = 0) -> (~ grub_ok -> rc = 1) ->
    Concl rc s').
  { intros rc s' Hnp Hds Hcalls Hrc0 Hrc1.
    assert (Hstill : Zfs.snapshot_exists (zfs_ds (g_zfs s')) origin = true)
      by by rewrite Hds.
    split; [|split; [done|split; [done|split; [done|]]]].
    - split; [done|]. rewrite Hcalls. intros Hl. exfalso.
      apply (f_equal length) in Hl. rewrite length_app in Hl. cbn in Hl. lia.
    - rewrite Hstill. split; [done | tauto]. }
  assert (Hasked : forall rc s', private ->
    g_zfs s' = (zfs_destroy_snaps (g_zfs s2) parent snap).2 ->
    zfs_calls s' = (zfs_calls s2 ++ [Zfs_destroy_snaps parent snap])%list ->
    (carried_out -> (grub_ok -> rc = 0) /\ (~ grub_ok -> rc = 1)) ->
    (~ carried_out -> rc = 1) ->
    Concl rc s').
  { intros rc s' Hp Hz Hcalls Hrc0 Hrc1.
    assert (Hgone : carried_out -> Zfs.snapshot_exists (zfs_ds (g_zfs s')) origin = false).
    { intros Hok. rewrite Hz. by apply zfs_destroy_snaps_gone. }
    assert (Hstays : ~ carried_out -> zfs_ds (g_zfs s') = zfs_ds (g_zfs s2)).
    { intros Hno. rewrite Hz. by apply zfs_destroy_snaps_refused. }
    split; [done|]. split; [done|]. split; [by split; [apply Hgone | apply Hrc0]|].
    split.
    - intros _ Hno. split; [by apply Hstays|]. split; [|by apply Hrc1].
      by rewrite (Hstays Hno).
    - split; [|by intros [_ Hok]; apply Hgone].
      intros Hg. split; [done|].
      destruct (decide (carried_out)) as [Hok|Hno]; [done|].
      rewrite (Hstays Hno), Hex2 in Hg. done. }
  clearbody Concl.
  unfold be_destroy. mstep. rewrite Hinit, Hname. mstep. rewrite Hvalid. mstep.
  rewrite (zpool_iter_find_zpool E _ name) by done.
  mstep. rewrite Hpool. mstep.
  rewrite zfs_open_exists by by eapply be_find_pool_exists.
  mstep. rewrite Hmnt. mstep. rewrite Horigin. mstep. rewrite Hget. mstep.
  match goal with |- context [be_destroy_callback walk_depth ?z ?st] =>
    change (be_destroy_callback walk_depth z st)
      with (be_destroy_callback walk_depth z (with_bt (fun _ => bt st) s))
  end.
  rewrite be_destroy_callback_bt, Hdown. cbn [lift_bt]. mstep.
  unfold be_destroy_origin.
  destruct (decide (strcmp snap name <> 0)) as [Hcmp|Hcmp]; mstep.
  { destruct (decide (be_remove_grub E name p <> 0)); mstep; eexists _, _;
      (split; [done|]); apply Hkeep; autorewrite with be_state; try done;
      unfold private, grub_ok; first [tauto | lia]. }
  assert (Hopen : zfs_open (g_zfs s2) origin ZFS_TYPE_SNAPSHOT = (Some origin, g_zfs s2)).
  { unfold zfs_open. cbn [zfs_dataset_exists]. by rewrite Hex2. }
  assert (Hclones : zfs_prop_get_numclones (g_zfs s2) origin
                    = Some (Zfs.numclones (zfs_ds (g_zfs s2)) origin)).
  { unfold zfs_prop_get_numclones. by rewrite Hex2. }
  rewrite !Hopen. mstep. rewrite Hclones. mstep.
  destruct (decide (Zfs.numclones (zfs_ds (g_zfs s2)) origin <> O)) as [Hnum|Hnum]; mstep.
  { destruct (decide (be_remove_grub E name p <> 0)); mstep; eexists _, _;
      (split; [done|]); apply Hkeep; autorewrite with be_state; try done;
      unfold private, grub_ok; first [tauto | lia]. }
  assert (Hpriv : private) by (unfold private; split; lia).
  assert (Hparent : is_Some (zfs_ds (g_zfs s2) !! parent)).
  { unfold Zfs.snapshot_exists in Hex2. rewrite Hsplit in Hex2.
    by destruct (zfs_ds (g_zfs s2) !! parent). }
  rewrite zfs_open_exists by done. mstep.
  destruct (decide ((zfs_destroy_snaps (g_zfs s2) parent snap).1 <> 0)) as [Hrc|Hrc]; mstep;
    destruct (decide (be_remove_grub E name p <> 0)) as [Hgrub|Hgrub]; mstep; eexists _, _;
    (split; [done|]); apply Hasked; autorewrite with be_state; try done;
    unfold carried_out, grub_ok; lia.
Qed.

End DestroyOrigin.

(** ** Concrete runs

    A pool [rpool] with the BE [be0], mounted at [/], and its child
    [var]; a second, empty pool [tank]. *)

Definition demo_libbe : libbe :=
  Libbe "ROOT" 3 2 "org.opensolaris.libbe:policy" true (fun _ => true) "static"
    (fun n name => Some (name +:+ "-" +:+ String (ascii_of_nat (49 + n)) ""))
    (fun name => Some "snap1")
    (fun _ _ => 0) (fun _ _ _ => 0) (fun _ _ => 0).

Definition demo_pools (root_snaps : gset string) : libzfs_handle :=
  Libzfs ["rpool"; "tank"]
    (<["tank" := Dataset ∅ ("/tank", 2) None None ∅]>
    (<["rpool/ROOT/be0/var" :=
         Dataset {["mountpoint" := "/var"]} ("/var", ZPROP_SRC_LOCAL) None None ∅]>
    (<["rpool/ROOT/be0" :=
         Dataset {["mountpoint" := "legacy"]} ("legacy", ZPROP_SRC_LOCAL) (Some "/") None
                 root_snaps]>
    (<["rpool/ROOT" := Dataset ∅ ("legacy", ZPROP_SRC_LOCAL) None None ∅]>
    (<["rpool" := Dataset ∅ ("/rpool", 2) None None ∅]> ∅))))) EZFS_SUCCESS.

Definition no_attrs : be_attrs :=
  BeAttrs None None None None None None None None None None None.

(** The state a run ends in ([s] when it has none). *)
Definition state_after (r : option (Z * state)) (s : state) : state :=
  match r with Some (_, s') => s' | None => s end.

(** be0 has the snapshot s1, its child var has not: s1 was taken without
    -r, or var was created after it. *)
Definition demo_s1 : state := init_state (demo_pools {["s1"]}).
Definition copy_s1 (pool : option string) : be_attrs :=
  BeAttrs (Some "be0") (Some "s1") (Some "be1") pool None None None None None None None.

Definition demo_walk : state :=
  with_bt (fun _ => set_nbe_zfs_props (Some ∅)
                      (set_nbe_root_ds (Some "rpool/ROOT/be1")
                        (set_obe_root_ds (Some "rpool/ROOT/be0")
                          (set_obe_snap_name (Some "s1") bt0)))) demo_s1.

(** C1 at this input: the copy of be0 from s1 into its own pool returns
    0, and of be0 and be0/var only the root has a counterpart under
    be1.  The clone of var failed (it has no snapshot s1) inside the
    walk of the root, which does not look at the result of the walk
    over its children. *)
Theorem be_copy_drops_child :
  fst <$> be_copy demo_libbe (copy_s1 None) demo_s1 = Some 0
  /\ let h := g_zfs (state_after (be_copy demo_libbe (copy_s1 None) demo_s1) demo_s1) in
     Zfs.children (zfs_ds h) "rpool/ROOT/be0" = ["rpool/ROOT/be0/var"]
     /\ ds_origin <$> zfs_ds h !! "rpool/ROOT/be1" = Some (Some "rpool/ROOT/be0@s1")
     /\ Zfs.children (zfs_ds h) "rpool/ROOT/be1" = [].
Proof. by vm_compute. Qed.

(** C2 at this input: the clone walk fails on the child var with 1, and
    the walk of its parent be0, which reaches var, returns 0; the send
    walk over the same hierarchy returns 1, and so does the copy into
    another pool. *)
Theorem be_clone_fs_callback_child_failure :
  fst <$> be_clone_fs_callback demo_libbe walk_depth "rpool/ROOT/be0/var" demo_walk = Some 1
  /\ fst <$> be_clone_fs_callback demo_libbe walk_depth "rpool/ROOT/be0" demo_walk = Some 0
  /\ fst <$> be_send_fs_callback walk_depth "rpool/ROOT/be0" demo_walk = Some 1
  /\ fst <$> be_copy demo_libbe (copy_s1 (Some "tank")) demo_s1 = Some 1.
Proof. by vm_compute. Qed.

(** *** Witnesses *)

Definition destroy_be (name : string) : be_attrs :=
  BeAttrs (Some name) None None None None None None None None None None.

(** be0 is mounted at [/]: destroying it fails and changes nothing. *)
Lemma be_destroy_mounted_witness :
  exists s', be_destroy demo_libbe (destroy_be "be0") demo_s1 = Some (1, s')
             /\ g_zfs s' = g_zfs demo_s1 /\ zfs_calls s' = zfs_calls demo_s1.
Proof.
  apply (be_destroy_mounted demo_libbe (destroy_be "be0") demo_s1 "be0" "rpool" "/");
    by vm_compute.
Defined.

(** No new name, but a snapshot name. *)
Definition copy_auto_from_s1 : be_attrs :=
  BeAttrs (Some "be0") (Some "s1") None None None None None None None None None.

Lemma be_copy_auto_name_restricted_witness :
  exists s', be_copy demo_libbe copy_auto_from_s1 demo_s1 = Some (1, s')
             /\ g_zfs s' = g_zfs demo_s1 /\ zfs_calls s' = zfs_calls demo_s1.
Proof.
  apply (be_copy_auto_name_restricted demo_libbe copy_auto_from_s1 demo_s1);
    [reflexivity | right; discriminate].
Defined.

(** The init of be1 in rpool with the shared file system /export. *)
Definition demo_init : state :=
  state_after (be_init demo_libbe (init_be1 ["/export"]) demo_s1) demo_s1.

Lemma be_init_twice_witness :
  exists s2, be_init demo_libbe (init_be1 ["/export"]) demo_init = Some (1, s2)
    /\ g_zfs s2 = g_zfs demo_init
    /\ zfs_calls s2 = zfs_calls demo_init
    /\ be_errs s2 = (be_errs demo_init ++ ["be_init: BE (%s) already exists"])%list.
Proof.
  apply (be_init_twice demo_libbe (init_be1 ["/export"]) demo_s1 demo_init).
  by vm_compute.
Defined.

(** A pool without the BE container, where /export exists and /opt does
    not: the init creates the container first, then the root dataset
    and var, and of the shared file systems only /opt. *)
Definition demo_bare : state :=
  init_state
    (Libzfs ["rpool"]
       (<["rpool/export" := Dataset ∅ ("/export", ZPROP_SRC_LOCAL) None None ∅]>
       (<["rpool" := Dataset ∅ ("/rpool", 2) None None ∅]> ∅)) EZFS_SUCCESS).
Definition demo_bare_init : state :=
  state_after (be_init demo_libbe (init_be1 ["/export"; "/opt"]) demo_bare) demo_bare.

Lemma be_init_be1_scenario_witness :
  zfs_calls demo_bare_init =
    [Zfs_create "rpool/ROOT" container_props;
     Zfs_create "rpool/ROOT/be1" be_root_props;
     Zfs_create "rpool/ROOT/be1/var" be_var_props;
     Zfs_create "rpool/opt" {[ZFS_PROP_MOUNTPOINT := "/opt"]}]
  /\ (exists d, zfs_ds (g_zfs demo_bare_init) !! "rpool/ROOT" = Some d
                /\ ds_props d = container_props
                /\ ds_mountpoint d = (ZFS_MOUNTPOINT_LEGACY, ZPROP_SRC_LOCAL))
  /\ (exists d, zfs_ds (g_zfs demo_bare_init) !! "rpool/ROOT/be1" = Some d
                /\ ds_props d = be_root_props
                /\ ds_mountpoint d = (ZFS_MOUNTPOINT_LEGACY, ZPROP_SRC_LOCAL))
  /\ (exists d, zfs_ds (g_zfs demo_bare_init) !! "rpool/ROOT/be1/var" = Some d
                /\ ds_props d = be_var_props
                /\ ds_mountpoint d = ("/var", ZPROP_SRC_LOCAL)).
Proof.
  pose proof (be_init_be1_scenario demo_libbe ["/export"; "/opt"] demo_bare demo_bare_init)
    as H.
  lapply H; [clear H; intros H | vm_compute; reflexivity].
  destruct H as (_ & Hcont & Hroot & Hvar & _).
  split; [vm_compute; reflexivity|].
  split; [apply Hcont; vm_compute; reflexivity|].
  split; [exact Hroot | exact Hvar].
Defined.

(** be1 copied from be0: its origin rpool/ROOT/be0@be1 was taken for it
    and has no other clone, so destroying be1 destroys the snapshot. *)
Definition copy_be1 : be_attrs :=
  BeAttrs (Some "be0") None (Some "be1") None None None None None None None None.
Definition demo_be1 : state :=
  init_state (g_zfs (state_after (be_copy demo_libbe copy_be1 demo_s1) demo_s1)).
Definition demo_be1_down : state :=
  state_after (be_destroy_callback walk_depth "rpool/ROOT/be1" demo_be1) demo_be1.

Lemma be_destroy_origin_snapshot_witness :
  exists rc s', be_destroy demo_libbe (destroy_be "be1") demo_be1 = Some (rc, s')
    /\ rc = 0
    /\ zfs_calls s' = (zfs_calls demo_be1_down ++ [Zfs_destroy_snaps "rpool/ROOT/be0" "be1"])%list
    /\ Zfs.snapshot_exists (zfs_ds (g_zfs s')) "rpool/ROOT/be0@be1" = false.
Proof.
  pose proof (be_destroy_origin_snapshot demo_libbe (destroy_be "be1") demo_be1 demo_be1_down
                "be1" "rpool" "rpool/ROOT/be0@be1" "rpool/ROOT/be0" "be1") as H.
  do 9 (lapply H; [clear H; intros H | vm_compute; reflexivity]).
  cbv zeta in H. destruct H as (rc & s' & Hrun & Hcalls & _ & Hgone & _).
  assert (Hprivate : strcmp "be1" "be1" = 0
                     /\ Zfs.numclones (zfs_ds (g_zfs demo_be1_down)) "rpool/ROOT/be0@be1" = O).
  { vm_compute. split; reflexivity. }
  lapply (Hgone Hprivate); [clear Hgone; intros (Hgone & Hrc & _) | vm_compute; reflexivity].
  exists rc, s'. split; [exact Hrun|]. split; [apply Hrc; reflexivity|].
  split; [apply Hcalls; exact Hprivate | exact Hgone].
Defined.

(** be1 as above, and a clone rpool/keep of the snapshot be1 of the
    child var of be0: the origin rpool/ROOT/be0@be1 is private to be1,
    its name is the name of the BE and it has no clone left once be1 is
    torn down, but libzfs cannot destroy the snapshots be1 below be0
    while var@be1 has a clone. *)
Definition demo_be1_kept : state :=
  init_state
    (Zfs.set_ds (g_zfs demo_be1)
       (<["rpool/keep" :=
            Dataset ∅ ("/rpool/keep", 2) None (Some "rpool/ROOT/be0/var@be1") ∅]>
          (zfs_ds (g_zfs demo_be1)))).

(** be1 as above, and a second clone rpool/ROOT/be2 of its origin; the
    GRUB menu cannot be written. *)
Definition demo_be1_shared : state :=
  init_state
    (Zfs.set_ds (g_zfs demo_be1)
       (<["rpool/ROOT/be2" :=
            Dataset ∅ ("legacy", ZPROP_SRC_LOCAL) None (Some "rpool/ROOT/be0@be1") ∅]>
          (zfs_ds (g_zfs demo_be1)))).
Definition demo_libbe_no_grub : libbe :=
  Libbe "ROOT" 3 2 "org.opensolaris.libbe:policy" true (fun _ => true) "static"
    (fun n name => Some (name +:+ "-" +:+ String (ascii_of_nat (49 + n)) ""))
    (fun name => Some "snap1")
    (fun _ _ => 0) (fun _ _ _ => 0) (fun _ _ => 1).

(** C3 as the claim states it fails twice.  With rpool/keep the
    teardown of be1 succeeds, the snapshot name of the origin is the
    name of the BE and the origin has no clone left, yet the origin
    snapshot is still there after be_destroy, which returns 1.  With
    rpool/ROOT/be2 the origin is left untouched because it has a clone,
    and be_destroy returns 1 all the same, the GRUB entry not being
    removed. *)
Lemma be_destroy_origin_refused :
  (fst <$> be_destroy_callback walk_depth "rpool/ROOT/be1" demo_be1_kept = Some 0
   /\ zfs_prop_get_origin (g_zfs demo_be1_kept) "rpool/ROOT/be1" = Some "rpool/ROOT/be0@be1"
   /\ be_get_snap "rpool/ROOT/be0@be1" = (0, "rpool/ROOT/be0", Some "be1")
   /\ strcmp "be1" "be1" = 0
   /\ Zfs.numclones
        (zfs_ds (g_zfs (state_after (be_destroy_callback walk_depth "rpool/ROOT/be1"
                                       demo_be1_kept) demo_be1_kept)))
        "rpool/ROOT/be0@be1" = O
   /\ fst <$> be_destroy demo_libbe (destroy_be "be1") demo_be1_kept = Some 1
   /\ Zfs.snapshot_exists
        (zfs_ds (g_zfs (state_after (be_destroy demo_libbe (destroy_be "be1") demo_be1_kept)
                          demo_be1_kept)))
        "rpool/ROOT/be0@be1" = true)
  /\ (fst <$> be_destroy_callback walk_depth "rpool/ROOT/be1" demo_be1_shared = Some 0
      /\ zfs_prop_get_origin (g_zfs demo_be1_shared) "rpool/ROOT/be1"
         = Some "rpool/ROOT/be0@be1"
      /\ Zfs.numclones
           (zfs_ds (g_zfs (state_after (be_destroy_callback walk_depth "rpool/ROOT/be1"
                                          demo_be1_shared) demo_be1_shared)))
           "rpool/ROOT/be0@be1" = 1%nat
      /\ fst <$> be_destroy demo_libbe_no_grub (destroy_be "be1") demo_be1_shared = Some 1
      /\ Zfs.snapshot_exists
           (zfs_ds (g_zfs (state_after (be_destroy demo_libbe_no_grub (destroy_be "be1")
                                          demo_be1_shared) demo_be1_shared)))
           "rpool/ROOT/be0@be1" = true).
Proof. vm_compute. repeat split; reflexivity. Qed.

(** ** The clone walk returns

    Dataset names are shorter than [ZFS_MAXNAMELEN], and a child has a
    longer name than its parent: a walk of depth [walk_depth] reaches
    every node below the dataset it starts at. *)

Definition names_bounded (m : gmap string dataset) : Prop :=
  forall k, is_Some (m !! k) -> (String.length k < ZFS_MAXNAMELEN)%nat.

(** What an attempt to clone keeps of the state [s0]: the transaction
    data but for the property list, which stays allocated; the datasets
    there were; the pools; the count of generated names and the
    attributes handed back. *)
Definition bt_frame (b b' : be_transaction_data) : Prop :=
  set_nbe_zfs_props None b' = set_nbe_zfs_props None b.

Definition clone_frame (s0 s : state) : Prop :=
  bt_frame (bt s0) (bt s)
  /\ is_Some (nbe_zfs_props (bt s))
  /\ names_bounded (zfs_ds (g_zfs s))
  /\ (forall k, is_Some (zfs_ds (g_zfs s0) !! k) -> is_Some (zfs_ds (g_zfs s) !! k))
  /\ zpools (g_zfs s) = zpools (g_zfs s0)
  /\ be_auto_names s = be_auto_names s0
  /\ be_attrs_added s = be_attrs_added s0.

Section CloneRuns.

Context (E : libbe).

Lemma bt_frame_refl (b : be_transaction_data) : bt_frame b b.
Proof. done. Qed.

Lemma bt_frame_props (b b' : be_transaction_data) (l : option nvlist) :
  bt_frame b b' -> bt_frame b (set_nbe_zfs_props l b').
Proof. unfold bt_frame. by intros <-. Qed.

Lemma bt_frame_fields (b b' : be_transaction_data) :
  bt_frame b b' ->
  obe_name b' = obe_name b /\ obe_root_ds b' = obe_root_ds b
  /\ obe_zpool b' = obe_zpool b /\ obe_snap_name b' = obe_snap_name b
  /\ nbe_name b' = nbe_name b /\ nbe_root_ds b' = nbe_root_ds b
  /\ nbe_zpool b' = nbe_zpool b /\ nbe_desc b' = nbe_desc b
  /\ policy b' = policy b.
Proof.
  unfold bt_frame. intros H.
  repeat split;
    [ apply (f_equal obe_name) in H | apply (f_equal obe_root_ds) in H
    | apply (f_equal obe_zpool) in H | apply (f_equal obe_snap_name) in H
    | apply (f_equal nbe_name) in H | apply (f_equal nbe_root_ds) in H
    | apply (f_equal nbe_zpool) in H | apply (f_equal nbe_desc) in H
    | apply (f_equal policy) in H ]; exact H.
Qed.

Lemma clone_frame_refl (s : state) :
  is_Some (nbe_zfs_props (bt s)) -> names_bounded (zfs_ds (g_zfs s)) -> clone_frame s s.
Proof. by repeat split. Qed.

Lemma create_bounded (h : libzfs_handle) (name : string) (props : nvlist)
    (origin : option string) :
  names_bounded (zfs_ds h) -> names_bounded (zfs_ds (Zfs.create h name props origin).2).
Proof.
  intros Hb. unfold Zfs.create, Zfs.too_long. case_bool_decide as Hlen; [done|].
  destruct (zfs_ds h !! name); [done|].
  destruct (Zfs.parent name) as [p|]; [|done].
  destruct (zfs_ds h !! p); [|done]. cbn.
  intros k Hk. destruct (decide (k = name)) as [->|Hne]; [lia|].
  rewrite lookup_insert_ne in Hk by done. by apply Hb.
Qed.

Lemma create_keeps (h : libzfs_handle) (name : string) (props : nvlist)
    (origin : option string) (k : string) :
  is_Some (zfs_ds h !! k) -> is_Some (zfs_ds (Zfs.create h name props origin).2 !! k).
Proof.
  intros [d Hd]. exists d. by apply (create_grows h name props origin).
Qed.

Lemma create_zpools (h : libzfs_handle) (name : string) (props : nvlist)
    (origin : option string) :
  zpools (Zfs.create h name props origin).2 = zpools h.
Proof. by apply (create_grows h name props origin). Qed.

(** Iteration with a callback that returns on the members of the list. *)
Lemma iter_until_runs (I : state -> Prop)
    (cb : string -> state -> option (Z * state)) (l : list string) (s : state) :
  I s ->
  (forall x s, x ∈ l -> I s -> exists rc s', cb x s = Some (rc, s') /\ I s') ->
  exists rc s', iter_until cb l s = Some (rc, s') /\ I s'.
Proof.
  revert s. induction l as [|x l IH]; intros s Hs Hcb.
  - by exists 0, s.
  - cbn [iter_until]. destruct (Hcb x s) as (rc & s' & -> & Hs'); [left | done |].
    case_decide; [|by exists rc, s'].
    apply IH; [done|]. intros y sy Hy. apply Hcb. by right.
Qed.

Lemma bt_frame_trans (b1 b2 b3 : be_transaction_data) :
  bt_frame b1 b2 -> bt_frame b2 b3 -> bt_frame b1 b3.
Proof. unfold bt_frame. congruence. Qed.

Lemma clone_frame_step (s0 s s' : state) :
  clone_frame s0 s ->
  bt_frame (bt s) (bt s') ->
  is_Some (nbe_zfs_props (bt s')) ->
  names_bounded (zfs_ds (g_zfs s')) ->
  (forall k, is_Some (zfs_ds (g_zfs s) !! k) -> is_Some (zfs_ds (g_zfs s') !! k)) ->
  zpools (g_zfs s') = zpools (g_zfs s) ->
  be_auto_names s' = be_auto_names s ->
  be_attrs_added s' = be_attrs_added s ->
  clone_frame s0 s'.
Proof.
  intros (Hb & _ & _ & Hk & Hz & Hn & Ha) Hb' Hp' Hbd' Hk' Hz' Hn' Ha'.
  split; [by eapply bt_frame_trans|]. repeat split; try done; try congruence. auto.
Qed.

Lemma zfs_open_zpools (h : libzfs_handle) (name : string) (t : zfs_type_t) :
  zpools (zfs_open h name t).2 = zpools h.
Proof. unfold zfs_open. by destruct (zfs_dataset_exists h name t). Qed.

End CloneRuns.

(** The frame after statements that set the property list, print, open
    a snapshot and clone. *)
Ltac clone_frame_tac H :=
  let H' := fresh in
  pose proof H as H'; destruct H' as (? & ? & ? & ? & ? & ? & ?);
  eapply clone_frame_step;
  [ exact H
  | autorewrite with be_state; repeat apply bt_frame_props; apply bt_frame_refl
  | autorewrite with be_state; cbn [nbe_zfs_props set_nbe_zfs_props]; done
  | autorewrite with be_state; unfold zfs_clone;
    rewrite ?zfs_open_ds; try apply create_bounded; rewrite ?zfs_open_ds; done
  | autorewrite with be_state; unfold zfs_clone; intros ? ?;
    rewrite ?zfs_open_ds; try apply create_keeps; rewrite ?zfs_open_ds; done
  | autorewrite with be_state; unfold zfs_clone;
    rewrite ?zfs_open_zpools, ?create_zpools, ?zfs_open_zpools; done
  | done
  | done ].

Section CloneTotal.

Context (E : libbe).

Lemma clone_frame_trans (s1 s2 s3 : state) :
  clone_frame s1 s2 -> clone_frame s2 s3 -> clone_frame s1 s3.
Proof.
  intros H1 (Hb & Hp & Hbd & Hk & Hz & Hn & Ha).
  eapply clone_frame_step; [exact H1|done..].
Qed.

Lemma be_clone_fs_callback_runs (oroot nroot snap : string) (depth : nat) (s0 : state)
    (zhp : string) (s : state) :
  obe_root_ds (bt s0) = Some oroot -> nbe_root_ds (bt s0) = Some nroot ->
  obe_snap_name (bt s0) = Some snap ->
  clone_frame s0 s ->
  is_Some (zfs_ds (g_zfs s) !! zhp) ->
  (String.length oroot <= String.length zhp)%nat ->
  (ZFS_MAXNAMELEN <= depth + String.length zhp)%nat ->
  exists rc s', be_clone_fs_callback E depth zhp s = Some (rc, s') /\ clone_frame s0 s'.
Proof.
  revert s0 zhp s. induction depth as [|depth IH];
    intros s0 zhp s Horoot Hnroot Hsnap Hs Hzhp Hin Hlen.
  { destruct Hs as (_ & _ & Hb & _). apply Hb in Hzhp. lia. }
  pose proof Hs as (Hbt & [l Hprops] & Hbd & Hkeep & Hzp & Hn & Ha).
  apply bt_frame_fields in Hbt as (_ & Hf1 & _ & Hf2 & _ & Hf3 & _).
  rewrite Horoot in Hf1. rewrite Hsnap in Hf2. rewrite Hnroot in Hf3.
  cbn [be_clone_fs_callback]. mstep. rewrite Hf1. mstep.
  case_decide as Hcmp; mstep; [|by eexists _, _].
  rewrite Hf3. mstep.
  (* from the snapshot on *)
  assert (Htail : forall st : state,
    clone_frame s0 st -> g_zfs st = g_zfs s ->
    exists rc s',
    body (
      do snap_name <- deref (obe_snap_name (bt s));
      let ss := zhp +:+ "@" +:+ snap_name in
      do zhp_ss <- zfs (fun h => zfs_open h ss ZFS_TYPE_SNAPSHOT);
      match zhp_ss with
      | None => bail "be_clone_fs_callback: failed to get handle to snapshot (%s): %s"
      | Some zhp_ss =>
          do b <- get_bt;
          let props := nvl_props (nbe_zfs_props b) in
          do r <- zfs_do (Zfs_clone zhp_ss (nroot +:+ offset zhp (String.length oroot)) props)
                         (fun h => zfs_clone h zhp_ss (nroot +:+ offset zhp (String.length oroot)) props);
          if decide (r <> 0) then
            run be_print_err "be_clone_fs_callback: failed to create clone dataset (%s): %s";
            do e <- query zfs_errno;
            if decide (e = EZFS_EXISTS) then leave (BE_ERR_EXISTS E) else leave 1
          else
            do _ <- call (zfs_iter_filesystems zhp (be_clone_fs_callback E depth));
            leave 0
      end) st = Some (rc, s') /\ clone_frame s0 s').
  { intros st Hst Hz. mstep. rewrite Hf2. mstep.
    unfold zfs_open at 1.
    destruct (zfs_dataset_exists (g_zfs st) (zhp +:+ "@" +:+ snap) ZFS_TYPE_SNAPSHOT) eqn:Hex;
      mstep; [|eexists _, _; split; [done | clone_frame_tac Hst]].
    unfold zfs_open. rewrite Hex. mstep.
    case_decide as Hrc; mstep.
    - case_decide; eexists _, _; (split; [done | clone_frame_tac Hst]).
    - match goal with |- context [zfs_iter_filesystems zhp _ ?st1] =>
        assert (Hst1 : clone_frame s0 st1) by clone_frame_tac Hst;
        assert (Hz1 : is_Some (zfs_ds (g_zfs st1) !! zhp));
        [|destruct (iter_until_runs (clone_frame st1) (be_clone_fs_callback E depth)
                     (Zfs.children (zfs_ds (g_zfs st1)) zhp) st1)
            as (rc1 & s1 & Hit & Hs1)]
      end.
      + autorewrite with be_state. unfold zfs_clone. apply create_keeps.
        by rewrite Hz.
      + destruct Hst1 as (_ & ? & ? & _). by apply clone_frame_refl.
      + intros x sx Hx Hsx. apply children_spec in Hx as [Hx Hpx].
        destruct Hst1 as (Hb1 & _).
        apply bt_frame_fields in Hb1 as (_ & Hg1 & _ & Hg2 & _ & Hg3 & _).
        apply parent_shorter in Hpx.
        apply IH; [congruence..|done| | |]; [|lia..].
        destruct Hsx as (_ & _ & _ & Hk & _). by apply Hk.
      + unfold zfs_iter_filesystems. rewrite Hit. eexists _, _. split; [done|].
        by eapply clone_frame_trans. }
  destruct (decide (strcmp (offset zhp (String.length oroot)) "" = 0)) as [Hroot|Hroot]; mstep.
  - rewrite Hprops. mstep.
    match goal with |- context [with_bt ?f ?x] =>
      apply (Htail (with_bt f x)); [clone_frame_tac Hs | done] end.
  - destruct (zfs_prop_get_mountpoint (g_zfs s) zhp) as [[mp src]|] eqn:Hmp; mstep;
      [|eexists _, _; split; [done | clone_frame_tac Hs]].
    case_decide as Hsrc; mstep; rewrite Hprops; mstep.
    + match goal with |- context [with_bt ?f ?x] =>
        apply (Htail (with_bt f x)); [clone_frame_tac Hs | done] end.
    + destruct (l !! ZFS_PROP_MOUNTPOINT) eqn:Hl; unfold ENOENT; mstep;
        match goal with |- context [with_bt ?f ?x] =>
          apply (Htail (with_bt f x)); [clone_frame_tac Hs | done] end.
Qed.







End CloneTotal.

(** ** be_copy with an auto named BE: the attempts *)

Section CounterFacts.

Context (f : be_transaction_data -> be_transaction_data) (h : libzfs_handle)
  (c : zfs_call) (msg name val : string) (s : state).

Lemma be_auto_names_with_bt : be_auto_names (with_bt f s) = be_auto_names s.
Proof. done. Qed.
Lemma be_auto_names_with_zfs : be_auto_names (with_zfs h s) = be_auto_names s.
Proof. done. Qed.
Lemma be_auto_names_with_call : be_auto_names (with_call c s) = be_auto_names s.
Proof. done. Qed.
Lemma be_auto_names_with_err : be_auto_names (with_err msg s) = be_auto_names s.
Proof. done. Qed.
Lemma be_auto_names_with_attr : be_auto_names (with_attr name val s) = be_auto_names s.
Proof. done. Qed.
Lemma be_auto_names_with_auto_name : be_auto_names (with_auto_name s) = S (be_auto_names s).
Proof. done. Qed.
Lemma be_attrs_added_with_bt : be_attrs_added (with_bt f s) = be_attrs_added s.
Proof. done. Qed.
Lemma be_attrs_added_with_zfs : be_attrs_added (with_zfs h s) = be_attrs_added s.
Proof. done. Qed.
Lemma be_attrs_added_with_call : be_attrs_added (with_call c s) = be_attrs_added s.
Proof. done. Qed.
Lemma be_attrs_added_with_err : be_attrs_added (with_err msg s) = be_attrs_added s.
Proof. done. Qed.
Lemma be_attrs_added_with_attr :
  be_attrs_added (with_attr name val s) = (be_attrs_added s ++ [(name, val)])%list.
Proof. done. Qed.
Lemma be_attrs_added_with_auto_name : be_attrs_added (with_auto_name s) = be_attrs_added s.
Proof. done. Qed.

End CounterFacts.

#[global] Hint Rewrite be_auto_names_with_bt be_auto_names_with_zfs be_auto_names_with_call
  be_auto_names_with_err be_auto_names_with_attr be_auto_names_with_auto_name
  be_attrs_added_with_bt be_attrs_added_with_zfs be_attrs_added_with_call
  be_attrs_added_with_err be_attrs_added_with_attr be_attrs_added_with_auto_name
  : be_state.

Section AutoName.

Context (E : libbe).




Section Attempts.

Variables (oname oroot p snap : string) (desc : option string) (pol : string).











End Attempts.

End AutoName.

Section AutoNameRetry.

Context (E : libbe).








End AutoNameRetry.

(** *** The retries on a concrete pool

    be0-1 and be0-2 exist; the generator of [demo_libbe] gives be0-1,
    be0-2, be0-3, and BE_AUTO_NAME_MAX_TRY is 3. *)

Lemma names_bounded_check (m : gmap string dataset) :
  bool_decide (map_Forall (fun k _ => (String.length k < ZFS_MAXNAMELEN)%nat) m) = true ->
  names_bounded m.
Proof.
  intros H k [d Hk]. apply bool_decide_eq_true in H. by apply (H k d).
Qed.

Definition demo_taken (names : list string) : state :=
  init_state
    (Zfs.set_ds (demo_pools ∅)
       (foldr (fun n m =>
                 <["rpool/ROOT/" +:+ n :=
                     Dataset {["mountpoint" := "legacy"]} ("legacy", ZPROP_SRC_LOCAL)
                             None None ∅]> m)
              (zfs_ds (demo_pools ∅)) names)).



(** With be0-3 taken as well the copy gives up after three names. *)
Example be_copy_auto_name_exhausted :
  (fun r => (r.1, be_auto_names r.2, nbe_name (bt r.2)))
    <$> be_copy demo_libbe no_attrs (demo_taken ["be0-1"; "be0-2"; "be0-3"])
  = Some (1, 3%nat, None).
Proof. vm_compute. reflexivity. Qed.

(** ** The property policy of the two replicators *)

Section SendRuns.

Lemma zfs_send_receive_ds (h : libzfs_handle) (zhp snap target : string) :
  names_bounded (zfs_ds h) ->
  names_bounded (zfs_ds (zfs_send_receive h zhp snap target).2)
  /\ (forall k, is_Some (zfs_ds h !! k) ->
        is_Some (zfs_ds (zfs_send_receive h zhp snap target).2 !! k))
  /\ zpools (zfs_send_receive h zhp snap target).2 = zpools h.
Proof.
  intros Hb. unfold zfs_send_receive.
  destruct (Zfs.snapshot_exists (zfs_ds h) (zhp +:+ "@" +:+ snap)); [|done].
  destruct (zfs_ds h !! target) as [d|] eqn:Hd; [|done]. cbn.
  split; [|split; [|done]].
  - intros k Hk. destruct (decide (k = target)) as [->|Hne]; [by apply Hb|].
    rewrite lookup_insert_ne in Hk by done. by apply Hb.
  - intros k Hk. destruct (decide (k = target)) as [->|Hne].
    + rewrite lookup_insert_eq. by eexists.
    + by rewrite lookup_insert_ne.
Qed.

(** The send walk returns: as the clone walk does, level by level down
    names that grow. *)
Lemma be_send_fs_callback_runs (oroot nroot snap : string) (depth : nat) (s0 : state)
    (zhp : string) (s : state) :
  obe_root_ds (bt s0) = Some oroot -> nbe_root_ds (bt s0) = Some nroot ->
  obe_snap_name (bt s0) = Some snap ->
  clone_frame s0 s ->
  is_Some (zfs_ds (g_zfs s) !! zhp) ->
  (String.length oroot <= String.length zhp)%nat ->
  (ZFS_MAXNAMELEN <= depth + String.length zhp)%nat ->
  exists rc s', be_send_fs_callback depth zhp s = Some (rc, s') /\ clone_frame s0 s'.
Proof.
  revert s0 zhp s. induction depth as [|depth IH];
    intros s0 zhp s Horoot Hnroot Hsnap Hs Hzhp Hin Hlen.
  { destruct Hs as (_ & _ & Hb & _). apply Hb in Hzhp. lia. }
  pose proof Hs as (Hbt & [l Hprops] & Hbd & Hkeep & Hzp & Hn & Ha).
  apply bt_frame_fields in Hbt as (_ & Hf1 & _ & Hf2 & _ & Hf3 & _).
  rewrite Horoot in Hf1. rewrite Hsnap in Hf2. rewrite Hnroot in Hf3.
  cbn [be_send_fs_callback]. mstep. rewrite Hf1. mstep.
  case_decide as Hcmp; mstep; [|by eexists _, _].
  rewrite Hf3. mstep.
  set (target := nroot +:+ offset zhp (String.length oroot)).
  assert (Htail : forall st : state,
    clone_frame s0 st -> g_zfs st = g_zfs s ->
    exists rc s',
    body (
      do snap_name <- deref (obe_snap_name (bt s));
      let ss := zhp +:+ "@" +:+ snap_name in
      do zhp_ss <- zfs (fun h => zfs_open h ss ZFS_TYPE_SNAPSHOT);
      match zhp_ss with
      | None => bail "be_send_fs_callback: failed to get handle to snapshot (%s): %s"
      | Some zhp_ss =>
          do b <- get_bt;
          let props := nvl_props (nbe_zfs_props b) in
          do r <- zfs_do (Zfs_create target props) (fun h => zfs_create h target props);
          if decide (r <> 0) then
            bail "be_send_fs_callback: failed to create new dataset '%s': %s"
          else
            do '(status, received) <-
              zfs_do (Zfs_receive target snap_name)
                     (fun h => zfs_send_receive h zhp snap_name target);
            run when (negb (bool_decide (received = 0)))
                  (be_print_err "be_send_fs_callback: failed to recv dataset (%s)");
            if decide (status <> 0) then
              bail "be_send_fs_callback: failed to send dataset (%s)"
            else
              do r <- call (zfs_iter_filesystems zhp (be_send_fs_callback depth));
              if decide (r <> 0) then leave 1 else leave 0
      end) st = Some (rc, s') /\ clone_frame s0 s').
  { intros st Hst Hz. mstep. rewrite Hf2. mstep.
    unfold zfs_open at 1.
    destruct (zfs_dataset_exists (g_zfs st) (zhp +:+ "@" +:+ snap) ZFS_TYPE_SNAPSHOT) eqn:Hex;
      mstep; [|eexists _, _; split; [done | clone_frame_tac Hst]].
    unfold zfs_open. rewrite Hex. mstep.
    pose proof Hst as (_ & [p Hp] & Hbst & _).
    case_decide as Hrc; mstep.
    { eexists _, _. split; [done|].
      eapply clone_frame_step; [exact Hst|..]; autorewrite with be_state; unfold zfs_create;
        first [ apply bt_frame_refl | by eexists | by apply create_bounded
              | by (intros ? ?; apply create_keeps) | apply create_zpools | done ]. }
    set (h1 := (zfs_create (g_zfs st) target (nvl_props (nbe_zfs_props (bt st)))).2).
    destruct (zfs_send_receive_ds h1 zhp snap target) as (Hb2 & Hk2 & Hz2);
      [by apply create_bounded|].
    assert (Hframe : forall sx, bt sx = bt st ->
              g_zfs sx = (zfs_send_receive h1 zhp snap target).2 ->
              be_auto_names sx = be_auto_names st ->
              be_attrs_added sx = be_attrs_added st -> clone_frame s0 sx).
    { intros sx Hbx Hgx Hnx Hax. eapply clone_frame_step; [exact Hst|..].
      - rewrite Hbx. apply bt_frame_refl.
      - rewrite Hbx. by eexists.
      - by rewrite Hgx.
      - intros k Hk. rewrite Hgx. apply Hk2. by apply create_keeps.
      - rewrite Hgx, Hz2. apply create_zpools.
      - done.
      - done. }
    destruct (zfs_send_receive h1 zhp snap target) as [[status received] h2] eqn:Hsr.
    cbn [fst snd] in *.
    assert (Hrun : forall sx, clone_frame s0 sx -> g_zfs sx = h2 ->
              exists rc s',
                match
                  (if decide (status <> 0)
                   then fun s3 =>
                     Some (Return 1,
                           with_err "be_send_fs_callback: failed to send dataset (%s)" s3)
                   else fun s3 =>
                     match
                       match zfs_iter_filesystems zhp (be_send_fs_callback depth) s3 with
                       | Some (rc0, s'1) => Some (Next rc0, s'1)
                       | None => None
                       end
                     with
                     | Some (Next a0, s'1) =>
                         (if decide (a0 <> 0) then fun s4 => Some (Return 1, s4)
                          else fun s4 => Some (Return 0, s4)) s'1
                     | Some (Return rc0, s'1) => Some (Return rc0, s'1)
                     | None => None
                     end) sx
                with
                | Some (Next rc0, s'0) | Some (Return rc0, s'0) => Some (rc0, s'0)
                | None => None
                end = Some (rc, s') /\ clone_frame s0 s').
    { intros sx Hsx Hgx. case_decide as Hstatus.
      - eexists _, _. split; [done|]. clone_frame_tac Hsx.
      - assert (Hzx : is_Some (zfs_ds (g_zfs sx) !! zhp)).
        { rewrite Hgx. apply Hk2. apply create_keeps. by rewrite Hz. }
        destruct (iter_until_runs (clone_frame sx) (be_send_fs_callback depth)
                    (Zfs.children (zfs_ds (g_zfs sx)) zhp) sx)
          as (rc1 & s1 & Hit & Hs1).
        + destruct Hsx as (_ & ? & ? & _). by apply clone_frame_refl.
        + intros x sy Hx Hsy. apply children_spec in Hx as [Hx Hpx].
          destruct Hsx as (Hb1 & _).
          apply bt_frame_fields in Hb1 as (_ & Hg1 & _ & Hg2 & _ & Hg3 & _).
          apply parent_shorter in Hpx.
          apply IH; [congruence..|done| | |]; [|lia..].
          destruct Hsy as (_ & _ & _ & Hk & _). by apply Hk.
        + unfold zfs_iter_filesystems. rewrite Hit.
          case_decide; eexists _, _; (split; [done|]); by eapply clone_frame_trans. }
    destruct (bool_decide (received = 0)); mstep.
    all: match goal with
         | |- exists rc s', match ?f ?sx with _ => _ end = _ /\ _ =>
             apply (Hrun sx); [apply Hframe; by autorewrite with be_state
                              | by autorewrite with be_state]
         end. }
  destruct (decide (strcmp (offset zhp (String.length oroot)) "" = 0)) as [Hroot|Hroot]; mstep.
  - rewrite Hprops. mstep.
    match goal with |- context [with_bt ?f ?x] =>
      apply (Htail (with_bt f x)); [clone_frame_tac Hs | done] end.
  - destruct (zfs_prop_get_mountpoint (g_zfs s) zhp) as [[mp src]|] eqn:Hmp; mstep;
      [|eexists _, _; split; [done | clone_frame_tac Hs]].
    case_decide as Hsrc; mstep; rewrite Hprops; mstep.
    + match goal with |- context [with_bt ?f ?x] =>
        apply (Htail (with_bt f x)); [clone_frame_tac Hs | done] end.
    + destruct (l !! ZFS_PROP_MOUNTPOINT) eqn:Hl; unfold ENOENT; mstep;
        match goal with |- context [with_bt ?f ?x] =>
          apply (Htail (with_bt f x)); [clone_frame_tac Hs | done] end.
Qed.

End SendRuns.

Section FirstCall.

Context (E : libbe).

(** The calls of a walk over the children of a node of the BE are added
    to the log. *)
Lemma children_walk_log (P : zfs_call -> Prop) (oroot rel : string)
    (cb : string -> state -> option (Z * state)) (st : state) (rc : Z) (s' : state) :
  obe_root_ds (bt st) = Some oroot ->
  (forall x sx rcx sx',
     walk_frame st sx ->
     (forall o, obe_root_ds (bt st) = Some o -> String.prefix o x = true) ->
     cb x sx = Some (rcx, sx') -> walk_frame st sx' /\ walk_calls P sx sx') ->
  zfs_iter_filesystems (oroot +:+ rel) cb st = Some (rc, s') ->
  exists cs, zfs_calls s' = (zfs_calls st ++ cs)%list.
Proof.
  intros Horoot Hcb Hit. unfold zfs_iter_filesystems in Hit.
  eapply (iter_until_walk P st) in Hit as [_ (cs & Hcs & _)]; [by exists cs| |].
  - intros x sx rcx sx' Hin Hsx Hx. eapply Hcb; [done| |done].
    intros o Ho. assert (o = oroot) as -> by congruence.
    apply children_spec in Hin as [_ Hp]. apply parent_prefix in Hp.
    eapply prefix_trans; [|exact Hp]. apply prefix_app. by exists rel.
  - apply walk_frame_refl.
Qed.

(** A clone walk that returns 0 began with the clone of the snapshot of
    the node it was called on. *)
Lemma be_clone_fs_callback_first (depth : nat) (oroot nroot snap rel : string)
    (s s' : state) :
  obe_root_ds (bt s) = Some oroot -> nbe_root_ds (bt s) = Some nroot ->
  obe_snap_name (bt s) = Some snap ->
  be_clone_fs_callback E depth (oroot +:+ rel) s = Some (0, s') ->
  exists props rest,
    zfs_calls s' =
      (zfs_calls s
       ++ Zfs_clone ((oroot +:+ rel) +:+ "@" +:+ snap) (nroot +:+ rel) props :: rest)%list.
Proof.
  intros Horoot Hnroot Hsnap. destruct depth as [|depth]; [done|].
  set (zhp := oroot +:+ rel).
  assert (Hlen : (String.length oroot <= String.length zhp)%nat)
    by (unfold zhp; rewrite length_append; lia).
  assert (Hoff : offset zhp (String.length oroot) = rel) by apply offset_app.
  cbn [be_clone_fs_callback]. mstep. rewrite Horoot. mstep.
  case_decide as Hcmp; mstep; [|done]. rewrite Hnroot, Hoff. mstep.
  assert (Htail : forall st : state,
    obe_root_ds (bt st) = Some oroot -> zfs_calls st = zfs_calls s ->
    body (
      do snap_name <- deref (obe_snap_name (bt s));
      let ss := zhp +:+ "@" +:+ snap_name in
      do zhp_ss <- zfs (fun h => zfs_open h ss ZFS_TYPE_SNAPSHOT);
      match zhp_ss with
      | None => bail "be_clone_fs_callback: failed to get handle to snapshot (%s): %s"
      | Some zhp_ss =>
          do b <- get_bt;
          let props := nvl_props (nbe_zfs_props b) in
          do r <- zfs_do (Zfs_clone zhp_ss (nroot +:+ rel) props)
                         (fun h => zfs_clone h zhp_ss (nroot +:+ rel) props);
          if decide (r <> 0) then
            run be_print_err "be_clone_fs_callback: failed to create clone dataset (%s): %s";
            do e <- query zfs_errno;
            if decide (e = EZFS_EXISTS) then leave (BE_ERR_EXISTS E) else leave 1
          else
            do _ <- call (zfs_iter_filesystems zhp (be_clone_fs_callback E depth));
            leave 0
      end) st = Some (0, s') ->
    exists props rest,
      zfs_calls s' =
        (zfs_calls s ++ Zfs_clone (zhp +:+ "@" +:+ snap) (nroot +:+ rel) props :: rest)%list).
  { intros st Hst Hc. mstep. rewrite Hsnap. mstep.
    unfold zfs_open at 1.
    destruct (zfs_dataset_exists (g_zfs st) (zhp +:+ "@" +:+ snap) ZFS_TYPE_SNAPSHOT) eqn:Hex;
      mstep; [|done].
    unfold zfs_open. rewrite Hex. mstep.
    case_decide as Hrc; mstep.
    - case_decide; mstep; [|done]. intros [= _ <-]. autorewrite with be_state.
      rewrite Hc. by eexists _, [].
    - match goal with |- context [zfs_iter_filesystems zhp _ ?st1] =>
        destruct (zfs_iter_filesystems zhp (be_clone_fs_callback E depth) st1)
          as [[rc1 s1]|] eqn:Hit; [|done];
        apply (children_walk_log (cloned_ok st1) oroot rel) in Hit as [cs Hcs];
          [|by autorewrite with be_state
           |intros x sx rcx sx'; apply be_clone_fs_callback_walk]
      end.
      intros [= <-]. rewrite Hcs. autorewrite with be_state. rewrite Hc.
      rewrite <- app_assoc. by eexists _, cs. }
  destruct (nbe_zfs_props (bt s)) as [l|] eqn:Hprops.
  2: { case_decide; mstep; rewrite ?Hprops; mstep; try done.
       destruct (zfs_prop_get_mountpoint (g_zfs s) zhp) as [[mp src]|]; mstep; [|done].
       case_decide; mstep; rewrite Hprops; unfold EINVAL, ENOENT; mstep; done. }
  case_decide as Hroot; mstep.
  - rewrite Hprops. mstep.
    match goal with |- context [with_bt ?f ?x] => by apply (Htail (with_bt f x)) end.
  - destruct (zfs_prop_get_mountpoint (g_zfs s) zhp) as [[mp src]|] eqn:Hmp; mstep; [|done].
    case_decide as Hsrc; mstep; rewrite Hprops; mstep.
    + match goal with |- context [with_bt ?f ?x] => by apply (Htail (with_bt f x)) end.
    + destruct (l !! ZFS_PROP_MOUNTPOINT) eqn:Hl; unfold ENOENT; mstep;
        match goal with |- context [with_bt ?f ?x] => by apply (Htail (with_bt f x)) end.
Qed.

End FirstCall.

Section FirstSend.

Context (E : libbe).

(** A send walk that returns 0 began with the creation of the
    counterpart of the node it was called on and the receive into it. *)
Lemma be_send_fs_callback_first (depth : nat) (oroot nroot snap rel : string)
    (s s' : state) :
  obe_root_ds (bt s) = Some oroot -> nbe_root_ds (bt s) = Some nroot ->
  obe_snap_name (bt s) = Some snap ->
  be_send_fs_callback depth (oroot +:+ rel) s = Some (0, s') ->
  exists props rest,
    zfs_calls s' =
      (zfs_calls s
       ++ Zfs_create (nroot +:+ rel) props :: Zfs_receive (nroot +:+ rel) snap :: rest)%list.
Proof.
  intros Horoot Hnroot Hsnap. destruct depth as [|depth]; [done|].
  set (zhp := oroot +:+ rel).
  assert (Hlen : (String.length oroot <= String.length zhp)%nat)
    by (unfold zhp; rewrite length_append; lia).
  assert (Hoff : offset zhp (String.length oroot) = rel) by apply offset_app.
  cbn [be_send_fs_callback]. mstep. rewrite Horoot. mstep.
  case_decide as Hcmp; mstep; [|done]. rewrite Hnroot, Hoff. mstep.
  set (target := nroot +:+ rel).
  assert (Htail : forall st : state,
    obe_root_ds (bt st) = Some oroot -> zfs_calls st = zfs_calls s ->
    body (
      do snap_name <- deref (obe_snap_name (bt s));
      let ss := zhp +:+ "@" +:+ snap_name in
      do zhp_ss <- zfs (fun h => zfs_open h ss ZFS_TYPE_SNAPSHOT);
      match zhp_ss with
      | None => bail "be_send_fs_callback: failed to get handle to snapshot (%s): %s"
      | Some zhp_ss =>
          do b <- get_bt;
          let props := nvl_props (nbe_zfs_props b) in
          do r <- zfs_do (Zfs_create target props) (fun h => zfs_create h target props);
          if decide (r <> 0) then
            bail "be_send_fs_callback: failed to create new dataset '%s': %s"
          else
            do '(status, received) <-
              zfs_do (Zfs_receive target snap_name)
                     (fun h => zfs_send_receive h zhp snap_name target);
            run when (negb (bool_decide (received = 0)))
                  (be_print_err "be_send_fs_callback: failed to recv dataset (%s)");
            if decide (status <> 0) then
              bail "be_send_fs_callback: failed to send dataset (%s)"
            else
              do r <- call (zfs_iter_filesystems zhp (be_send_fs_callback depth));
              if decide (r <> 0) then leave 1 else leave 0
      end) st = Some (0, s') ->
    exists props rest,
      zfs_calls s' =
        (zfs_calls s ++ Zfs_create target props :: Zfs_receive target snap :: rest)%list).
  { intros st Hst Hc. mstep. rewrite Hsnap. mstep.
    unfold zfs_open at 1.
    destruct (zfs_dataset_exists (g_zfs st) (zhp +:+ "@" +:+ snap) ZFS_TYPE_SNAPSHOT) eqn:Hex;
      mstep; [|done].
    unfold zfs_open. rewrite Hex. mstep.
    case_decide as Hrc; mstep; [done|].
    destruct (zfs_send_receive _ zhp snap target) as [[status received] h2] eqn:Hsr.
    cbn [fst snd].
    destruct (bool_decide (received = 0)); mstep;
      (case_decide as Hstatus; mstep; [done|]);
      match goal with |- context [zfs_iter_filesystems zhp _ ?st1] =>
        destruct (zfs_iter_filesystems zhp (be_send_fs_callback depth) st1)
          as [[rc1 s1]|] eqn:Hit; [|done];
        apply (children_walk_log (sent_ok st1) oroot rel) in Hit as [cs Hcs];
          [|by autorewrite with be_state
           |intros x sx rcx sx'; apply be_send_fs_callback_walk]
      end;
      (case_decide; mstep; [done|]);
      intros [= <-]; rewrite Hcs; autorewrite with be_state; rewrite Hc;
      rewrite <- !app_assoc; by eexists _, cs. }
  destruct (nbe_zfs_props (bt s)) as [l|] eqn:Hprops.
  2: { case_decide; mstep; rewrite ?Hprops; unfold EINVAL; mstep; try done.
       destruct (zfs_prop_get_mountpoint (g_zfs s) zhp) as [[mp src]|]; mstep; [|done].
       case_decide; mstep; rewrite Hprops; unfold EINVAL, ENOENT; mstep; done. }
  case_decide as Hroot; mstep.
  - rewrite Hprops. mstep.
    match goal with |- context [with_bt ?f ?x] => by apply (Htail (with_bt f x)) end.
  - destruct (zfs_prop_get_mountpoint (g_zfs s) zhp) as [[mp src]|] eqn:Hmp; mstep; [|done].
    case_decide as Hsrc; mstep; rewrite Hprops; mstep.
    + match goal with |- context [with_bt ?f ?x] => by apply (Htail (with_bt f x)) end.
    + destruct (l !! ZFS_PROP_MOUNTPOINT) eqn:Hl; unfold ENOENT; mstep;
        match goal with |- context [with_bt ?f ?x] => by apply (Htail (with_bt f x)) end.
Qed.

End FirstSend.

Section Replicators.

Context (E : libbe).

(** C4. A walk of either replicator from a node [oroot ++ rel] of the BE
    rooted at [oroot], in a name space whose names libzfs accepts,
    returns, and every libzfs call it made that changes the name space
    is there for a source node [oroot ++ rel'] of the BE: it creates the
    destination [nroot ++ rel'] of that node with a property set that
    follows the policy for that node (or, in the send walk, receives
    into a destination so created).  The policy: canmount is noauto for
    every node; for the root of the BE mountpoint is legacy; for another
    node mountpoint is the node's own value when its source is local and
    is absent when it is inherited.  A walk that returns 0 began with
    the creation of the destination of the node it was called on. *)
Theorem replicated_node_props (oroot nroot snap rel : string) (s : state) :
  obe_root_ds (bt s) = Some oroot -> nbe_root_ds (bt s) = Some nroot ->
  obe_snap_name (bt s) = Some snap ->
  is_Some (nbe_zfs_props (bt s)) ->
  names_bounded (zfs_ds (g_zfs s)) ->
  is_Some (zfs_ds (g_zfs s) !! (oroot +:+ rel)) ->
  (exists rc s' cs,
     be_clone_fs_callback E walk_depth (oroot +:+ rel) s = Some (rc, s')
     /\ zfs_calls s' = (zfs_calls s ++ cs)%list
     /\ Forall (cloned_ok s) cs
     /\ (rc = 0 ->
         exists props rest,
           cs = Zfs_clone ((oroot +:+ rel) +:+ "@" +:+ snap) (nroot +:+ rel) props :: rest))
  /\ (exists rc s' cs,
        be_send_fs_callback walk_depth (oroot +:+ rel) s = Some (rc, s')
        /\ zfs_calls s' = (zfs_calls s ++ cs)%list
        /\ Forall (sent_ok s) cs
        /\ (rc = 0 ->
            exists props rest,
              cs = Zfs_create (nroot +:+ rel) props
                   :: Zfs_receive (nroot +:+ rel) snap :: rest)).
Proof.
  intros Horoot Hnroot Hsnap Hprops Hbd Hzhp.
  assert (Hlen : (String.length oroot <= String.length (oroot +:+ rel))%nat)
    by (rewrite length_append; lia).
  assert (Hdepth : (ZFS_MAXNAMELEN <= walk_depth + String.length (oroot +:+ rel))%nat)
    by (unfold walk_depth; lia).
  assert (Hpre : forall o, obe_root_ds (bt s) = Some o ->
            String.prefix o (oroot +:+ rel) = true).
  { intros o Ho. assert (o = oroot) as -> by congruence. apply prefix_app. by exists rel. }
  assert (Hs : clone_frame s s) by by apply clone_frame_refl.
  split.
  - destruct (be_clone_fs_callback_runs E oroot nroot snap walk_depth s (oroot +:+ rel) s
                Horoot Hnroot Hsnap Hs Hzhp Hlen Hdepth) as (rc & s' & Hrun & _).
    destruct (be_clone_fs_callback_walk E walk_depth s (oroot +:+ rel) s rc s'
                (walk_frame_refl s) Hpre Hrun) as [_ (cs & Hcs & Hall)].
    exists rc, s', cs. split; [done|]. split; [done|]. split; [done|].
    intros ->.
    destruct (be_clone_fs_callback_first E walk_depth oroot nroot snap rel s s'
                Horoot Hnroot Hsnap Hrun) as (props & rest & Hfirst).
    exists props, rest. rewrite Hcs in Hfirst. by apply app_inv_head in Hfirst.
  - destruct (be_send_fs_callback_runs oroot nroot snap walk_depth s (oroot +:+ rel) s
                Horoot Hnroot Hsnap Hs Hzhp Hlen Hdepth) as (rc & s' & Hrun & _).
    destruct (be_send_fs_callback_walk walk_depth s (oroot +:+ rel) s rc s'
                (walk_frame_refl s) Hpre Hrun) as [_ (cs & Hcs & Hall)].
    exists rc, s', cs. split; [done|]. split; [done|]. split; [done|].
    intros ->.
    destruct (be_send_fs_callback_first walk_depth oroot nroot snap rel s s'
                Horoot Hnroot Hsnap Hrun) as (props & rest & Hfirst).
    exists props, rest. rewrite Hcs in Hfirst. by apply app_inv_head in Hfirst.
Qed.

End Replicators.

(** *** The walks over a BE with a local and an inherited mountpoint

    be0 with its child var, whose mountpoint /var is set on it, and
    var/log below it, which inherits its mountpoint; all three have the
    snapshot s1. *)
Definition demo_tree : state :=
  with_bt (fun _ => set_nbe_zfs_props (Some ∅)
                      (set_nbe_root_ds (Some "rpool/ROOT/be1")
                        (set_obe_root_ds (Some "rpool/ROOT/be0")
                          (set_obe_snap_name (Some "s1") bt0))))
    (init_state
       (Libzfs ["rpool"]
          (<["rpool/ROOT/be0/var/log" :=
               Dataset ∅ ("/var/log", ZPROP_SRC_INHERITED) None None {["s1"]}]>
          (<["rpool/ROOT/be0/var" :=
               Dataset {["mountpoint" := "/var"]} ("/var", ZPROP_SRC_LOCAL) None None
                       {["s1"]}]>
          (<["rpool/ROOT/be0" :=
               Dataset {["mountpoint" := "legacy"]} ("legacy", ZPROP_SRC_LOCAL) (Some "/")
                       None {["s1"]}]>
          (<["rpool/ROOT" := Dataset ∅ ("legacy", ZPROP_SRC_LOCAL) None None ∅]>
          (<["rpool" := Dataset ∅ ("/rpool", 2) None None ∅]> ∅))))) EZFS_SUCCESS)).

Definition props_root : nvlist :=
  <[ZFS_PROP_CANMOUNT := "noauto"]> (<[ZFS_PROP_MOUNTPOINT := ZFS_MOUNTPOINT_LEGACY]> ∅).
Definition props_var : nvlist :=
  <[ZFS_PROP_CANMOUNT := "noauto"]> (<[ZFS_PROP_MOUNTPOINT := "/var"]> ∅).
Definition props_log : nvlist := <[ZFS_PROP_CANMOUNT := "noauto"]> ∅.

Lemma replicated_node_props_witness :
  (exists s',
     be_clone_fs_callback demo_libbe walk_depth "rpool/ROOT/be0" demo_tree = Some (0, s')
     /\ zfs_calls s' =
          [Zfs_clone "rpool/ROOT/be0@s1" "rpool/ROOT/be1" props_root;
           Zfs_clone "rpool/ROOT/be0/var@s1" "rpool/ROOT/be1/var" props_var;
           Zfs_clone "rpool/ROOT/be0/var/log@s1" "rpool/ROOT/be1/var/log" props_log]
     /\ Forall (cloned_ok demo_tree) (zfs_calls s'))
  /\ (exists s',
        be_send_fs_callback walk_depth "rpool/ROOT/be0" demo_tree = Some (0, s')
        /\ zfs_calls s' =
             [Zfs_create "rpool/ROOT/be1" props_root;
              Zfs_receive "rpool/ROOT/be1" "s1";
              Zfs_create "rpool/ROOT/be1/var" props_var;
              Zfs_receive "rpool/ROOT/be1/var" "s1";
              Zfs_create "rpool/ROOT/be1/var/log" props_log;
              Zfs_receive "rpool/ROOT/be1/var/log" "s1"]
        /\ Forall (sent_ok demo_tree) (zfs_calls s')).
Proof.
  pose proof (replicated_node_props demo_libbe "rpool/ROOT/be0" "rpool/ROOT/be1" "s1" ""
                demo_tree eq_refl eq_refl eq_refl) as H.
  lapply H; [clear H; intros H | eexists; reflexivity].
  lapply H; [clear H; intros H | apply names_bounded_check; vm_compute; reflexivity].
  lapply H; [clear H; intros H | vm_compute; eexists; reflexivity].
  change ("rpool/ROOT/be0" +:+ "") with "rpool/ROOT/be0" in H.
  change (zfs_calls demo_tree) with (@nil zfs_call) in H.
  destruct H as [(rc & s' & cs & Hrun & Hcs & Hall & _) (rc2 & s2 & cs2 & Hrun2 & Hcs2 & Hall2 & _)].
  cbn [app] in Hcs, Hcs2. subst cs cs2.
  split.
  - assert (Hc : (fun r => (r.1, zfs_calls r.2))
                   <$> be_clone_fs_callback demo_libbe walk_depth "rpool/ROOT/be0" demo_tree
                 = Some (0, [Zfs_clone "rpool/ROOT/be0@s1" "rpool/ROOT/be1" props_root;
                             Zfs_clone "rpool/ROOT/be0/var@s1" "rpool/ROOT/be1/var" props_var;
                             Zfs_clone "rpool/ROOT/be0/var/log@s1" "rpool/ROOT/be1/var/log"
                                       props_log]))
      by (vm_compute; reflexivity).
    rewrite Hrun in Hc. injection Hc as Hrc Hcalls. rewrite Hrc in Hrun.
    exists s'. split; [exact Hrun|]. split; [exact Hcalls | exact Hall].
  - assert (Hc : (fun r => (r.1, zfs_calls r.2))
                   <$> be_send_fs_callback walk_depth "rpool/ROOT/be0" demo_tree
                 = Some (0, [Zfs_create "rpool/ROOT/be1" props_root;
                             Zfs_receive "rpool/ROOT/be1" "s1";
                             Zfs_create "rpool/ROOT/be1/var" props_var;
                             Zfs_receive "rpool/ROOT/be1/var" "s1";
                             Zfs_create "rpool/ROOT/be1/var/log" props_log;
                             Zfs_receive "rpool/ROOT/be1/var/log" "s1"]))
      by (vm_compute; reflexivity).
    rewrite Hrun2 in Hc. injection Hc as Hrc Hcalls. rewrite Hrc in Hrun2.
    exists s2. split; [exact Hrun2|]. split; [exact Hcalls | exact Hall2].
Defined.
